(** * Blood report analyser: a shallow embedding of the three Python modules

    The development follows the repository's files:
    - [Py]            the Python built-ins the code calls (exceptions, text);
    - [Json]          the [json] library: values, [dumps] and [loads];
    - [Obj]           the operations of Python on decoded values;
    - [Analyser]      blood_report_analyser.py ([image_format], [analyze_blood_report]);
    - [PdfGenerator]  pdf_generator.py ([BloodReportPDF], [generate_pdf]);
    - [App]           app.py ([process_image], [format_json_for_display]);
    - [Scripts]       the two modules run as scripts;
    - [Spec]          the words of the properties;
    - [Examples]      sample surroundings, replies and records.
    The properties follow, file by file; further properties of the same
    code come after them: the round trip of a record through its JSON
    text, the run from the reply to the outputs of the form, the scripts.

    How the program is read:
    - text is a [string], one [ascii] per character, standing for the code
      points U+0000..U+00FF; indices and lengths are in [Z] as Python has
      them (-1 for a character not found);
    - an exception is a value of the error monad [result]; the handlers
      [except Exception] and [except json.JSONDecodeError] are
      [try_except] and [try_except_class];
    - the clock, the file system, the remote model and the write of the
      document are fields of an environment record, so that a run is a
      function of them;
    - the FPDF object is the list of calls made on it, in order;
    - a dict is the list of its items in insertion order;
    - a float is the literal it was read from (its arithmetic plays no part
      here), and the interpreter's limits (the recursion limit, the 4300
      digits of an int) are left out of [Json]: the properties that quote
      the text, the [str] or the truth of a value, or that say which
      replies decode, are stated for the values of [Spec.plain] and the
      texts of [Spec.plain_text], on which neither floats nor limits nor
      escapes above U+00FF play a part. *)

From Stdlib Require Import String Ascii List ZArith Bool Lia.
From Stdlib Require Import Strings.Byte.
From Stdlib Require Import DecimalString Decimal.
From Stdlib Require DecimalFacts DecimalPos DecimalZ.
Import ListNotations.
Local Open Scope string_scope.
Local Open Scope Z_scope.

(* ===================================================================== *)
(** ** Python built-ins *)
(* ===================================================================== *)

Module Py.

(** *** Exceptions and the error monad *)

(** The classes of [Exception] the code and the built-ins tell apart;
    [OtherException] is any other subclass (a failure of the network, of
    the file system, of a library). *)
Inductive exn_class : Set :=
| KeyError
| TypeError
| AttributeError
| JSONDecodeError
| OtherException.

(** An exception: its class and [str(e)]. *)
Record exn : Set := Exn { exn_cls : exn_class; exn_str : string }.

Inductive result (A : Type) : Type :=
| Ok (a : A)
| Raise (e : exn).
Arguments Ok {A} a.
Arguments Raise {A} e.

Definition bind {A B} (m : result A) (k : A -> result B) : result B :=
  match m with
  | Ok a => k a
  | Raise e => Raise e
  end.

Declare Scope result_scope.
Delimit Scope result_scope with result.
Notation "x <- m ;; k" := (bind m (fun x => k))
  (at level 200, m at level 100, k at level 200, right associativity)
  : result_scope.

(** [try: body  except Exception as e: handler e] *)
Definition try_except {A} (body : result A) (handler : exn -> result A)
  : result A :=
  match body with
  | Ok a => Ok a
  | Raise e => handler e
  end.

(** [try: body  except cls: handler]; any other class keeps propagating. *)
Definition is_class (c : exn_class) (e : exn) : bool :=
  match c, exn_cls e with
  | KeyError, KeyError => true
  | TypeError, TypeError => true
  | AttributeError, AttributeError => true
  | JSONDecodeError, JSONDecodeError => true
  | OtherException, OtherException => true
  | _, _ => false
  end.

Definition try_except_class {A} (body : result A) (c : exn_class)
    (handler : result A) : result A :=
  match body with
  | Ok a => Ok a
  | Raise e => if is_class c e then handler else Raise e
  end.

(** Two steps that each append to the same list (the calls made on an
    object, the lines of an output): the second runs when the first did
    not raise. *)
Definition andthen {A} (a b : result (list A)) : result (list A) :=
  bind a (fun x => bind b (fun y => Ok (x ++ y)%list)).
Infix ">>" := andthen (at level 62, right associativity) : result_scope.

(** [for x in items: body x] *)
Fixpoint for_each {A B} (items : list A) (body : A -> result (list B))
  : result (list B) :=
  match items with
  | nil => Ok nil
  | cons x r => andthen (body x) (for_each r body)
  end.

(** *** Text *)

Definition code (c : ascii) : Z := Z.of_N (N_of_ascii c).
Definition chr (z : Z) : ascii := ascii_of_N (Z.to_N z).

(** The double quote character. *)
Definition dquote : ascii := chr 34.

(** [str.lower] on one character: A-Z, and the Latin-1 capitals
    U+00C0..U+00DE without the multiplication sign U+00D7. *)
Definition lower_char (c : ascii) : ascii :=
  let n := code c in
  if ((65 <=? n) && (n <=? 90)) || ((192 <=? n) && (n <=? 222) && negb (n =? 215))
  then chr (n + 32)
  else c.

Fixpoint lower (s : string) : string :=
  match s with
  | EmptyString => EmptyString
  | String c r => String (lower_char c) (lower r)
  end.

Definition len (s : string) : Z := Z.of_nat (String.length s).

Fixpoint take (n : nat) (s : string) : string :=
  match n, s with
  | S n', String c r => String c (take n' r)
  | _, _ => EmptyString
  end.

Fixpoint drop (n : nat) (s : string) : string :=
  match n, s with
  | S n', String _ r => drop n' r
  | _, _ => s
  end.

(** A slice bound as Python resolves it: negative counts from the end,
    and the result is clamped to [0, len]. *)
Definition clamp (n i : Z) : Z :=
  if i <? 0 then Z.max 0 (i + n) else Z.min i n.

(** [s[lo:hi]] *)
Definition slice (s : string) (lo hi : Z) : string :=
  let a := clamp (len s) lo in
  let b := clamp (len s) hi in
  take (Z.to_nat (b - a)) (drop (Z.to_nat a) s).

(** [s.find(c)]: index of the first [c], or -1. *)
Fixpoint find_from (c : ascii) (s : string) (i : Z) : Z :=
  match s with
  | EmptyString => -1
  | String a r => if Ascii.eqb a c then i else find_from c r (i + 1)
  end.
Definition find (s : string) (c : ascii) : Z := find_from c s 0.

(** [s.rfind(c)]: index of the last [c], or -1. *)
Fixpoint rfind_from (c : ascii) (s : string) (i last : Z) : Z :=
  match s with
  | EmptyString => last
  | String a r => rfind_from c r (i + 1) (if Ascii.eqb a c then i else last)
  end.
Definition rfind (s : string) (c : ascii) : Z := rfind_from c s 0 (-1).

(** [s.startswith(p)] *)
Fixpoint startswith (s p : string) : bool :=
  match p, s with
  | EmptyString, _ => true
  | String a p', String b s' => Ascii.eqb a b && startswith s' p'
  | String _ _, EmptyString => false
  end.

(** [s.endswith(p)] *)
Definition endswith (s p : string) : bool :=
  (String.length p <=? String.length s)%nat
  && String.eqb (drop (String.length s - String.length p) s) p.

(** [s.endswith((p1, p2, ...))] *)
Definition endswith_any (s : string) (ps : list string) : bool :=
  existsb (endswith s) ps.

(** [sep.join(parts)] *)
Fixpoint join (sep : string) (parts : list string) : string :=
  match parts with
  | [] => ""
  | [p] => p
  | p :: rest => p ++ sep ++ join sep rest
  end.

(** [str(n)] for an int. *)
Definition str_int (z : Z) : string := NilZero.string_of_int (Z.to_int z).

End Py.

(* ===================================================================== *)
(** ** The json library: values, [dumps], [loads] *)
(* ===================================================================== *)

Module Json.
Import Py.

(** What [json.loads] builds and [json.dumps] prints.  A float is kept as
    the literal it was read from, where Python builds a double and prints
    it anew: what is said of the text, the [str] or the truth of a value is
    said of values without floats ([Spec.plain]).  A dict keeps its keys
    in insertion order. *)
Unset Elimination Schemes.
Inductive json : Type :=
| JNull
| JBool (b : bool)
| JInt (z : Z)
| JFloat (literal : string)
| JStr (s : string)
| JList (l : list json)
| JDict (d : list (string * json)).
Set Elimination Schemes.

Definition dict : Type := list (string * json).

(** [d.get(k)] as an option; [None] when the key is absent. *)
Fixpoint dict_get (k : string) (d : dict) : option json :=
  match d with
  | [] => None
  | (k', v) :: r => if String.eqb k' k then Some v else dict_get k r
  end.

(** [k in d] *)
Definition dict_mem (k : string) (d : dict) : bool :=
  match dict_get k d with Some _ => true | None => false end.

(** [d[k] = v]: replaces in place, or appends a new key. *)
Fixpoint dict_set (k : string) (v : json) (d : dict) : dict :=
  match d with
  | [] => [(k, v)]
  | (k', v') :: r =>
      if String.eqb k' k then (k', v) :: r else (k', v') :: dict_set k v r
  end.

Definition keys (d : dict) : list string := map fst d.

(** *** Encoding: [json.dumps(obj, indent=2)] *)

Definition hex_digit (n : Z) : ascii :=
  if n <? 10 then chr (48 + n) else chr (87 + n).

(** [\u00xx] for one character. *)
Definition u_escape (c : ascii) : string :=
  "\u00" ++ String (hex_digit (code c / 16)) (String (hex_digit (code c mod 16)) "").

(** One character under [ensure_ascii]: the short escapes, the character
    itself from space to tilde, a [\u] escape for the rest. *)
Definition encode_char (c : ascii) : string :=
  let n := code c in
  if n =? 34 then String "\" (String c "")
  else if n =? 92 then "\\"
  else if n =? 10 then "\n"
  else if n =? 13 then "\r"
  else if n =? 9 then "\t"
  else if n =? 8 then "\b"
  else if n =? 12 then "\f"
  else if (32 <=? n) && (n <=? 126) then String c ""
  else u_escape c.

Fixpoint encode_chars (s : string) : string :=
  match s with
  | EmptyString => ""
  | String c r => encode_char c ++ encode_chars r
  end.

Definition encode_str (s : string) : string :=
  String dquote (encode_chars s ++ String dquote "").

Fixpoint spaces (n : nat) : string :=
  match n with
  | O => ""
  | S n' => String " " (spaces n')
  end.

(** The line break and indentation that opens a line at a nesting level. *)
Definition newline_indent (level : nat) : string :=
  String (chr 10) (spaces (2 * level)).

Fixpoint encode (level : nat) (v : json) : string :=
  match v with
  | JNull => "null"
  | JBool true => "true"
  | JBool false => "false"
  | JInt z => str_int z
  | JFloat literal => literal
  | JStr s => encode_str s
  | JList [] => "[]"
  | JList l =>
      "[" ++ newline_indent (S level)
          ++ join ("," ++ newline_indent (S level)) (map (encode (S level)) l)
          ++ newline_indent level ++ "]"
  | JDict [] => "{}"
  | JDict d =>
      "{" ++ newline_indent (S level)
          ++ join ("," ++ newline_indent (S level))
               (map (fun kv => encode_str (fst kv) ++ ": " ++ encode (S level) (snd kv)) d)
          ++ newline_indent level ++ "}"
  end.

Definition dumps (v : json) : string := encode 0 v.

(** *** Decoding: [json.loads(s)] *)

Definition is_ws (c : ascii) : bool :=
  let n := code c in (n =? 32) || (n =? 9) || (n =? 10) || (n =? 13).

Fixpoint skip_ws (s : string) : string :=
  match s with
  | String c r => if is_ws c then skip_ws r else s
  | EmptyString => s
  end.

Definition is_digit (c : ascii) : bool :=
  let n := code c in (48 <=? n) && (n <=? 57).

Definition hex_val (c : ascii) : option Z :=
  let n := code c in
  if (48 <=? n) && (n <=? 57) then Some (n - 48)
  else if (97 <=? n) && (n <=? 102) then Some (n - 87)
  else if (65 <=? n) && (n <=? 70) then Some (n - 55)
  else None.

Definition hex4 (a b c d : ascii) : option Z :=
  match hex_val a, hex_val b, hex_val c, hex_val d with
  | Some x, Some y, Some z, Some w => Some (((x * 16 + y) * 16 + z) * 16 + w)
  | _, _, _, _ => None
  end.

(** The character a one-letter escape stands for. *)
Definition unescape (e : ascii) : option ascii :=
  let n := code e in
  if n =? 34 then Some e
  else if n =? 92 then Some e
  else if n =? 47 then Some e
  else if n =? 98 then Some (chr 8)
  else if n =? 102 then Some (chr 12)
  else if n =? 110 then Some (chr 10)
  else if n =? 114 then Some (chr 13)
  else if n =? 116 then Some (chr 9)
  else None.

Definition cons_fst (c : ascii) (r : option (string * string))
  : option (string * string) :=
  match r with
  | Some (t, rest) => Some (String c t, rest)
  | None => None
  end.

(** The body of a string literal, after its opening quote: the decoded text
    and what follows the closing quote.  Strict mode: a raw control
    character ends the parse.  A [\u] escape above U+00FF names a
    character this model of text does not have, and is refused here. *)
Fixpoint scan_string (s : string) : option (string * string) :=
  match s with
  | EmptyString => None
  | String c r =>
      if code c =? 34 then Some ("", r)
      else if code c =? 92 then
        match r with
        | EmptyString => None
        | String e r1 =>
            if code e =? 117 then
              match r1 with
              | String h1 (String h2 (String h3 (String h4 r2))) =>
                  match hex4 h1 h2 h3 h4 with
                  | Some n => if n <? 256 then cons_fst (chr n) (scan_string r2)
                              else None
                  | None => None
                  end
              | _ => None
              end
            else
              match unescape e with
              | Some ch => cons_fst ch (scan_string r1)
              | None => None
              end
        end
      else if code c <? 32 then None
      else cons_fst c (scan_string r)
  end.

(** The longest run of digits at the head of [s], and the rest. *)
Fixpoint span_digits (s : string) : string * string :=
  match s with
  | String c r =>
      if is_digit c then let '(ds, rest) := span_digits r in (String c ds, rest)
      else ("", s)
  | EmptyString => ("", s)
  end.

(** The fraction (a dot and at least one digit) when present. *)
Definition scan_frac (s : string) : string * string :=
  match s with
  | String c r =>
      if code c =? 46 then
        match span_digits r with
        | (EmptyString, _) => ("", s)
        | (ds, rest) => (String c ds, rest)
        end
      else ("", s)
  | EmptyString => ("", s)
  end.

(** The exponent (e or E, an optional sign, at least one digit) when
    present. *)
Definition scan_exp (s : string) : string * string :=
  match s with
  | String c r =>
      if (code c =? 101) || (code c =? 69) then
        let '(sg, r1) :=
          match r with
          | String g r' => if (code g =? 45) || (code g =? 43)
                           then (String g "", r') else ("", r)
          | EmptyString => ("", r)
          end in
        match span_digits r1 with
        | (EmptyString, _) => ("", s)
        | (ds, rest) => (String c (sg ++ ds), rest)
        end
      else ("", s)
  | EmptyString => ("", s)
  end.

(** A number: an optional minus, then 0 or a run of digits that does not
    start with 0, then an optional fraction and exponent; an int without
    them, a float with either. *)
Definition scan_number (s : string) : option (json * string) :=
  let '(sign, s1) :=
    match s with
    | String c r => if code c =? 45 then (String c "", r) else ("", s)
    | EmptyString => ("", s)
    end in
  match s1 with
  | String c r =>
      if is_digit c then
        let '(ip, s2) :=
          if code c =? 48 then (String c "", r) else span_digits s1 in
        let '(fp, s3) := scan_frac s2 in
        let '(ep, s4) := scan_exp s3 in
        match fp, ep with
        | EmptyString, EmptyString =>
            match NilZero.int_of_string (sign ++ ip) with
            | Some d => Some (JInt (Z.of_int d), s4)
            | None => None
            end
        | _, _ => Some (JFloat (sign ++ ip ++ fp ++ ep), s4)
        end
      else None
  | EmptyString => None
  end.

(** [s] with the prefix [p] removed, when it starts with it. *)
Fixpoint strip_prefix (p s : string) : option string :=
  match p, s with
  | EmptyString, _ => Some s
  | String a p', String b s' => if Ascii.eqb a b then strip_prefix p' s' else None
  | String _ _, EmptyString => None
  end.

Definition scan_constant (s : string) : option (json * string) :=
  match strip_prefix "null" s with Some r => Some (JNull, r) | None =>
  match strip_prefix "true" s with Some r => Some (JBool true, r) | None =>
  match strip_prefix "false" s with Some r => Some (JBool false, r) | None =>
  match strip_prefix "NaN" s with Some r => Some (JFloat "NaN", r) | None =>
  match strip_prefix "Infinity" s with Some r => Some (JFloat "Infinity", r) | None =>
  match strip_prefix "-Infinity" s with Some r => Some (JFloat "-Infinity", r) | None =>
  None end end end end end end.

(** One value at the head of [s].  [fuel] bounds the depth of the calls;
    [decode] gives one more than the text has characters, which is enough
    for every text (lemma [decode_fuel_is_enough]).  [scan_members] starts
    after the opening quote of a key, [scan_elements] at an element. *)
Fixpoint scan_value (fuel : nat) (s : string) : option (json * string) :=
  match fuel with
  | O => None
  | S f =>
      match s with
      | EmptyString => None
      | String c r =>
          if code c =? 34 then
            match scan_string r with
            | Some (t, rest) => Some (JStr t, rest)
            | None => None
            end
          else if code c =? 123 then
            match skip_ws r with
            | String c1 r1 =>
                if code c1 =? 125 then Some (JDict [], r1)
                else if code c1 =? 34 then scan_members f r1 []
                else None
            | EmptyString => None
            end
          else if code c =? 91 then
            match skip_ws r with
            | String c1 r1 =>
                if code c1 =? 93 then Some (JList [], r1)
                else scan_elements f (String c1 r1) []
            | EmptyString => None
            end
          else
            match scan_constant s with
            | Some res => Some res
            | None => scan_number s
            end
      end
  end
with scan_members (fuel : nat) (s : string) (acc : dict)
  : option (json * string) :=
  match fuel with
  | O => None
  | S f =>
      match scan_string s with
      | None => None
      | Some (key, r) =>
          match skip_ws r with
          | String c r1 =>
              if code c =? 58 then
                match scan_value f (skip_ws r1) with
                | None => None
                | Some (v, r2) =>
                    let acc' := dict_set key v acc in
                    match skip_ws r2 with
                    | String c2 r3 =>
                        if code c2 =? 125 then Some (JDict acc', r3)
                        else if code c2 =? 44 then
                          match skip_ws r3 with
                          | String c3 r4 =>
                              if code c3 =? 34 then scan_members f r4 acc'
                              else None
                          | EmptyString => None
                          end
                        else None
                    | EmptyString => None
                    end
                end
              else None
          | EmptyString => None
          end
      end
  end
with scan_elements (fuel : nat) (s : string) (acc : list json)
  : option (json * string) :=
  match fuel with
  | O => None
  | S f =>
      match scan_value f s with
      | None => None
      | Some (v, r) =>
          let acc' := (acc ++ [v])%list in
          match skip_ws r with
          | String c r1 =>
              if code c =? 93 then Some (JList acc', r1)
              else if code c =? 44 then scan_elements f (skip_ws r1) acc'
              else None
          | EmptyString => None
          end
      end
  end.

(** The decoder proper: leading blanks, one value, trailing blanks,
    nothing else. *)
Definition decode (s : string) : option json :=
  match scan_value (S (String.length s)) (skip_ws s) with
  | Some (v, rest) =>
      match skip_ws rest with
      | EmptyString => Some v
      | String _ _ => None
      end
  | None => None
  end.

(** [json.loads(s)]: the value, or [JSONDecodeError] (the text of its
    message is not modelled).  The interpreter has two failures more, a
    [ValueError] on an int of more than 4300 digits and a [RecursionError]
    on deep nesting, and decodes the escapes above U+00FF that
    [scan_string] refuses: the texts on which it does as this function
    does are those of [Spec.plain_text]. *)
Definition loads (s : string) : result json :=
  match decode s with
  | Some v => Ok v
  | None => Raise (Exn JSONDecodeError "Expecting value")
  end.

End Json.

(* ===================================================================== *)
(** ** Operations of Python on decoded values *)
(* ===================================================================== *)

Module Obj.
Import Py Json.

Open Scope result_scope.

Definition type_name (v : json) : string :=
  match v with
  | JNull => "NoneType"
  | JBool _ => "bool"
  | JInt _ => "int"
  | JFloat _ => "float"
  | JStr _ => "str"
  | JList _ => "list"
  | JDict _ => "dict"
  end.

Definition quoted (s : string) : string := "'" ++ s ++ "'".

Fixpoint contains_char (c : ascii) (s : string) : bool :=
  match s with
  | EmptyString => false
  | String a r => Ascii.eqb a c || contains_char c r
  end.

Definition hex2 (c : ascii) : string :=
  String (hex_digit (code c / 16)) (String (hex_digit (code c mod 16)) "").

(** One character of [repr(s)] between quotes [q]. *)
Definition repr_char (q c : ascii) : string :=
  let n := code c in
  if Ascii.eqb c q || (n =? 92) then String "\" (String c "")
  else if n =? 9 then "\t"
  else if n =? 10 then "\n"
  else if n =? 13 then "\r"
  else if (n <? 32) || ((127 <=? n) && (n <=? 160)) || (n =? 173)
       then "\x" ++ hex2 c
  else String c "".

Fixpoint repr_chars (q : ascii) (s : string) : string :=
  match s with
  | EmptyString => ""
  | String c r => repr_char q c ++ repr_chars q r
  end.

(** [repr(s)] of a str: single quotes, unless the text has a single quote
    and no double quote. *)
Definition repr_str (s : string) : string :=
  let q := if contains_char "'" s && negb (contains_char dquote s)
           then dquote else "'"%char in
  String q (repr_chars q s ++ String q "").

(** [repr(v)] *)
Fixpoint repr (v : json) : string :=
  match v with
  | JNull => "None"
  | JBool true => "True"
  | JBool false => "False"
  | JInt z => str_int z
  | JFloat literal => literal
  | JStr s => repr_str s
  | JList l => "[" ++ join ", " (map repr l) ++ "]"
  | JDict d =>
      "{" ++ join ", " (map (fun kv => repr_str (fst kv) ++ ": " ++ repr (snd kv)) d)
          ++ "}"
  end.

(** [str(v)], which is what an f-string writes for [{v}]. *)
Definition to_str (v : json) : string :=
  match v with
  | JStr s => s
  | _ => repr v
  end.

(** Whether a float literal denotes zero: its digits before the exponent
    are all 0 (underflow of a tiny literal is not modelled). *)
Fixpoint mantissa_is_zero (s : string) : bool :=
  match s with
  | EmptyString => true
  | String c r =>
      if (code c =? 101) || (code c =? 69) then true
      else if is_digit c then (code c =? 48) && mantissa_is_zero r
      else if (code c =? 45) || (code c =? 46) then mantissa_is_zero r
      else false
  end.

(** [bool(v)] *)
Definition truthy (v : json) : bool :=
  match v with
  | JNull => false
  | JBool b => b
  | JInt z => negb (z =? 0)
  | JFloat literal => negb (mantissa_is_zero literal)
  | JStr s => negb (String.eqb s "")
  | JList l => match l with [] => false | _ => true end
  | JDict d => match d with [] => false | _ => true end
  end.

(** [v.get(k, default)] *)
Definition get (v : json) (k : string) (default : json) : result json :=
  match v with
  | JDict d => Ok (match dict_get k d with Some x => x | None => default end)
  | _ => Raise (Exn AttributeError
                  (quoted (type_name v) ++ " object has no attribute 'get'"))
  end.

(** [v[k]] with a str key *)
Definition getitem (v : json) (k : string) : result json :=
  match v with
  | JDict d =>
      match dict_get k d with
      | Some x => Ok x
      | None => Raise (Exn KeyError (repr_str k))
      end
  | JList _ =>
      Raise (Exn TypeError "list indices must be integers or slices, not str")
  | JStr _ => Raise (Exn TypeError "string indices must be integers")
  | _ => Raise (Exn TypeError (quoted (type_name v) ++ " object is not subscriptable"))
  end.

(** [v[k] = x] with a str key *)
Definition setitem (v : json) (k : string) (x : json) : result json :=
  match v with
  | JDict d => Ok (JDict (dict_set k x d))
  | JList _ =>
      Raise (Exn TypeError "list indices must be integers or slices, not str")
  | _ => Raise (Exn TypeError
                  (quoted (type_name v) ++ " object does not support item assignment"))
  end.

(** [sub in s] for two strs *)
Fixpoint substring_of (sub s : string) : bool :=
  startswith s sub
  || match s with
     | EmptyString => false
     | String _ r => substring_of sub r
     end.

Definition json_is_str (k : string) (v : json) : bool :=
  match v with
  | JStr s => String.eqb s k
  | _ => false
  end.

(** [k in v] with a str [k] *)
Definition contains (k : string) (v : json) : result bool :=
  match v with
  | JDict d => Ok (dict_mem k d)
  | JList l => Ok (existsb (json_is_str k) l)
  | JStr s => Ok (substring_of k s)
  | _ => Raise (Exn TypeError
                  ("argument of type " ++ quoted (type_name v) ++ " is not iterable"))
  end.

Fixpoint chars (s : string) : list json :=
  match s with
  | EmptyString => []
  | String c r => JStr (String c "") :: chars r
  end.

(** The items a [for] loop visits. *)
Definition iterate (v : json) : result (list json) :=
  match v with
  | JList l => Ok l
  | JDict d => Ok (map (fun kv => JStr (fst kv)) d)
  | JStr s => Ok (chars s)
  | _ => Raise (Exn TypeError (quoted (type_name v) ++ " object is not iterable"))
  end.

(** [len(v)] *)
Definition length (v : json) : result Z :=
  match v with
  | JStr s => Ok (len s)
  | JList l => Ok (Z.of_nat (List.length l))
  | JDict d => Ok (Z.of_nat (List.length d))
  | _ => Raise (Exn TypeError ("object of type " ++ quoted (type_name v) ++ " has no len()"))
  end.

(** [v.lower()] *)
Definition lower_method (v : json) : result string :=
  match v with
  | JStr s => Ok (lower s)
  | _ => Raise (Exn AttributeError
                  (quoted (type_name v) ++ " object has no attribute 'lower'"))
  end.

(** [enumerate(items, start)] *)
Fixpoint enumerate {A} (items : list A) (start : Z) : list (Z * A) :=
  match items with
  | [] => []
  | x :: r => (start, x) :: enumerate r (start + 1)
  end.

End Obj.

(* ===================================================================== *)
(** ** blood_report_analyser.py *)
(* ===================================================================== *)

Module Analyser.
Import Py Json Obj.
Open Scope result_scope.

(** One part of the request: the picture and its MIME type. *)
Record image_part : Type := { mime_type : string; data : list byte }.

(** What [model.generate_content] is given: three parts. *)
Record request : Type :=
  { system_part : string; image : image_part; user_part : string }.

(** The surroundings of one call: the file system, the remote model
    (its reply text, or the exception of the call), the clock. *)
Record Env : Type :=
  { read_bytes : string -> result (list byte);
    generate_content : request -> result string;
    now_isoformat : string }.

(** [image_format(image_path)] *)
Definition image_format (env : Env) (image_path : string)
  : result (list image_part) :=
  let mime :=
    if endswith_any (lower image_path) [".jpg"; ".jpeg"]
    then "image/jpeg" else "image/png" in
  bytes <- read_bytes env image_path ;;
  Ok [ {| mime_type := mime; data := bytes |} ].

Definition system_prompt : string :=
  "You are a hematology expert. Analyze this blood test report.".

(** The six sentences written into a record that has no disclaimer. *)
Definition default_disclaimer : list string :=
  [ "This analysis is for informational purposes only and does not constitute medical advice.";
    "Please consult with a healthcare professional for proper medical diagnosis and treatment.";
    "Results may vary and this tool cannot substitute for laboratory testing.";
    "This report was generated using AI analysis of an uploaded image.";
    "Some values may not be accurately extracted if the image quality is poor.";
    "Always verify results with your original laboratory report." ].

(** The text below is typed with single quotes; [requote] puts the double
    quotes of the prompt back. *)
Fixpoint requote (s : string) : string :=
  match s with
  | EmptyString => EmptyString
  | String c r => String (if Ascii.eqb c "'" then dquote else c) (requote r)
  end.

Definition user_prompt : string := requote
"Extract the following information from this blood test report:
    
    1. Patient details (name, age, gender, ID)
    2. Test date
    3. The following blood parameters with their values and reference ranges:
       - Hemoglobin (Hb)
       - RBC Count
       - WBC Count
       - Platelet Count
       - HCT, MCV, MCH, MCHC
       - WBC Differential (Neutrophils, Lymphocytes, etc.)
    
    Summarize the findings in simple language. Mention if values are normal or abnormal.
    
    Format your response as a JSON object with the following structure:
    {
        'patient_details': {
            'name': '',
            'age': '',
            'gender': '',
            'id': ''
        },
        'test_date': '',
        'blood_parameters': [
            {'parameter': 'Hemoglobin', 'value': '', 'reference_range': '', 'status': 'normal/abnormal'},
            ...
        ],
        'summary': [
            'Point 1',
            'Point 2',
            ...
        ],
        'disclaimer': [
            'This analysis is for informational purposes only and does not constitute medical advice.',
            'Please consult with a healthcare professional for proper medical diagnosis and treatment.',
            'Results may vary and this tool cannot substitute for laboratory testing.',
            'This report was generated using AI analysis of an uploaded image.',
            'Some values may not be accurately extracted if the image quality is poor.',
            'Always verify results with your original laboratory report.'
        ]
    }
    
    Only return the JSON object without any additional text.
    ".

(** [lst[0]] *)
Definition first_item {A} (l : list A) : result A :=
  match l with
  | x :: _ => Ok x
  | [] => Raise (Exn OtherException "list index out of range")
  end.

(** The record of the first early return: no braces found. *)
Definition no_json_record (text now : string) : json :=
  JDict [ ("error", JStr "Could not parse the blood report");
          ("raw_response", JStr (slice text 0 500));
          ("timestamp", JStr now) ].

(** The record of the inner handler: the slice did not decode. *)
Definition bad_json_record (json_response now : string) : json :=
  JDict [ ("error", JStr "Could not parse JSON response");
          ("raw_response", JStr (slice json_response 0 500));
          ("timestamp", JStr now) ].

(** The record of the outer handler. *)
Definition exception_record (e : exn) (now : string) : json :=
  JDict [ ("error", JStr (exn_str e)); ("timestamp", JStr now) ].

(** What [analyze_blood_report] does with the reply text once the model
    has answered (the Response Normalizer): the first return, the inner
    [try] and its handler. *)
Definition normalize (now text : string) : result string :=
  let json_start_idx := find text "{" in
  let json_end_idx := rfind text "}" + 1 in
  if (json_start_idx =? -1) || (json_end_idx =? 0) then
    Ok (dumps (no_json_record text now))
  else
    let json_response := slice text json_start_idx json_end_idx in
    try_except_class
      (result <- loads json_response ;;
       result <- setitem result "analysis_timestamp" (JStr now) ;;
       has <- contains "disclaimer" result ;;
       result <- (if has then Ok result
                  else setitem result "disclaimer"
                         (JList (map JStr default_disclaimer))) ;;
       Ok (dumps result))
      JSONDecodeError
      (Ok (dumps (bad_json_record json_response now))).

(** The three parts of the outbound call. *)
Definition request_of (part : image_part) : request :=
  {| system_part := system_prompt; image := part; user_part := user_prompt |}.

(** [analyze_blood_report(image_path)] *)
Definition analyze_blood_report (env : Env) (image_path : string)
  : result string :=
  try_except
    (image_info <- image_format env image_path ;;
     part <- first_item image_info ;;
     text <- generate_content env (request_of part) ;;
     normalize (now_isoformat env) text)
    (fun e => Ok (dumps (exception_record e (now_isoformat env)))).

End Analyser.

(* ===================================================================== *)
(** ** pdf_generator.py *)
(* ===================================================================== *)

Module PdfGenerator.
Import Py Json Obj.
Open Scope result_scope.

(** The calls made on the FPDF object, in order.  [Cell] and [MultiCell]
    carry the arguments as the library sees them, defaults filled in. *)
Inductive op : Type :=
| AliasNbPages
| AddPage
| SetFont (family style : string) (size : Z)
| SetFillColor (r g b : Z)
| SetTextColor (r g b : Z)
| SetY (y : Z)
| Cell (w h : Z) (txt : string) (border ln : Z) (align : string) (fill : Z)
| MultiCell (w h : Z) (txt : string)
| Ln (h : option Z)
| Output (name : string).

(** A method of the class: the calls it makes, or the exception that
    stops it. *)
Definition drawing : Type := result (list op).

Definition draw (ops : list op) : drawing := Ok ops.

(** A text argument of [cell]: the library lays out a str and fails on
    anything else (the class and message of that failure are the
    library's own). *)
Definition text_arg (v : json) : result string :=
  match v with
  | JStr s => Ok s
  | _ => Raise (Exn OtherException
                  (quoted (type_name v) ++ " object is not text"))
  end.

(** [cell(w, h, txt, border, ln, align)] with [txt] a value of the record. *)
Definition cell_of (w h : Z) (v : json) (border ln : Z) (align : string)
  : drawing :=
  txt <- text_arg v ;; draw [Cell w h txt border ln align 0].

(** [BloodReportPDF.header], run by the library at the top of a page. *)
Definition header : drawing :=
  draw [ SetFont "Arial" "B" 16;
         Cell 80 0 "" 0 0 "" 0;
         Cell 30 10 "Blood Test Report Analysis" 0 0 "C" 0;
         Ln (Some 20) ].

(** [BloodReportPDF.footer], run by the library at the foot of a page;
    [nb] is the alias the library replaces by the page count. *)
Definition footer (page_no : Z) : drawing :=
  draw [ SetY (-15);
         SetFont "Arial" "I" 8;
         Cell 0 10 ("Page " ++ str_int page_no ++ "/{nb}") 0 0 "C" 0 ].

Definition chapter_title (title : string) : drawing :=
  draw [ SetFont "Arial" "B" 12;
         SetFillColor 200 220 255;
         Cell 0 6 title 0 1 "L" 1;
         Ln (Some 4) ].

Definition chapter_body (body : string) : drawing :=
  draw [ SetFont "Arial" "" 12; MultiCell 0 5 body; Ln None ].

Definition add_patient_details (patient_details : json) : drawing :=
  chapter_title "Patient Details" >>
  (name <- get patient_details "name" JNull ;;
   if truthy name then
     draw [SetFont "Arial" "B" 10; Cell 30 6 "Name:" 0 0 "" 0;
           SetFont "Arial" "" 10] >>
     (v <- get patient_details "name" (JStr "N/A") ;; cell_of 0 6 v 0 1 "")
   else draw []) >>
  (age <- get patient_details "age" JNull ;;
   shown <- (if truthy age then Ok true
             else gender <- get patient_details "gender" JNull ;;
                  Ok (truthy gender)) ;;
   if shown then
     draw [SetFont "Arial" "B" 10; Cell 30 6 "Age/Gender:" 0 0 "" 0;
           SetFont "Arial" "" 10] >>
     (a <- get patient_details "age" (JStr "N/A") ;;
      g <- get patient_details "gender" (JStr "N/A") ;;
      let age_gender := to_str a ++ " / " ++ to_str g in
      draw [Cell 0 6 age_gender 0 1 "" 0])
   else draw []) >>
  (id <- get patient_details "id" JNull ;;
   if truthy id then
     draw [SetFont "Arial" "B" 10; Cell 30 6 "Patient ID:" 0 0 "" 0;
           SetFont "Arial" "" 10] >>
     (v <- get patient_details "id" (JStr "N/A") ;; cell_of 0 6 v 0 1 "")
   else draw []) >>
  draw [Ln (Some 4)].

Definition add_test_date (test_date : json) : drawing :=
  if truthy test_date then
    draw [SetFont "Arial" "B" 10; Cell 30 6 "Test Date:" 0 0 "" 0;
          SetFont "Arial" "" 10] >>
    cell_of 0 6 test_date 0 1 "" >>
    draw [Ln (Some 4)]
  else draw [].

(** [name[:30] + "..."] *)
Definition truncated (name : json) : result json :=
  match name with
  | JStr s => Ok (JStr (slice s 0 30 ++ "..."))
  | JList _ =>
      Raise (Exn TypeError "can only concatenate list (not 'str') to list")
  | JDict _ => Raise (Exn TypeError "unhashable type: 'slice'")
  | _ => Raise (Exn TypeError (quoted (type_name name) ++ " object is not subscriptable"))
  end.

(** The status cell: its colour, its text, and the colour put back. *)
Definition status_cell (status : string) : list op :=
  if String.eqb status "abnormal" then
    [SetTextColor 255 0 0; Cell 40 7 "ABNORMAL" 1 1 "C" 0; SetTextColor 0 0 0]
  else
    [SetTextColor 0 128 0; Cell 40 7 "NORMAL" 1 1 "C" 0; SetTextColor 0 0 0].

(** One turn of the loop over [blood_parameters]. *)
Definition parameter_row (param : json) : drawing :=
  (name <- getitem param "parameter" ;;
   n <- length name ;;
   if 30 <? n then
     name <- getitem param "parameter" ;;
     short <- truncated name ;;
     cell_of 60 7 short 1 0 ""
   else
     name <- getitem param "parameter" ;;
     cell_of 60 7 name 1 0 "") >>
  (v <- get param "value" (JStr "N/A") ;; cell_of 30 7 v 1 0 "C") >>
  (v <- get param "reference_range" (JStr "N/A") ;; cell_of 60 7 v 1 0 "C") >>
  (st <- get param "status" (JStr "") ;;
   status <- lower_method st ;;
   draw (status_cell status)).

Definition add_blood_parameters (blood_parameters : json) : drawing :=
  chapter_title "Blood Parameters" >>
  draw [ SetFont "Arial" "B" 10;
         Cell 60 7 "Parameter" 1 0 "C" 0;
         Cell 30 7 "Value" 1 0 "C" 0;
         Cell 60 7 "Reference Range" 1 0 "C" 0;
         Cell 40 7 "Status" 1 1 "C" 0;
         SetFont "Arial" "" 10 ] >>
  (params <- iterate blood_parameters ;; for_each params parameter_row) >>
  draw [Ln (Some 4)].

Definition add_summary (summary : json) : drawing :=
  chapter_title "Summary" >>
  (points <- iterate summary ;;
   for_each (enumerate points 1)
     (fun '(idx, point) =>
        let bullet_point := str_int idx ++ ". " ++ to_str point in
        draw [SetFont "Arial" "" 10; MultiCell 0 6 bullet_point])) >>
  draw [Ln (Some 4)].

Definition add_disclaimer (disclaimer : json) : drawing :=
  chapter_title "Disclaimer" >>
  draw [SetFont "Arial" "I" 10; SetTextColor 128 128 128] >>
  (points <- iterate disclaimer ;;
   for_each (enumerate points 1)
     (fun '(idx, point) =>
        draw [MultiCell 0 5 (str_int idx ++ ". " ++ to_str point)])) >>
  draw [SetTextColor 0 0 0; Ln (Some 4)].

(** The surroundings of one rendering: two readings of the clock and the
    write of the finished document. *)
Record Env : Type :=
  { generated_on : string;      (* strftime('%B %d, %Y, %H:%M') *)
    file_stamp : string;        (* strftime('%Y%m%d_%H%M%S') *)
    write_document : string -> list op -> result unit }.

(** [json_data] is a str, or data already decoded. *)
Inductive source : Type :=
| Text (s : string)
| Data (v : json).

(** [if key in data: method(data[key])] *)
Definition section (data : json) (key : string) (method : json -> drawing)
  : drawing :=
  present <- contains key data ;;
  if present then v <- getitem data key ;; method v else draw [].

(** The calls [generate_pdf] makes before [pdf.output]. *)
Definition document (env : Env) (data : json) : drawing :=
  draw [ AliasNbPages; AddPage;
         SetFont "Arial" "I" 10;
         Cell 0 10 ("Generated on: " ++ generated_on env) 0 1 "" 0;
         Ln (Some 4) ] >>
  section data "patient_details" add_patient_details >>
  section data "test_date" add_test_date >>
  section data "blood_parameters" add_blood_parameters >>
  section data "summary" add_summary >>
  section data "disclaimer" add_disclaimer.

(** [bool(s)] of a str: whether the path was given and is not empty. *)
Definition given (output_path : option string) : option string :=
  match output_path with
  | Some p => if String.eqb p "" then None else Some p
  | None => None
  end.

(** [generate_pdf(json_data, output_path=None)]: the path written. *)
Definition generate_pdf (env : Env) (json_data : source)
    (output_path : option string) : result string :=
  data <- match json_data with
          | Text s => loads s
          | Data v => Ok v
          end ;;
  ops <- document env data ;;
  match given output_path with
  | Some p =>
      _ <- write_document env p (ops ++ [Output p]) ;;
      Ok p
  | None =>
      let output_file := "blood_report_analysis_" ++ file_stamp env ++ ".pdf" in
      _ <- write_document env output_file (ops ++ [Output output_file]) ;;
      Ok output_file
  end.

End PdfGenerator.

(* ===================================================================== *)
(** ** app.py *)
(* ===================================================================== *)

Module App.
Import Py Json Obj.
Open Scope result_scope.

(** The lines appended to [output]. *)
Definition lines : Type := result (list string).
Definition append (l : list string) : lines := Ok l.

(** [if pd.get(key): output.append(label + str(pd[key]))] *)
Definition detail_line (pd : json) (key label : string) : lines :=
  v <- get pd key JNull ;;
  if truthy v then
    x <- getitem pd key ;; append [label ++ to_str x]
  else append [].

(** One turn of the loop over [blood_parameters]. *)
Definition parameter_line (param : json) : lines :=
  st <- get param "status" (JStr "") ;;
  status <- lower_method st ;;
  let status_indicator :=
    if String.eqb status "abnormal" then "[ABNORMAL]" else "[NORMAL]" in
  name <- getitem param "parameter" ;;
  value <- get param "value" (JStr "N/A") ;;
  range <- get param "reference_range" (JStr "N/A") ;;
  append [ "**" ++ to_str name ++ ":** " ++ to_str value ++ " "
           ++ "(Reference: " ++ to_str range ++ ") " ++ status_indicator ].

(** [for i, point in enumerate(items, 1): output.append(f"{i}. {point}")] *)
Definition numbered (items : json) : lines :=
  points <- iterate items ;;
  for_each (enumerate points 1)
    (fun '(i, point) => append [str_int i ++ ". " ++ to_str point]).

(** [if key in data: body data[key]]; the subscript is evaluated where the
    body first reads it. *)
Definition when_present (data : json) (key : string) (body : lines) : lines :=
  present <- contains key data ;;
  if present then body else append [].

(** [format_json_for_display(data)] *)
Definition format_json_for_display (data : json) : result string :=
  output <-
    (when_present data "patient_details"
       (append ["## Patient Details"] >>
        (pd <- getitem data "patient_details" ;;
         detail_line pd "name" "**Name:** " >>
         detail_line pd "age" "**Age:** " >>
         detail_line pd "gender" "**Gender:** " >>
         detail_line pd "id" "**ID:** ") >>
        append [""]) >>
     when_present data "test_date"
       (v <- getitem data "test_date" ;;
        append ["**Test Date:** " ++ to_str v; ""]) >>
     when_present data "blood_parameters"
       (append ["## Blood Parameters"] >>
        (ps <- getitem data "blood_parameters" ;;
         params <- iterate ps ;;
         for_each params parameter_line) >>
        append [""]) >>
     when_present data "summary"
       (append ["## Summary"] >>
        (s <- getitem data "summary" ;; numbered s) >>
        append [""]) >>
     when_present data "disclaimer"
       (append ["## Disclaimer"] >>
        (d <- getitem data "disclaimer" ;; numbered d))) ;;
  Ok (join (String (chr 10) "") output).

(** What is uploaded: a path, or a picture held in memory. *)
Inductive upload : Type :=
| FilePath (path : string)
| Picture (pixels : list byte).

(** The surroundings of one request. *)
Record Env : Type :=
  { gettempdir : string;
    makedirs : string -> result unit;
    image_stamp : string;       (* strftime('%Y%m%d%H%M%S'), first reading *)
    pdf_stamp : string;         (* strftime('%Y%m%d%H%M%S'), second reading *)
    copy : string -> string -> result unit;          (* shutil.copy *)
    save : list byte -> string -> result unit;       (* image.save *)
    analyser : Analyser.Env;
    renderer : PdfGenerator.Env }.

(** [os.path.join(a, b)] for a relative [b], with the separator [/]. *)
Definition path_join (a b : string) : string :=
  if String.eqb a "" || endswith a "/" then a ++ b else a ++ "/" ++ b.

(** The calls [process_image] makes on the two other modules. *)
Inductive call : Type :=
| CallAnalyze (img_path : string)
| CallGeneratePdf (json_data pdf_path : string).

(** A computation that records those calls as it goes. *)
Definition traced (A : Type) : Type := list call * result A.

Definition pure {A} (r : result A) : traced A := ([], r).
Definition invoke {A} (c : call) (r : result A) : traced A := ([c], r).

Definition tbind {A B} (m : traced A) (k : A -> traced B) : traced B :=
  match m with
  | (log, Ok a) => let '(log', r) := k a in ((log ++ log')%list, r)
  | (log, Raise e) => (log, Raise e)
  end.

Definition ttry {A} (body : traced A) (handler : exn -> result A) : traced A :=
  match body with
  | (log, Ok a) => (log, Ok a)
  | (log, Raise e) => (log, handler e)
  end.

Notation "x <~ m ;; k" := (tbind m (fun x => k))
  (at level 200, m at level 100, k at level 200, right associativity)
  : result_scope.

(** The three outputs of the form: the text shown, the raw record, the
    file offered for download. *)
Definition outputs : Type := string * option string * option string.

(** [process_image(image)] *)
Definition process_image (env : Env) (image : option upload) : traced outputs :=
  match image with
  | None => pure (Ok ("Please upload a blood test report image.", None, None))
  | Some img =>
      let temp_dir := path_join (gettempdir env) "blood_report_analyzer" in
      _ <~ pure (makedirs env temp_dir) ;;
      ttry
        (let img_path :=
           path_join temp_dir ("blood_report_" ++ image_stamp env ++ ".jpg") in
         _ <~ pure (match img with
                    | FilePath p => copy env p img_path
                    | Picture px => save env px img_path
                    end) ;;
         json_data <~ invoke (CallAnalyze img_path)
                        (Analyser.analyze_blood_report (analyser env) img_path) ;;
         let pdf_path :=
           path_join temp_dir
             ("blood_report_analysis_" ++ pdf_stamp env ++ ".pdf") in
         _ <~ invoke (CallGeneratePdf json_data pdf_path)
                (PdfGenerator.generate_pdf (renderer env)
                   (PdfGenerator.Text json_data) (Some pdf_path)) ;;
         formatted_output <~
           pure (try_except
                   (parsed_json <- loads json_data ;;
                    format_json_for_display parsed_json)
                   (fun _ => Ok json_data)) ;;
         pure (Ok (formatted_output, Some json_data, Some pdf_path)))
        (fun e => Ok ("Error: " ++ exn_str e, None, None))
  end.

End App.

(* ===================================================================== *)
(** ** The two scripts *)
(* ===================================================================== *)

(** The [__main__] blocks of blood_report_analyser.py and of
    pdf_generator.py, from the point where [argparse] has filled [args]:
    an option that was not given is [None]. *)
Module Scripts.
Import Py Json Obj.
Open Scope result_scope.

(** What a run shows and writes, in order. *)
Inductive event : Type :=
| Print (line : string)
| PrintHelp
| WriteText (path content : string).

(** How a run ends: at the end of the script, at a call of [exit], or
    with an exception that nothing catches. *)
Inductive ending : Type :=
| Finished
| Exited (status : Z)
| Uncaught (e : exn).

Definition run : Type := (list event * ending)%type.

(** [args] of blood_report_analyser.py *)
Record analyser_args : Type :=
  { args_image_path : string; args_output : option string }.

(** The surroundings of that script; [write_text path s] is
    [with open(path, 'w') as f: f.write(s)]. *)
Record AnalyserEnv : Type :=
  { analysis : Analyser.Env;
    write_text : string -> string -> result unit }.

(** blood_report_analyser.py run as a script. *)
Definition analyser_main (env : AnalyserEnv) (args : analyser_args) : run :=
  match Analyser.analyze_blood_report (analysis env) (args_image_path args) with
  | Raise e => ([], Uncaught e)
  | Ok result =>
      match PdfGenerator.given (args_output args) with
      | Some path =>
          match write_text env path result with
          | Raise e => ([], Uncaught e)
          | Ok _ =>
              ([WriteText path result; Print ("Analysis saved to " ++ path)],
               Finished)
          end
      | None => ([Print result], Finished)
      end
  end.

(** [args] of pdf_generator.py *)
Record pdf_args : Type :=
  { args_image : option string;
    args_json : option string;
    args_pdf_output : option string }.

(** The surroundings of that script; [read_text path] is
    [with open(path, 'r') as f: f.read()]. *)
Record PdfEnv : Type :=
  { pdf_analysis : Analyser.Env;
    read_text : string -> result string;
    rendering : PdfGenerator.Env }.

(** The last two statements of the script. *)
Definition generate_and_report (env : PdfEnv) (json_data : string)
    (output : option string) : run :=
  match PdfGenerator.generate_pdf (rendering env) (PdfGenerator.Text json_data)
          output with
  | Raise e => ([], Uncaught e)
  | Ok output_file => ([Print ("PDF report generated: " ++ output_file)], Finished)
  end.

(** pdf_generator.py run as a script. *)
Definition pdf_main (env : PdfEnv) (args : pdf_args) : run :=
  match PdfGenerator.given (args_image args) with
  | Some image =>
      match Analyser.analyze_blood_report (pdf_analysis env) image with
      | Raise e => ([], Uncaught e)
      | Ok json_data => generate_and_report env json_data (args_pdf_output args)
      end
  | None =>
      match PdfGenerator.given (args_json args) with
      | Some path =>
          match read_text env path with
          | Raise e => ([], Uncaught e)
          | Ok json_data =>
              generate_and_report env json_data (args_pdf_output args)
          end
      | None =>
          ([Print "Error: Either --image or --json must be provided"; PrintHelp],
           Exited 1)
      end
  end.

End Scripts.

(* ===================================================================== *)
(** * Vocabulary of the properties *)
(* ===================================================================== *)

Module Spec.
Import Py Json Obj.

(** The model answered [text] to the request built for [path]. *)
Definition model_replies (env : Analyser.Env) (path text : string) : Prop :=
  exists part,
    Analyser.image_format env path = Ok [part]
    /\ Analyser.generate_content env (Analyser.request_of part) = Ok text.

(** The outbound call for [path] raised [e]. *)
Definition model_call_raises (env : Analyser.Env) (path : string) (e : exn)
  : Prop :=
  exists part,
    Analyser.image_format env path = Ok [part]
    /\ Analyser.generate_content env (Analyser.request_of part) = Raise e.

(** [sl] is the part of [text] from its first opening brace through its
    last closing brace, the first standing before the last. *)
Definition brace_slice (text sl : string) : Prop :=
  exists l m r,
    text = l ++ String "{" (m ++ String "}" r)
    /\ contains_char "{" l = false
    /\ contains_char "}" r = false
    /\ sl = String "{" (m ++ String "}" "").

(** The record of the success variant as the spec words it: the decoded
    object with [analysis_timestamp] set, and the six sentences under
    [disclaimer] when the object has no such key. *)
Definition success_record (now : string) (obj : dict) : dict :=
  let stamped := dict_set "analysis_timestamp" (JStr now) obj in
  match dict_get "disclaimer" obj with
  | Some _ => stamped
  | None =>
      dict_set "disclaimer" (JList (map JStr Analyser.default_disclaimer))
        stamped
  end.

(** The error variant: exactly the three fields, in the order written. *)
Definition error_variant (msg raw now : string) : json :=
  JDict [("error", JStr msg); ("raw_response", JStr raw); ("timestamp", JStr now)].

(** [c] is the lowercase letter [l] or its capital. *)
Definition same_letter (c l : ascii) : bool :=
  Ascii.eqb c l || Ascii.eqb c (chr (code l - 32)).

(** [s] is [word], a word of lowercase letters, up to the case of each
    letter. *)
Fixpoint equal_ignoring_case (s word : string) : bool :=
  match s, word with
  | EmptyString, EmptyString => true
  | String c s', String l word' => same_letter c l && equal_ignoring_case s' word'
  | _, _ => false
  end.

(** The text a row shows for a field: the field when it is a str, the
    default when the key is absent; a field of another type has none. *)
Definition text_field (d : dict) (k default : string) : option string :=
  match dict_get k d with
  | None => Some default
  | Some (JStr s) => Some s
  | Some _ => None
  end.

Definition red_abnormal : list PdfGenerator.op :=
  [ PdfGenerator.SetTextColor 255 0 0;
    PdfGenerator.Cell 40 7 "ABNORMAL" 1 1 "C" 0;
    PdfGenerator.SetTextColor 0 0 0 ].

Definition green_normal : list PdfGenerator.op :=
  [ PdfGenerator.SetTextColor 0 128 0;
    PdfGenerator.Cell 40 7 "NORMAL" 1 1 "C" 0;
    PdfGenerator.SetTextColor 0 0 0 ].

(** The status cell as the spec words it. *)
Definition status_cell_of (status : string) : list PdfGenerator.op :=
  if equal_ignoring_case status "abnormal" then red_abnormal else green_normal.

(** The parameter name as the table shows it. *)
Definition shown_name (name : string) : string :=
  if 30 <? len name then take 30 name ++ "..." else name.

(** The four cells of a row whose fields are texts. *)
Definition row_of (name value range status : string) : list PdfGenerator.op :=
  [ PdfGenerator.Cell 60 7 (shown_name name) 1 0 "" 0;
    PdfGenerator.Cell 30 7 value 1 0 "C" 0;
    PdfGenerator.Cell 60 7 range 1 0 "C" 0 ]
  ++ status_cell_of status.

(** An entry of [blood_parameters] whose fields are texts, and its row. *)
Inductive entry_row : dict -> list PdfGenerator.op -> Prop :=
| EntryRow (d : dict) (name value range status : string) :
    dict_get "parameter" d = Some (JStr name) ->
    text_field d "value" "N/A" = Some value ->
    text_field d "reference_range" "N/A" = Some range ->
    text_field d "status" "" = Some status ->
    entry_row d (row_of name value range status).

(** The title and the header line of the parameter table. *)
Definition table_head : list PdfGenerator.op :=
  [ PdfGenerator.SetFont "Arial" "B" 12;
    PdfGenerator.SetFillColor 200 220 255;
    PdfGenerator.Cell 0 6 "Blood Parameters" 0 1 "L" 1;
    PdfGenerator.Ln (Some 4);
    PdfGenerator.SetFont "Arial" "B" 10;
    PdfGenerator.Cell 60 7 "Parameter" 1 0 "C" 0;
    PdfGenerator.Cell 30 7 "Value" 1 0 "C" 0;
    PdfGenerator.Cell 60 7 "Reference Range" 1 0 "C" 0;
    PdfGenerator.Cell 40 7 "Status" 1 1 "C" 0;
    PdfGenerator.SetFont "Arial" "" 10 ].

(** The record [generate_pdf] works on, given its argument. *)
Definition decodes_to (src : PdfGenerator.source) (data : json) : Prop :=
  match src with
  | PdfGenerator.Text s => loads s = Ok data
  | PdfGenerator.Data v => v = data
  end.

(** What a scan that succeeds has used: it has read at least one
    character, and any fuel not below the number of characters read gives
    the same result. *)
Definition reads {A} (scan : nat -> string -> option (A * string))
    (f : nat) (s : string) : Prop :=
  forall v r,
    scan f s = Some (v, r) ->
    (String.length r < String.length s)%nat
    /\ forall f', (String.length s - String.length r <= f')%nat ->
                  scan f' s = Some (v, r).

(** [s] is the text of the value [v]: blanks, the value, blanks, read
    with fuel to spare. *)
Definition well_formed (s : string) (v : json) : Prop :=
  exists fuel rest,
    scan_value fuel (skip_ws s) = Some (v, rest) /\ skip_ws rest = "".

(** A dict whose values are all strs, from its keys and texts. *)
Definition str_fields (fields : list (string * string)) : dict :=
  map (fun kv => (fst kv, JStr (snd kv))) fields.

(** The dict the decoder builds from such members, read in order. *)
Fixpoint set_all (fields : list (string * string)) (acc : dict) : dict :=
  match fields with
  | [] => acc
  | (k, v) :: rest => set_all rest (dict_set k (JStr v) acc)
  end.

(** The text of one member as [dumps] writes it inside a top-level dict. *)
Definition member_text (kv : string * json) : string :=
  encode_str (fst kv) ++ ": " ++ encode 1 (snd kv).

(** What follows the value of a member in the text of such a dict: the
    members still to come, the closing brace, and [tail]. *)
Fixpoint rest_text (fields : list (string * string)) (tail : string) : string :=
  match fields with
  | [] => newline_indent 0 ++ "}" ++ tail
  | (k, v) :: rest =>
      "," ++ newline_indent 1
        ++ String dquote (encode_chars k
                            ++ String dquote (": " ++ encode_str v
                                                ++ rest_text rest tail))
  end.

(** The local names of [process_image]. *)
Definition temp_dir (env : App.Env) : string :=
  App.path_join (App.gettempdir env) "blood_report_analyzer".

Definition img_path (env : App.Env) : string :=
  App.path_join (temp_dir env) ("blood_report_" ++ App.image_stamp env ++ ".jpg").

Definition pdf_path (env : App.Env) : string :=
  App.path_join (temp_dir env)
    ("blood_report_analysis_" ++ App.pdf_stamp env ++ ".pdf").

(** The upload was stored at [img_path]. *)
Definition stored (env : App.Env) (img : App.upload) : Prop :=
  match img with
  | App.FilePath p => App.copy env p (img_path env) = Ok tt
  | App.Picture px => App.save env px (img_path env) = Ok tt
  end.

(** What [generate_pdf] draws before any section of the record. *)
Definition preamble (env : PdfGenerator.Env) : list PdfGenerator.op :=
  [ PdfGenerator.AliasNbPages; PdfGenerator.AddPage;
    PdfGenerator.SetFont "Arial" "I" 10;
    PdfGenerator.Cell 0 10 ("Generated on: " ++ PdfGenerator.generated_on env)
      0 1 "" 0;
    PdfGenerator.Ln (Some 4) ].

(** The records that hold an [error] field: the two parse failures, with
    [raw_response], and the record of the outer handler, without. *)
Definition holds_error (record : json) : Prop :=
  (exists msg raw now, record = error_variant msg raw now)
  \/ (exists msg now,
        record = JDict [("error", JStr msg); ("timestamp", JStr now)]).

(** A record with none of the five keys the renderer and the display
    look for. *)
Definition no_section (d : dict) : Prop :=
  dict_get "patient_details" d = None
  /\ dict_get "test_date" d = None
  /\ dict_get "blood_parameters" d = None
  /\ dict_get "summary" d = None
  /\ dict_get "disclaimer" d = None.

(** *** Words of the further properties *)

(** Whether [d.get(k)] counts as true in a test. *)
Definition filled (d : dict) (k : string) : bool :=
  match dict_get k d with
  | Some v => truthy v
  | None => false
  end.

(** [d.get(k, default)] on a dict. *)
Definition field_or (d : dict) (k : string) (default : json) : json :=
  match dict_get k d with
  | Some v => v
  | None => default
  end.

(** The heading of a section of the document. *)
Definition title_of (title : string) : list PdfGenerator.op :=
  [ PdfGenerator.SetFont "Arial" "B" 12;
    PdfGenerator.SetFillColor 200 220 255;
    PdfGenerator.Cell 0 6 title 0 1 "L" 1;
    PdfGenerator.Ln (Some 4) ].

(** One line of the patient block: a label in bold, a value after it. *)
Definition label_row (label value : string) : list PdfGenerator.op :=
  [ PdfGenerator.SetFont "Arial" "B" 10;
    PdfGenerator.Cell 30 6 label 0 0 "" 0;
    PdfGenerator.SetFont "Arial" "" 10;
    PdfGenerator.Cell 0 6 value 0 1 "" 0 ].

(** The texts of the paragraphs ([multi_cell]) among the calls, in order. *)
Fixpoint paragraphs (ops : list PdfGenerator.op) : list string :=
  match ops with
  | [] => []
  | PdfGenerator.MultiCell _ _ txt :: rest => txt :: paragraphs rest
  | _ :: rest => paragraphs rest
  end.

(** The item numbered [k + 1], as a list writes it. *)
Definition numbered_item (k : nat) (point : json) : string :=
  str_int (Z.of_nat k + 1) ++ ". " ++ to_str point.

(** Text colours. *)
Definition colour : Type := (Z * Z * Z)%type.
Definition black : colour := (0, 0, 0).
Definition red : colour := (255, 0, 0).
Definition green : colour := (0, 128, 0).
Definition gray : colour := (128, 128, 128).

(** The text colour in force once the calls are made, from the colour in
    force before them. *)
Fixpoint colour_after (c : colour) (ops : list PdfGenerator.op) : colour :=
  match ops with
  | [] => c
  | PdfGenerator.SetTextColor r g b :: rest => colour_after (r, g, b) rest
  | _ :: rest => colour_after c rest
  end.

(** Every text the calls draw, with the colour it is drawn in. *)
Fixpoint inked (c : colour) (ops : list PdfGenerator.op)
  : list (string * colour) :=
  match ops with
  | [] => []
  | PdfGenerator.SetTextColor r g b :: rest => inked (r, g, b) rest
  | PdfGenerator.Cell _ _ txt _ _ _ _ :: rest => (txt, c) :: inked c rest
  | PdfGenerator.MultiCell _ _ txt :: rest => (txt, c) :: inked c rest
  | _ :: rest => inked c rest
  end.

(** The colours the document allows a text: black, red for the word
    ABNORMAL, green for the word NORMAL, gray. *)
Definition colour_allowed (tc : string * colour) : Prop :=
  snd tc = black
  \/ (snd tc = red /\ fst tc = "ABNORMAL")
  \/ (snd tc = green /\ fst tc = "NORMAL")
  \/ snd tc = gray.

(** The upload as [process_image] stores it. *)
Definition store (env : App.Env) (img : App.upload) : result unit :=
  match img with
  | App.FilePath p => App.copy env p (img_path env)
  | App.Picture px => App.save env px (img_path env)
  end.

(** What follows a value in a text that [dumps] writes: nothing, a comma,
    or the line break before a closing bracket. *)
Definition ends_token (rest : string) : bool :=
  match rest with
  | EmptyString => true
  | String c _ => (code c =? 44) || (code c =? 10)
  end.

(** A float literal that reads back as itself. *)
Definition float_reads_back (literal : string) : Prop :=
  forall f rest,
    ends_token rest = true ->
    scan_value (S f) (literal ++ rest) = Some (JFloat literal, rest).

(** The values [dumps] writes so that [loads] gives them back: every float
    is a literal that reads back, and no dict has a key twice. *)
Unset Elimination Schemes.
Inductive printable : json -> Prop :=
| PrintNull : printable JNull
| PrintBool (b : bool) : printable (JBool b)
| PrintInt (z : Z) : printable (JInt z)
| PrintFloat (literal : string) :
    float_reads_back literal -> printable (JFloat literal)
| PrintStr (s : string) : printable (JStr s)
| PrintList (l : list json) : Forall printable l -> printable (JList l)
| PrintDict (d : dict) :
    NoDup (keys d) ->
    Forall (fun kv => printable (snd kv)) d ->
    printable (JDict d).
Set Elimination Schemes.

(** The texts of a numbered list: one text an item, in order, the item at
    place [k] numbered [k + 1]. *)
Definition numbered_texts (items : list json) (texts : list string) : Prop :=
  List.length texts = List.length items
  /\ forall k point,
       nth_error items k = Some point ->
       nth_error texts k = Some (numbered_item k point).

(** A call that leaves the text colour alone. *)
Definition sets_no_colour (o : PdfGenerator.op) : bool :=
  match o with
  | PdfGenerator.SetTextColor _ _ _ => false
  | _ => true
  end.

(** Calls that start and end in black and draw in the allowed colours
    only. *)
Definition tidy (ops : list PdfGenerator.op) : Prop :=
  colour_after black ops = black /\ Forall colour_allowed (inked black ops).

(** A value reads back from its text at every nesting level, before every
    end of token. *)
Definition reads_back (v : json) : Prop :=
  forall level rest,
    ends_token rest = true ->
    exists f, scan_value f (encode level v ++ rest) = Some (v, rest).

(** The text of one member of a dict written at [level]. *)
Definition member_at (level : nat) (kv : string * json) : string :=
  encode_str (fst kv) ++ ": " ++ encode (S level) (snd kv).

(** One member more in the dict the decoder is building. *)
Definition set_member (acc : dict) (kv : string * json) : dict :=
  dict_set (fst kv) (snd kv) acc.

(** A fraction as [scan_frac] cuts it: nothing, or a dot and digits. *)
Definition frac_ok (fp : string) : Prop :=
  fp = ""
  \/ exists c ds, fp = String "." (String c ds)
                  /\ span_digits (String c ds) = (String c ds, "").

(** An exponent as [scan_exp] cuts it: nothing, or the letter, a sign or
    none, and digits. *)
Definition exp_ok (ep : string) : Prop :=
  ep = ""
  \/ exists e sg c ds,
       ep = String e (sg ++ String c ds)
       /\ (code e =? 101) || (code e =? 69) = true
       /\ (sg = "" \/ sg = "+" \/ sg = "-")
       /\ span_digits (String c ds) = (String c ds, "").

(** A field that a text cell takes when the code finds it true: it is
    then a str. *)
Definition text_if_filled (d : dict) (k : string) : Prop :=
  filled d k = true -> exists s, dict_get k d = Some (JStr s).

(** A record shaped as the prompt asks: the patient block a dict whose
    name and id are texts or count as false, the test date a text or a
    value that counts as false, the parameters a list of entries whose
    fields are texts, the summary and the disclaimer lists.  Any of the
    five may be absent. *)
Definition well_shaped (d : dict) : Prop :=
  (forall v, dict_get "patient_details" d = Some v ->
     exists pd, v = JDict pd /\ text_if_filled pd "name" /\ text_if_filled pd "id")
  /\ (forall v, dict_get "test_date" d = Some v ->
        truthy v = true -> exists s, v = JStr s)
  /\ (forall v, dict_get "blood_parameters" d = Some v ->
        exists entries rows,
          v = JList (map JDict entries) /\ Forall2 entry_row entries rows)
  /\ (forall v, dict_get "summary" d = Some v -> exists items, v = JList items)
  /\ (forall v, dict_get "disclaimer" d = Some v -> exists items, v = JList items).

(** The path [generate_pdf] writes to. *)
Definition path_written (env : PdfGenerator.Env) (output_path : option string)
  : string :=
  match PdfGenerator.given output_path with
  | Some p => p
  | None => "blood_report_analysis_" ++ PdfGenerator.file_stamp env ++ ".pdf"
  end.

(** ** The values and texts on which this model is the interpreter's

    [Json] keeps a float as the literal it was read from, where Python
    builds a double and prints it anew ([1.50] comes back as [1.5],
    [1e2] as [100.0], [1e-400] is [0.0] and counts as false); the
    interpreter refuses to convert an int of more than 4300 digits from or
    to text, and gives up on values nested deeper than its recursion limit
    allows.  The properties that quote the text of a value, or test its
    truth, are stated for the values below, on which none of this
    happens. *)

(** The digits the interpreter converts: [sys.int_info.default_max_str_digits]. *)
Definition int_max_str_digits : Z := 4300.

(** Lists and dicts inside one another, at most: far below the recursion
    limit of every CPython (1000 frames by default). *)
Definition nesting_limit : nat := 100.

(** No float at any depth, every int within the digits the interpreter
    converts, and at most [room] lists and dicts inside one another. *)
Fixpoint plain_within (room : nat) (v : json) : bool :=
  match v with
  | JNull => true
  | JBool _ => true
  | JInt z => Z.abs z <? 10 ^ int_max_str_digits
  | JFloat _ => false
  | JStr _ => true
  | JList l =>
      match room with
      | O => false
      | S room' => forallb (plain_within room') l
      end
  | JDict d =>
      match room with
      | O => false
      | S room' => forallb (fun kv => plain_within room' (snd kv)) d
      end
  end.

Definition plain (v : json) : bool := plain_within nesting_limit v.

(** Every backslash followed by the letter u is followed by two zeros: no
    escape of the text names a character above U+00FF.  (The test looks at
    every backslash, also one that is itself escaped, so it refuses more
    texts than it has to.) *)
Fixpoint narrow_escapes (s : string) : bool :=
  match s with
  | EmptyString => true
  | String c r =>
      (if code c =? 92 then
         match r with
         | String e (String h1 (String h2 _)) =>
             if code e =? 117 then (code h1 =? 48) && (code h2 =? 48) else true
         | _ => true
         end
       else true)
      && narrow_escapes r
  end.

(** The longest run of digits of a text: [run] digits precede [s], and
    [best] is the longest run met before them. *)
Fixpoint digit_runs (run best : nat) (s : string) : nat :=
  match s with
  | EmptyString => Nat.max run best
  | String c r =>
      if is_digit c then digit_runs (S run) best r
      else digit_runs 0 (Nat.max run best) r
  end.

Definition longest_digit_run (s : string) : nat := digit_runs 0 0 s.

(** The opening brackets and braces of a text, a bound on how deep the
    decoder can be inside it. *)
Fixpoint openers (s : string) : nat :=
  match s with
  | EmptyString => O
  | String c r =>
      if (code c =? 91) || (code c =? 123) then S (openers r) else openers r
  end.

(** A text the interpreter's decoder and this one treat alike: no escape
    above U+00FF, no run of digits longer than the interpreter converts,
    and too few opening brackets to nest deeper than [nesting_limit]. *)
Definition plain_text (s : string) : bool :=
  narrow_escapes s
  && (Z.of_nat (longest_digit_run s) <=? int_max_str_digits)
  && (openers s <=? nesting_limit)%nat.

End Spec.

(* ===================================================================== *)
(** * Sample surroundings and replies *)
(* ===================================================================== *)

Module Examples.
Import Py Json Obj.

Definition clock : string := "2024-05-01T10:30:00".

(** A file system that reads an empty picture and a model that gives
    [reply]. *)
Definition analyser_env (reply : result string) : Analyser.Env :=
  {| Analyser.read_bytes := fun _ => Ok [];
     Analyser.generate_content := fun _ => reply;
     Analyser.now_isoformat := clock |}.

Definition renderer_env (written : result unit) : PdfGenerator.Env :=
  {| PdfGenerator.generated_on := "May 01, 2024, 10:30";
     PdfGenerator.file_stamp := "20240501_103000";
     PdfGenerator.write_document := fun _ _ => written |}.

Definition app_env (reply : result string) (written : result unit) : App.Env :=
  {| App.gettempdir := "/tmp";
     App.makedirs := fun _ => Ok tt;
     App.image_stamp := "20240501103000";
     App.pdf_stamp := "20240501103001";
     App.copy := fun _ _ => Ok tt;
     App.save := fun _ _ => Ok tt;
     App.analyser := analyser_env reply;
     App.renderer := renderer_env written |}.

(** A quota failure of the remote service. *)
Definition quota_error : exn := Exn OtherException "429 quota exceeded".

(** Replies, typed with single quotes for the double quotes of JSON. *)
Definition reply_hemoglobin : string := Analyser.requote
  "Here it is: {'test_date': '2024-04-30', 'blood_parameters': [{'parameter': 'Hemoglobin', 'value': '10', 'reference_range': '13-17', 'status': 'abnormal'}]} Done.".

Definition slice_hemoglobin : string := Analyser.requote
  "{'test_date': '2024-04-30', 'blood_parameters': [{'parameter': 'Hemoglobin', 'value': '10', 'reference_range': '13-17', 'status': 'abnormal'}]}".

Definition record_hemoglobin : dict :=
  [ ("test_date", JStr "2024-04-30");
    ("blood_parameters",
     JList [JDict [ ("parameter", JStr "Hemoglobin"); ("value", JStr "10");
                    ("reference_range", JStr "13-17");
                    ("status", JStr "abnormal") ]]) ].

Definition reply_empty_disclaimer : string :=
  Analyser.requote "{'disclaimer': []}".

Definition reply_no_brace : string := "I cannot read this image.".

Definition reply_closing_first : string := "} then {".

Definition reply_broken : string := Analyser.requote
  "Result: {'test_date': } as requested".

Definition slice_broken : string := Analyser.requote "{'test_date': }".

(** Three entries: a status in capitals, no status, another word. *)
Definition entry_low : dict :=
  [ ("parameter", JStr "Hemoglobin"); ("value", JStr "10");
    ("reference_range", JStr "13-17"); ("status", JStr "ABNORMAL") ].
Definition entry_bare : dict := [ ("parameter", JStr "RBC Count") ].
Definition entry_high : dict :=
  [ ("parameter", JStr "WBC Count"); ("value", JStr "12000");
    ("status", JStr "high") ].

Definition record_table : dict :=
  [ ("test_date", JStr "2024-04-30");
    ("blood_parameters",
     JList [JDict entry_low; JDict entry_bare; JDict entry_high]);
    ("summary", JList [JStr "Hemoglobin is below the reference range."]) ].

(** An entry with no [parameter] key. *)
Definition entry_nameless : dict := [ ("value", JStr "4.5") ].

Definition record_nameless : dict :=
  [ ("test_date", JStr "2024-04-30");
    ("blood_parameters", JList [JDict entry_low; JDict entry_nameless]) ].

(** A patient with a name, a numeric age, no gender and a null id. *)
Definition patient_asha : dict :=
  [ ("name", JStr "Asha Rao"); ("age", JInt 45); ("id", JNull) ].

(** An entry whose name has 36 characters. *)
Definition entry_long_name : dict :=
  [ ("parameter", JStr "Mean Corpuscular Hemoglobin Concentr") ].

(** The surroundings of pdf_generator.py run as a script: the model gives
    [reply], the JSON file reads as [file], the write gives [written]. *)
Definition pdf_script_env (reply file : result string) (written : result unit)
  : Scripts.PdfEnv :=
  {| Scripts.pdf_analysis := analyser_env reply;
     Scripts.read_text := fun _ => file;
     Scripts.rendering := renderer_env written |}.

End Examples.

(* ===================================================================== *)
(** * Properties *)
(* ===================================================================== *)

Import Py Json Obj Spec.
Open Scope result_scope.

(** ** Sample runs *)

Section SampleRuns.

Example find_first_brace : find "ab{c}d}e" "{" = 2.
Proof. reflexivity. Qed.

Example rfind_last_brace : rfind "ab{c}d}e" "}" = 6.
Proof. reflexivity. Qed.

Example find_nothing : find "abc" "{" = -1 /\ rfind "abc" "}" = -1.
Proof. split; reflexivity. Qed.

Example slice_between_braces : slice "ab{c}d}e" 2 7 = "{c}d}".
Proof. reflexivity. Qed.

Example slice_short_text : slice "abc" 0 500 = "abc".
Proof. reflexivity. Qed.

Example slice_backwards : slice "} then {" 7 1 = "".
Proof. reflexivity. Qed.

Example lower_mixed_case : lower "AbNoRmAl" = "abnormal".
Proof. reflexivity. Qed.

Example endswith_extension :
  endswith_any (lower "Scan.JPEG") [".jpg"; ".jpeg"] = true
  /\ endswith_any (lower "scan.png") [".jpg"; ".jpeg"] = false.
Proof. split; reflexivity. Qed.

Example decode_object :
  decode (Analyser.requote "{'a': [1, -2.5e3, true, null, {}], 'b': 'x\ny'}")
  = Some (JDict [ ("a", JList [JInt 1; JFloat "-2.5e3"; JBool true; JNull;
                               JDict []]);
                  ("b", JStr (String "x" (String (chr 10) "y"))) ]).
Proof. reflexivity. Qed.

Example decode_repeated_key :
  decode (Analyser.requote "{'a': 1, 'b': 2, 'a': 3}")
  = Some (JDict [("a", JInt 3); ("b", JInt 2)]).
Proof. reflexivity. Qed.

Example decode_rejects :
  decode "[1,]" = None /\ decode "01" = None /\ decode "{} x" = None
  /\ decode (Analyser.requote "{'a' 1}") = None.
Proof. repeat split; reflexivity. Qed.

Example dumps_record :
  dumps (JDict [("error", JStr "x"); ("n", JList [JInt 0; JInt (-12)])])
  = Analyser.requote "{
  'error': 'x',
  'n': [
    0,
    -12
  ]
}".
Proof. reflexivity. Qed.

Example display_of_a_record :
  App.format_json_for_display (JDict Examples.record_table)
  = Ok "**Test Date:** 2024-04-30

## Blood Parameters
**Hemoglobin:** 10 (Reference: 13-17) [ABNORMAL]
**RBC Count:** N/A (Reference: N/A) [NORMAL]
**WBC Count:** 12000 (Reference: N/A) [NORMAL]

## Summary
1. Hemoglobin is below the reference range.
".
Proof. reflexivity. Qed.

(** With no upload the form shows its prompt and calls nothing. *)
Lemma process_image_without_upload (env : App.Env) :
  App.process_image env None
  = ([], Ok ("Please upload a blood test report image.", None, None)).
Proof. reflexivity. Qed.

End SampleRuns.

(** ** Text *)

Section TextFacts.

Lemma length_append (s t : string) :
  String.length (s ++ t) = (String.length s + String.length t)%nat.
Proof. induction s as [|c s IH]; simpl; [reflexivity | now rewrite IH]. Qed.

Lemma append_assoc (a b c : string) : (a ++ b) ++ c = a ++ (b ++ c).
Proof. induction a as [|x a IH]; simpl; [reflexivity | now rewrite IH]. Qed.

Lemma take_length (n : nat) (s : string) :
  String.length (take n s) = Nat.min n (String.length s).
Proof.
  revert s; induction n as [|n IH]; intros [|c s]; simpl; try reflexivity.
  now rewrite IH.
Qed.

Lemma take_prefix (n : nat) (s : string) : String.prefix (take n s) s = true.
Proof.
  revert s; induction n as [|n IH]; intros [|c s]; simpl; try reflexivity.
  destruct (ascii_dec c c) as [_|ne]; [apply IH | now destruct ne].
Qed.

Lemma take_drop (n : nat) (s : string) : take n s ++ drop n s = s.
Proof.
  revert s; induction n as [|n IH]; intros [|c s]; simpl; try reflexivity.
  now rewrite IH.
Qed.

Lemma drop_append (s t : string) : drop (String.length s) (s ++ t) = t.
Proof. induction s as [|c s IH]; simpl; [now destruct t | exact IH]. Qed.

Lemma take_append (s t : string) : take (String.length s) (s ++ t) = s.
Proof.
  induction s as [|c s IH]; simpl; [now destruct t | now rewrite IH].
Qed.

Lemma take_all (n : nat) (s : string) :
  (String.length s <= n)%nat -> take n s = s.
Proof.
  revert s; induction n as [|n IH]; intros [|c s]; simpl; intro H;
    try reflexivity; [lia | rewrite IH; [reflexivity | lia]].
Qed.

Lemma len_nonneg (s : string) : 0 <= len s.
Proof. unfold len; lia. Qed.

(** [s[:k]] is the first [k] characters, or all of [s] when it is shorter. *)
Lemma slice_head (s : string) (k : Z) :
  0 <= k -> slice s 0 k = take (Z.to_nat k) s.
Proof.
  intro Hk. unfold slice, clamp.
  pose proof (len_nonneg s) as Hn.
  assert (H0 : (0 <? 0) = false) by reflexivity. rewrite H0.
  assert (Hk' : (k <? 0) = false) by (apply Z.ltb_ge; lia). rewrite Hk'.
  replace (Z.to_nat (Z.min 0 (len s))) with 0%nat by lia.
  replace (drop 0 s) with s by now destruct s.
  destruct (Z.le_gt_cases k (len s)) as [Hle|Hgt].
  - now replace (Z.min k (len s) - Z.min 0 (len s)) with k by lia.
  - replace (Z.min k (len s) - Z.min 0 (len s)) with (len s) by lia.
    unfold len in *. rewrite Nat2Z.id.
    rewrite !take_all; trivial; lia.
Qed.

Lemma slice_head_length (s : string) (k : Z) :
  0 <= k -> len (slice s 0 k) <= k.
Proof.
  intro Hk. rewrite slice_head by assumption. unfold len.
  rewrite take_length. lia.
Qed.

Lemma slice_head_prefix (s : string) (k : Z) :
  0 <= k -> String.prefix (slice s 0 k) s = true.
Proof. intro Hk. rewrite slice_head by assumption. apply take_prefix. Qed.

(** A slice whose end is not after its start is empty. *)
Lemma slice_empty (s : string) (lo hi : Z) :
  0 <= hi <= lo -> slice s lo hi = "".
Proof.
  intros [H0 Hle]. unfold slice, clamp.
  assert (Hh : (hi <? 0) = false) by (apply Z.ltb_ge; lia).
  assert (Hl : (lo <? 0) = false) by (apply Z.ltb_ge; lia).
  rewrite Hh, Hl.
  replace (Z.to_nat (Z.min hi (len s) - Z.min lo (len s))) with 0%nat by lia.
  now destruct (drop _ s).
Qed.

(** A slice inside the text: the part between two cut points. *)
Lemma slice_middle (l m r : string) :
  slice (l ++ m ++ r) (len l) (len l + len m) = m.
Proof.
  unfold slice, clamp, len.
  rewrite !length_append.
  assert (H1 : (Z.of_nat (String.length l) <? 0) = false)
    by (apply Z.ltb_ge; lia).
  assert (H2 : (Z.of_nat (String.length l) + Z.of_nat (String.length m) <? 0)
               = false) by (apply Z.ltb_ge; lia).
  rewrite H1, H2.
  replace (Z.to_nat (Z.min (Z.of_nat (String.length l)) _))
    with (String.length l) by lia.
  rewrite drop_append.
  match goal with |- take ?n _ = _ =>
    replace n with (String.length m) by lia end.
  apply take_append.
Qed.

(** [find] and [rfind] against the characters of the text. *)

Lemma find_from_absent (c : ascii) (s : string) (i : Z) :
  contains_char c s = false -> find_from c s i = -1.
Proof.
  revert i; induction s as [|a s IH]; intros i; simpl; [reflexivity|].
  destruct (Ascii.eqb a c); simpl; [discriminate | apply IH].
Qed.

Lemma find_from_first (c : ascii) (l r : string) (i : Z) :
  contains_char c l = false ->
  find_from c (l ++ String c r) i = i + len l.
Proof.
  revert i; induction l as [|a l IH]; intros i; simpl.
  - intros _. rewrite Ascii.eqb_refl. unfold len; simpl; lia.
  - destruct (Ascii.eqb a c); simpl; [discriminate|].
    intro H. rewrite IH by assumption. unfold len; simpl String.length. lia.
Qed.

Lemma find_from_range (c : ascii) (s : string) (i : Z) :
  find_from c s i = -1 \/ i <= find_from c s i < i + len s.
Proof.
  revert i; induction s as [|a s IH]; intros i; simpl; [now left|].
  unfold len; simpl String.length.
  destruct (Ascii.eqb a c); [right; lia|].
  destruct (IH (i + 1)) as [H|H]; [now left | right; unfold len in H; lia].
Qed.

Lemma rfind_from_absent (c : ascii) (s : string) (i last : Z) :
  contains_char c s = false -> rfind_from c s i last = last.
Proof.
  revert i last; induction s as [|a s IH]; intros i last; simpl;
    [reflexivity|].
  destruct (Ascii.eqb a c); simpl; [discriminate | apply IH].
Qed.

Lemma rfind_from_append (c : ascii) (l r : string) (i last : Z) :
  rfind_from c (l ++ r) i last
  = rfind_from c r (i + len l) (rfind_from c l i last).
Proof.
  revert i last; induction l as [|a l IH]; intros i last; simpl.
  - unfold len; simpl. now rewrite Z.add_0_r.
  - rewrite IH. unfold len; simpl String.length.
    now replace (i + 1 + Z.of_nat (String.length l))
      with (i + Z.of_nat (S (String.length l))) by lia.
Qed.

Lemma rfind_from_range (c : ascii) (s : string) (i last : Z) :
  rfind_from c s i last = last \/ i <= rfind_from c s i last < i + len s.
Proof.
  revert i last; induction s as [|a s IH]; intros i last; simpl; [now left|].
  unfold len; simpl String.length.
  destruct (Ascii.eqb a c).
  - destruct (IH (i + 1) i) as [H|H]; unfold len in *; right; lia.
  - destruct (IH (i + 1) last) as [H|H]; [now left | unfold len in *; right; lia].
Qed.

Lemma find_absent (c : ascii) (s : string) :
  contains_char c s = false -> find s c = -1.
Proof. apply find_from_absent. Qed.

Lemma find_first (c : ascii) (l r : string) :
  contains_char c l = false -> find (l ++ String c r) c = len l.
Proof. intro H. unfold find. now rewrite find_from_first. Qed.

Lemma rfind_absent (c : ascii) (s : string) :
  contains_char c s = false -> rfind s c = -1.
Proof. apply rfind_from_absent. Qed.

(** The last [c] of a text that has none after a cut point lies before
    the cut. *)
Lemma rfind_before (c : ascii) (l r : string) :
  contains_char c r = false -> rfind (l ++ r) c < len l.
Proof.
  intro H. unfold rfind. rewrite rfind_from_append, rfind_from_absent by assumption.
  pose proof (len_nonneg l).
  destruct (rfind_from_range c l 0 (-1)) as [E|E]; lia.
Qed.

Lemma rfind_last (c : ascii) (l r : string) :
  contains_char c r = false -> rfind (l ++ String c r) c = len l.
Proof.
  intro H. unfold rfind. rewrite rfind_from_append. simpl.
  rewrite Ascii.eqb_refl. rewrite rfind_from_absent by assumption. lia.
Qed.

(** [endswith] says that the text is a stem followed by the suffix. *)
Lemma endswith_spec (s p : string) :
  endswith s p = true <-> exists stem, s = stem ++ p.
Proof.
  unfold endswith. split.
  - intro H. apply andb_true_iff in H as [Hlen Heq].
    apply String.eqb_eq in Heq.
    exists (take (String.length s - String.length p) s).
    rewrite <- Heq at 2. symmetry. apply take_drop.
  - intros [stem ->]. rewrite length_append. apply andb_true_iff. split.
    + apply Nat.leb_le. lia.
    + replace (String.length stem + String.length p - String.length p)%nat
        with (String.length stem) by lia.
      rewrite drop_append. apply String.eqb_refl.
Qed.

End TextFacts.

(** ** The decoder *)

Section DecoderFacts.

Lemma decode_empty : decode "" = None.
Proof. reflexivity. Qed.

(** The members of an object decode to a dict. *)
Lemma scan_members_dict (fuel : nat) :
  forall s acc v rest,
    scan_members fuel s acc = Some (v, rest) -> exists d, v = JDict d.
Proof.
  induction fuel as [|f IH]; intros s acc v rest; simpl; [discriminate|].
  destruct (scan_string s) as [[key r]|]; [|discriminate].
  destruct (skip_ws r) as [|c r1]; [discriminate|].
  destruct (code c =? 58); [|discriminate].
  destruct (scan_value f (skip_ws r1)) as [[x r2]|]; [|discriminate].
  destruct (skip_ws r2) as [|c2 r3]; [discriminate|].
  destruct (code c2 =? 125).
  - intros [= <- _]. eauto.
  - destruct (code c2 =? 44); [|discriminate].
    destruct (skip_ws r3) as [|c3 r4]; [discriminate|].
    destruct (code c3 =? 34); [apply IH | discriminate].
Qed.

(** The equation of [scan_value] at an opening brace. *)
Lemma scan_value_brace (f : nat) (r : string) :
  scan_value (S f) (String "{" r)
  = match skip_ws r with
    | String c1 r1 =>
        if code c1 =? 125 then Some (JDict [], r1)
        else if code c1 =? 34 then scan_members f r1 []
        else None
    | EmptyString => None
    end.
Proof. reflexivity. Qed.

(** A text that opens with a brace decodes, if at all, to a dict. *)
Lemma decode_brace_dict (r : string) (v : json) :
  decode (String "{" r) = Some v -> exists d, v = JDict d.
Proof.
  unfold decode.
  change (skip_ws (String "{" r)) with (String "{" r).
  rewrite scan_value_brace.
  destruct (skip_ws r) as [|c1 r1]; [discriminate|].
  destruct (code c1 =? 125).
  - destruct (skip_ws r1); [|discriminate]. intros [= <-]. eauto.
  - destruct (code c1 =? 34); [|discriminate].
    destruct (scan_members _ _ _) as [[x rest]|] eqn:E; [|discriminate].
    destruct (skip_ws rest); [|discriminate]. intros [= <-].
    eapply scan_members_dict; eassumption.
Qed.

Lemma scan_string_char (c : ascii) (x : string) :
  scan_string (encode_char c ++ x) = cons_fst c (scan_string x).
Proof.
  destruct c as [[] [] [] [] [] [] [] []]; simpl; reflexivity.
Qed.

Lemma scan_string_encode (s rest : string) :
  scan_string (encode_chars s ++ String dquote rest) = Some (s, rest).
Proof.
  induction s as [|c s IH]; [reflexivity|].
  cbn [encode_chars]. rewrite append_assoc, scan_string_char, IH. reflexivity.
Qed.

Lemma encode_str_append (s rest : string) :
  encode_str s ++ rest = String dquote (encode_chars s ++ String dquote rest).
Proof. unfold encode_str. cbn [append]. now rewrite append_assoc. Qed.

Lemma scan_value_str (f : nat) (s rest : string) :
  scan_value (S f) (encode_str s ++ rest) = Some (JStr s, rest).
Proof.
  rewrite encode_str_append.
  change (scan_value (S f) (String dquote (encode_chars s ++ String dquote rest)))
    with (match scan_string (encode_chars s ++ String dquote rest) with
          | Some (t, r) => Some (JStr t, r) | None => None end).
  now rewrite scan_string_encode.
Qed.

Lemma scan_members_equation (f : nat) (s : string) (acc : dict) :
  scan_members (S f) s acc
  = match scan_string s with
      | None => None
      | Some (key, r) =>
          match skip_ws r with
          | String c r1 =>
              if code c =? 58 then
                match scan_value f (skip_ws r1) with
                | None => None
                | Some (v, r2) =>
                    let acc' := dict_set key v acc in
                    match skip_ws r2 with
                    | String c2 r3 =>
                        if code c2 =? 125 then Some (JDict acc', r3)
                        else if code c2 =? 44 then
                          match skip_ws r3 with
                          | String c3 r4 =>
                              if code c3 =? 34 then scan_members f r4 acc'
                              else None
                          | EmptyString => None
                          end
                        else None
                    | EmptyString => None
                    end
                end
              else None
          | EmptyString => None
          end
      end.
Proof. reflexivity. Qed.

Lemma skip_ws_length (s : string) :
  (String.length (skip_ws s) <= String.length s)%nat.
Proof.
  induction s as [|c s IH]; simpl; [lia|].
  destruct (is_ws c); simpl; lia.
Qed.

Lemma cons_fst_some (c : ascii) (x : option (string * string)) (t r : string) :
  cons_fst c x = Some (t, r) -> exists t', x = Some (t', r).
Proof. destruct x as [[t' r']|]; simpl; [intros [= _ <-]; eauto | discriminate]. Qed.

Lemma scan_string_length (s t r : string) :
  scan_string s = Some (t, r) -> (String.length r < String.length s)%nat.
Proof.
  remember (String.length s) as n eqn:Hn.
  revert s t r Hn. induction n as [n IH] using lt_wf_ind.
  intros [|c s] t r Hn; cbn [scan_string]; [discriminate|].
  simpl in Hn.
  destruct (code c =? 34)%Z.
  { intros [= _ <-]. lia. }
  destruct (code c =? 92)%Z.
  - destruct s as [|e r1]; [discriminate|].
    destruct (code e =? 117)%Z.
    + destruct r1 as [|h1 [|h2 [|h3 [|h4 r2]]]]; try discriminate.
      destruct (hex4 h1 h2 h3 h4) as [k|]; [|discriminate].
      destruct (k <? 256)%Z; [|discriminate].
      intro H. apply cons_fst_some in H as [t' H].
      apply (IH (String.length r2)) in H; simpl in *; try lia.
    + destruct (unescape e); [|discriminate].
      intro H. apply cons_fst_some in H as [t' H].
      apply (IH (String.length r1)) in H; simpl in *; try lia.
  - destruct (code c <? 32)%Z; [discriminate|].
    intro H. apply cons_fst_some in H as [t' H].
    apply (IH (String.length s)) in H; simpl in *; try lia.
Qed.

Lemma span_digits_length (s ds rest : string) :
  span_digits s = (ds, rest) -> (String.length rest <= String.length s)%nat.
Proof.
  revert ds rest; induction s as [|c s IH]; intros ds rest; simpl.
  - intros [= _ <-]. simpl. lia.
  - destruct (is_digit c).
    + destruct (span_digits s) as [ds' rest'] eqn:E. intros [= _ <-].
      specialize (IH _ _ eq_refl). lia.
    + intros [= _ <-]. simpl. lia.
Qed.

Lemma scan_frac_length (s fp rest : string) :
  scan_frac s = (fp, rest) -> (String.length rest <= String.length s)%nat.
Proof.
  destruct s as [|c r]; simpl.
  - intros [= _ <-]. simpl. lia.
  - destruct (code c =? 46)%Z.
    + destruct (span_digits r) as [ds rest'] eqn:E.
      apply span_digits_length in E.
      destruct ds; intros [= _ <-]; simpl; lia.
    + intros [= _ <-]. simpl. lia.
Qed.

Lemma scan_exp_length (s ep rest : string) :
  scan_exp s = (ep, rest) -> (String.length rest <= String.length s)%nat.
Proof.
  destruct s as [|c r]; simpl.
  - intros [= _ <-]. simpl. lia.
  - destruct ((code c =? 101)%Z || (code c =? 69)%Z).
    + destruct r as [|g r'].
      * simpl. intros [= _ <-]. simpl. lia.
      * destruct ((code g =? 45)%Z || (code g =? 43)%Z).
        -- destruct (span_digits r') as [ds rest'] eqn:E.
           apply span_digits_length in E.
           destruct ds; intros [= _ <-]; simpl; lia.
        -- destruct (span_digits (String g r')) as [ds rest'] eqn:E.
           apply span_digits_length in E.
           destruct ds; intros [= _ <-]; simpl in *; lia.
    + intros [= _ <-]. simpl. lia.
Qed.

Lemma scan_number_length (s : string) (v : json) (r : string) :
  scan_number s = Some (v, r) -> (String.length r < String.length s)%nat.
Proof.
  unfold scan_number.
  assert (Hgen : forall sign s1,
    (String.length s1 <= String.length s)%nat ->
    match s1 with
    | String c r0 =>
        if is_digit c then
          let '(ip, s2) :=
            if (code c =? 48)%Z then (String c "", r0) else span_digits s1 in
          let '(fp, s3) := scan_frac s2 in
          let '(ep, s4) := scan_exp s3 in
          match fp, ep with
          | EmptyString, EmptyString =>
              match NilZero.int_of_string (sign ++ ip) with
              | Some d => Some (JInt (Z.of_int d), s4)
              | None => None
              end
          | _, _ => Some (JFloat (sign ++ ip ++ fp ++ ep), s4)
          end
        else None
    | EmptyString => None
    end = Some (v, r) -> (String.length r < String.length s)%nat).
  { intros sign [|c r0] Hle; [discriminate|].
    destruct (is_digit c) eqn:Hd; [|discriminate].
    destruct (if code c =? 48 then _ else _) as [ip s2] eqn:E1.
    assert (H2 : (String.length s2 <= String.length r0)%nat).
    { destruct (code c =? 48).
      - injection E1 as _ <-. lia.
      - simpl in E1. rewrite Hd in E1.
        destruct (span_digits r0) as [ds rest'] eqn:E.
        apply span_digits_length in E. injection E1 as _ <-. lia. }
    clear E1.
    destruct (scan_frac s2) as [fp s3] eqn:E2. apply scan_frac_length in E2.
    destruct (scan_exp s3) as [ep s4] eqn:E3. apply scan_exp_length in E3.
    simpl in Hle.
    destruct fp, ep; try (intros [= _ <-]; lia).
    destruct (NilZero.int_of_string _); [intros [= _ <-]; lia | discriminate]. }
  destruct s as [|c r0].
  - apply (Hgen "" ""). simpl; lia.
  - destruct (code c =? 45)%Z.
    + apply (Hgen _ r0). simpl; lia.
    + apply (Hgen _ (String c r0)). lia.
Qed.

Lemma strip_prefix_length (p s r : string) :
  strip_prefix p s = Some r ->
  (String.length r + String.length p = String.length s)%nat.
Proof.
  revert s; induction p as [|a p IH]; intros [|b s]; simpl;
    try discriminate; try (intros [= <-]; simpl; lia).
  destruct (Ascii.eqb a b); [|discriminate].
  intro H. apply IH in H. lia.
Qed.

Lemma scan_constant_length (s : string) (v : json) (r : string) :
  scan_constant s = Some (v, r) -> (String.length r < String.length s)%nat.
Proof.
  unfold scan_constant.
  repeat match goal with
  | |- context [strip_prefix ?p s] =>
      let E := fresh "E" in
      destruct (strip_prefix p s) eqn:E;
      [apply strip_prefix_length in E; simpl in E; intros [= _ <-]; lia|]
  end.
  discriminate.
Qed.

Lemma scan_value_equation (f : nat) (s : string) :
  scan_value (S f) s
  = match s with
    | EmptyString => None
    | String c r =>
        if code c =? 34 then
          match scan_string r with
          | Some (t, rest) => Some (JStr t, rest)
          | None => None
          end
        else if code c =? 123 then
          match skip_ws r with
          | String c1 r1 =>
              if code c1 =? 125 then Some (JDict [], r1)
              else if code c1 =? 34 then scan_members f r1 []
              else None
          | EmptyString => None
          end
        else if code c =? 91 then
          match skip_ws r with
          | String c1 r1 =>
              if code c1 =? 93 then Some (JList [], r1)
              else scan_elements f (String c1 r1) []
          | EmptyString => None
          end
        else
          match scan_constant s with
          | Some res => Some res
          | None => scan_number s
          end
    end.
Proof. reflexivity. Qed.

Lemma scan_elements_equation (f : nat) (s : string) (acc : list json) :
  scan_elements (S f) s acc
  = match scan_value f s with
    | None => None
    | Some (v, r) =>
        let acc' := (acc ++ [v])%list in
        match skip_ws r with
        | String c r1 =>
            if code c =? 93 then Some (JList acc', r1)
            else if code c =? 44 then scan_elements f (skip_ws r1) acc'
            else None
        | EmptyString => None
        end
    end.
Proof. reflexivity. Qed.

Lemma scans_read (f : nat) :
  (forall s, reads scan_value f s)
  /\ (forall s acc, reads (fun f s => scan_members f s acc) f s)
  /\ (forall s acc, reads (fun f s => scan_elements f s acc) f s).
Proof.
  induction f as [|f (IHv & IHm & IHe)]; unfold reads in *;
    [repeat split; discriminate|].
  split; [|split].
  - (* values *)
    intros s v r. rewrite scan_value_equation.
    destruct s as [|c r0]; [discriminate|].
    destruct (code c =? 34) eqn:Eq.
    { destruct (scan_string r0) as [[t rest]|] eqn:Es; [|discriminate].
      intros [= <- <-]. pose proof (scan_string_length _ _ _ Es). cbn [String.length].
      split; [lia|]. intros [|f'] Hf'; [lia|].
      now rewrite scan_value_equation, Eq, Es. }
    destruct (code c =? 123) eqn:Eb.
    { pose proof (skip_ws_length r0) as Hw.
      destruct (skip_ws r0) as [|c1 r1] eqn:Ew; [discriminate|].
      cbn [String.length] in Hw.
      destruct (code c1 =? 125) eqn:Ec.
      { intros [= <- <-]. cbn [String.length]. split; [lia|]. intros [|f'] Hf'; [lia|].
        now rewrite scan_value_equation, Eq, Eb, Ew, Ec. }
      destruct (code c1 =? 34) eqn:Ek; [|discriminate].
      intro H. destruct (IHm _ _ _ _ H) as [Hlt Hfuel]. cbn [String.length].
      split; [lia|]. intros [|f'] Hf'; [lia|].
      rewrite scan_value_equation, Eq, Eb, Ew, Ec, Ek.
      apply Hfuel. lia. }
    destruct (code c =? 91) eqn:Ea.
    { pose proof (skip_ws_length r0) as Hw.
      destruct (skip_ws r0) as [|c1 r1] eqn:Ew; [discriminate|].
      cbn [String.length] in Hw.
      destruct (code c1 =? 93) eqn:Ec.
      { intros [= <- <-]. cbn [String.length]. split; [lia|]. intros [|f'] Hf'; [lia|].
        now rewrite scan_value_equation, Eq, Eb, Ea, Ew, Ec. }
      intro H. destruct (IHe _ _ _ _ H) as [Hlt Hfuel]. cbn [String.length] in *.
      split; [lia|]. intros [|f'] Hf'; [lia|].
      rewrite scan_value_equation, Eq, Eb, Ea, Ew, Ec.
      apply Hfuel. cbn [String.length]. lia. }
    intro H.
    assert (Hlt : (String.length r < String.length (String c r0))%nat).
    { destruct (scan_constant (String c r0)) as [[v' r']|] eqn:Ec.
      - injection H as <- <-. exact (scan_constant_length _ _ _ Ec).
      - exact (scan_number_length _ _ _ H). }
    split; [exact Hlt|]. intros [|f'] Hf'; [lia|].
    now rewrite scan_value_equation, Eq, Eb, Ea.
  - (* members *)
    intros s acc v r. rewrite scan_members_equation.
    destruct (scan_string s) as [[key r0]|] eqn:Es; [|discriminate].
    pose proof (scan_string_length _ _ _ Es) as Hs.
    pose proof (skip_ws_length r0) as Hw0.
    destruct (skip_ws r0) as [|c r1] eqn:Ew0; [discriminate|].
    cbn [String.length] in Hw0.
    destruct (code c =? 58) eqn:Ec; [|discriminate].
    pose proof (skip_ws_length r1) as Hw1.
    destruct (scan_value f (skip_ws r1)) as [[v0 r2]|] eqn:Ev; [|discriminate].
    destruct (IHv _ _ _ Ev) as [Hv Hvf].
    pose proof (skip_ws_length r2) as Hw2.
    destruct (skip_ws r2) as [|c2 r3] eqn:Ew2; [discriminate|].
    cbn [String.length] in Hw2. cbv zeta.
    destruct (code c2 =? 125) eqn:Ee.
    { intros [= <- <-]. split; [lia|]. intros [|f'] Hf'; [lia|].
      rewrite scan_members_equation, Es, Ew0, Ec, Hvf by lia.
      now rewrite Ew2, Ee. }
    destruct (code c2 =? 44) eqn:Em; [|discriminate].
    pose proof (skip_ws_length r3) as Hw3.
    destruct (skip_ws r3) as [|c3 r4] eqn:Ew3; [discriminate|].
    cbn [String.length] in Hw3.
    destruct (code c3 =? 34) eqn:Ek; [|discriminate].
    intro H. destruct (IHm _ _ _ _ H) as [Hlt Hfuel].
    split; [lia|]. intros [|f'] Hf'; [lia|].
    rewrite scan_members_equation, Es, Ew0, Ec, Hvf by lia.
    rewrite Ew2, Ee, Em, Ew3, Ek. apply Hfuel. lia.
  - (* elements *)
    intros s acc v r. rewrite scan_elements_equation.
    destruct (scan_value f s) as [[v0 r0]|] eqn:Ev; [|discriminate].
    destruct (IHv _ _ _ Ev) as [Hv Hvf].
    pose proof (skip_ws_length r0) as Hw0.
    destruct (skip_ws r0) as [|c r1] eqn:Ew0; [discriminate|].
    cbn [String.length] in Hw0. cbv zeta.
    destruct (code c =? 93) eqn:Ec.
    { intros [= <- <-]. split; [lia|]. intros [|f'] Hf'; [lia|].
      rewrite scan_elements_equation, Hvf by lia. now rewrite Ew0, Ec. }
    destruct (code c =? 44) eqn:Em; [|discriminate].
    pose proof (skip_ws_length r1) as Hw1.
    intro H. destruct (IHe _ _ _ _ H) as [Hlt Hfuel].
    split; [lia|]. intros [|f'] Hf'; [lia|].
    rewrite scan_elements_equation, Hvf by lia.
    rewrite Ew0, Ec, Em. apply Hfuel. lia.
Qed.

(** The fuel [decode] gives is enough: a text that some fuel decodes,
    [decode] decodes to the same value. *)
Lemma decode_fuel_is_enough (fuel : nat) (s : string) (v : json) (rest : string) :
  scan_value fuel (skip_ws s) = Some (v, rest) ->
  skip_ws rest = "" ->
  decode s = Some v.
Proof.
  intros H Hrest. unfold decode.
  destruct (proj1 (scans_read fuel) _ _ _ H) as [_ Hfuel].
  rewrite Hfuel; [now rewrite Hrest|].
  pose proof (skip_ws_length s). lia.
Qed.

(** [decode] refuses a text exactly when no fuel decodes it. *)
Lemma decode_iff (s : string) (v : json) :
  decode s = Some v <-> well_formed s v.
Proof.
  split.
  - unfold decode, well_formed. intro H.
    destruct (scan_value _ _) as [[x rest]|] eqn:E; [|discriminate].
    destruct (skip_ws rest) eqn:Er; [|discriminate].
    injection H as <-. eauto.
  - intros (fuel & rest & H & Hrest).
    exact (decode_fuel_is_enough _ _ _ _ H Hrest).
Qed.

(** One member whose value is a str, read after the key's opening quote. *)
Lemma scan_member_str (f : nat) (k v tail : string) (acc : dict) :
  scan_members (S (S f))
    (encode_chars k ++ String dquote (": " ++ encode_str v ++ tail)) acc
  = match skip_ws tail with
    | String c2 r3 =>
        if code c2 =? 125 then Some (JDict (dict_set k (JStr v) acc), r3)
        else if code c2 =? 44 then
          match skip_ws r3 with
          | String c3 r4 =>
              if code c3 =? 34
              then scan_members (S f) r4 (dict_set k (JStr v) acc)
              else None
          | EmptyString => None
          end
        else None
    | EmptyString => None
    end.
Proof.
  rewrite scan_members_equation, scan_string_encode.
  change (skip_ws (": " ++ encode_str v ++ tail))
    with (String ":" (String " " (encode_str v ++ tail))).
  change (code ":" =? 58) with true. cbv iota.
  change (skip_ws (String " " (encode_str v ++ tail)))
    with (encode_str v ++ tail).
  rewrite scan_value_str. reflexivity.
Qed.

Lemma join_two (sep x y : string) (l : list string) :
  join sep (x :: y :: l) = x ++ sep ++ join sep (y :: l).
Proof. reflexivity. Qed.

Lemma members_rest_text (fields : list (string * string)) :
  forall k v tail,
    join ("," ++ newline_indent 1)
      (member_text (k, JStr v) :: map member_text (str_fields fields))
    ++ newline_indent 0 ++ "}" ++ tail
    = String dquote (encode_chars k
                       ++ String dquote (": " ++ encode_str v
                                           ++ rest_text fields tail)).
Proof.
  induction fields as [|[k' v'] fields IH]; intros k v tail.
  - cbn [str_fields map join rest_text]. unfold member_text.
    cbn [fst snd encode].
    rewrite !append_assoc, encode_str_append. reflexivity.
  - change (map member_text (str_fields ((k', v') :: fields)))
      with (member_text (k', JStr v') :: map member_text (str_fields fields)).
    rewrite join_two, !append_assoc, IH.
    unfold member_text. cbn [fst snd encode rest_text].
    rewrite !append_assoc, encode_str_append. reflexivity.
Qed.

Lemma dumps_str_fields (fields : list (string * string)) (k v : string) :
  dumps (JDict (str_fields ((k, v) :: fields)))
  = "{" ++ newline_indent 1
      ++ String dquote (encode_chars k
                          ++ String dquote (": " ++ encode_str v
                                              ++ rest_text fields "")).
Proof.
  rewrite <- members_rest_text. reflexivity.
Qed.

Lemma scan_members_fields (fields : list (string * string)) :
  forall k v f acc tail,
    (List.length fields < f)%nat ->
    scan_members (S f)
      (encode_chars k
         ++ String dquote (": " ++ encode_str v ++ rest_text fields tail)) acc
    = Some (JDict (set_all ((k, v) :: fields) acc), tail).
Proof.
  induction fields as [|[k' v'] fields IH]; intros k v f acc tail Hf;
    (destruct f as [|f]; [simpl in Hf; lia|]);
    rewrite scan_member_str.
  - reflexivity.
  - change (scan_members (S f)
              (encode_chars k'
                 ++ String dquote (": " ++ encode_str v' ++ rest_text fields tail))
              (dict_set k (JStr v) acc)
            = Some (JDict (set_all ((k, v) :: (k', v') :: fields) acc), tail)).
    rewrite IH by (simpl in Hf; lia). reflexivity.
Qed.

Lemma rest_text_length (fields : list (string * string)) (tail : string) :
  (List.length fields < String.length (rest_text fields tail))%nat.
Proof.
  induction fields as [|[k v] fields IH]; cbn [rest_text List.length].
  - simpl. lia.
  - cbn [append String.length newline_indent spaces Nat.mul Nat.add].
    rewrite !length_append. cbn [String.length].
    rewrite !length_append. lia.
Qed.

Lemma decode_dumps_str_fields (fields : list (string * string)) (k v : string) :
  decode (dumps (JDict (str_fields ((k, v) :: fields))))
  = Some (JDict (set_all ((k, v) :: fields) [])).
Proof.
  rewrite dumps_str_fields. unfold decode.
  set (X := encode_chars k
              ++ String dquote (": " ++ encode_str v ++ rest_text fields "")).
  set (T := "{" ++ newline_indent 1 ++ String dquote X).
  assert (HT : exists f, String.length T = S f /\ (List.length fields < f)%nat).
  { exists (String.length (newline_indent 1 ++ String dquote X)).
    split; [reflexivity|].
    pose proof (rest_text_length fields "").
    unfold X. cbn [String.length newline_indent spaces Nat.mul Nat.add append].
    rewrite !length_append. cbn [String.length]. rewrite !length_append. lia. }
  destruct HT as (f & -> & Hf).
  change (scan_value (S (S f)) (skip_ws T)) with (scan_members (S f) X []).
  unfold X. rewrite scan_members_fields by assumption. reflexivity.
Qed.

(** The error records decode back from their text. *)
Lemma loads_error_variant (msg raw now : string) :
  loads (dumps (error_variant msg raw now)) = Ok (error_variant msg raw now).
Proof.
  unfold loads.
  change (error_variant msg raw now)
    with (JDict (str_fields [ ("error", msg); ("raw_response", raw);
                              ("timestamp", now) ])).
  now rewrite decode_dumps_str_fields.
Qed.

Lemma loads_exception_record (e : exn) (now : string) :
  loads (dumps (Analyser.exception_record e now))
  = Ok (Analyser.exception_record e now).
Proof.
  unfold loads.
  change (Analyser.exception_record e now)
    with (JDict (str_fields [("error", exn_str e); ("timestamp", now)])).
  now rewrite decode_dumps_str_fields.
Qed.

End DecoderFacts.

(** ** Dicts *)

Section DictFacts.

Lemma dict_get_set_same (k : string) (v : json) (d : dict) :
  dict_get k (dict_set k v d) = Some v.
Proof.
  induction d as [|[k' v'] d IH]; simpl.
  - now rewrite String.eqb_refl.
  - destruct (String.eqb k' k) eqn:E; simpl; rewrite E; [reflexivity | exact IH].
Qed.

Lemma dict_get_set_other (k k' : string) (v : json) (d : dict) :
  k' <> k -> dict_get k' (dict_set k v d) = dict_get k' d.
Proof.
  intro Hne. induction d as [|[k0 v0] d IH]; simpl.
  - apply String.eqb_neq in Hne. rewrite String.eqb_sym. now rewrite Hne.
  - destruct (String.eqb k0 k) eqn:E; simpl.
    + apply String.eqb_eq in E; subst k0.
      apply String.eqb_neq in Hne. rewrite String.eqb_sym. now rewrite Hne.
    + now rewrite IH.
Qed.

Lemma keys_set (k k' : string) (v : json) (d : dict) :
  In k' (keys (dict_set k v d)) <-> k' = k \/ In k' (keys d).
Proof.
  induction d as [|[k0 v0] d IH]; simpl.
  - intuition.
  - destruct (String.eqb k0 k) eqn:E; simpl.
    + apply String.eqb_eq in E; subst k0. intuition.
    + rewrite IH. intuition.
Qed.

Lemma dict_get_keys (k : string) (d : dict) :
  In k (keys d) <-> exists v, dict_get k d = Some v.
Proof.
  induction d as [|[k0 v0] d IH]; simpl.
  - split; [tauto | intros [v [=]]].
  - destruct (String.eqb k0 k) eqn:E.
    + apply String.eqb_eq in E. split; eauto.
    + apply String.eqb_neq in E. rewrite IH. intuition.
Qed.

End DictFacts.

(** ** blood_report_analyser.py *)

Section AnalyserFacts.
Import Analyser.

(** The outer [try] never lets an exception out. *)
Lemma analyze_total (env : Env) (path : string) :
  exists s, analyze_blood_report env path = Ok s.
Proof.
  unfold analyze_blood_report, try_except.
  destruct (bind _ _); eauto.
Qed.

(** After a reply, the function is the normalizer under the outer handler. *)
Lemma analyze_on_reply (env : Env) (path text : string) :
  model_replies env path text ->
  analyze_blood_report env path
  = try_except (normalize (now_isoformat env) text)
      (fun e => Ok (dumps (exception_record e (now_isoformat env)))).
Proof.
  intros [part [Himg Hgen]]. unfold analyze_blood_report.
  rewrite Himg. simpl. now rewrite Hgen.
Qed.

(** The indices the normalizer computes on a text with a brace slice. *)
Lemma brace_slice_indices (text sl : string) :
  brace_slice text sl ->
  0 <= find text "{" /\ 0 <= rfind text "}"
  /\ slice text (find text "{") (rfind text "}" + 1) = sl.
Proof.
  intros (l & m & r & -> & Hl & Hr & ->).
  rewrite find_first by assumption.
  replace (l ++ String "{" (m ++ String "}" r))
    with ((l ++ String "{" m) ++ String "}" r)
    by (now rewrite append_assoc).
  rewrite rfind_last by assumption.
  pose proof (len_nonneg l). pose proof (len_nonneg (l ++ String "{" m)).
  repeat split; try lia.
  rewrite append_assoc. simpl.
  replace (String "{" (m ++ String "}" r))
    with (String "{" (m ++ String "}" "") ++ r)
    by (simpl; now rewrite append_assoc).
  replace (len (l ++ String "{" m) + 1)
    with (len l + len (String "{" (m ++ String "}" ""))).
  - apply slice_middle.
  - unfold len. rewrite length_append. simpl String.length.
    rewrite length_append. simpl. lia.
Qed.

(** On a text with a brace slice the normalizer takes the inner [try]. *)
Lemma normalize_brace_slice (now text sl : string) :
  brace_slice text sl ->
  normalize now text
  = try_except_class
      (result <- loads sl ;;
       result <- setitem result "analysis_timestamp" (JStr now) ;;
       has <- contains "disclaimer" result ;;
       result <- (if has then Ok result
                  else setitem result "disclaimer"
                         (JList (map JStr default_disclaimer))) ;;
       Ok (dumps result))
      JSONDecodeError
      (Ok (dumps (bad_json_record sl now))).
Proof.
  intro H. destruct (brace_slice_indices _ _ H) as (Hf & Hr & Hs).
  unfold normalize. rewrite Hs.
  assert (E1 : (find text "{" =? -1) = false) by (apply Z.eqb_neq; lia).
  assert (E2 : (rfind text "}" + 1 =? 0) = false) by (apply Z.eqb_neq; lia).
  now rewrite E1, E2.
Qed.

(** The record of the success path, given what the slice decoded to. *)
Lemma normalize_decoded (now text sl : string) (obj : dict) :
  brace_slice text sl ->
  decode sl = Some (JDict obj) ->
  normalize now text = Ok (dumps (JDict (success_record now obj))).
Proof.
  intros H Hdec. rewrite (normalize_brace_slice _ _ _ H).
  unfold loads. rewrite Hdec. unfold success_record.
  cbn [bind setitem contains]. unfold dict_mem.
  rewrite dict_get_set_other by discriminate.
  destruct (dict_get "disclaimer" obj); reflexivity.
Qed.

(** From the first [c] on, the text starts with [c]. *)
Lemma drop_find_from (c : ascii) (s : string) (i : Z) :
  find_from c s i <> -1 -> 0 <= i ->
  exists r, drop (Z.to_nat (find_from c s i - i)) s = String c r.
Proof.
  revert i; induction s as [|a s IH]; intros i; simpl; [congruence|].
  destruct (Ascii.eqb a c) eqn:E; intros Hf Hi.
  - apply Ascii.eqb_eq in E; subst a.
    replace (Z.to_nat (i - i)) with 0%nat by lia. simpl. eauto.
  - destruct (IH (i + 1) Hf ltac:(lia)) as [r Hr].
    destruct (find_from_range c s (i + 1)) as [Hn | Hrange]; [congruence|].
    exists r.
    replace (Z.to_nat (find_from c s (i + 1) - i))
      with (S (Z.to_nat (find_from c s (i + 1) - (i + 1)))) by lia.
    exact Hr.
Qed.

(** A slice that starts at the first [c] is empty or starts with [c]. *)
Lemma slice_from_find (c : ascii) (s : string) (hi : Z) :
  find s c <> -1 ->
  slice s (find s c) hi = "" \/ exists r, slice s (find s c) hi = String c r.
Proof.
  intro Hf. unfold slice.
  destruct (find_from_range c s 0) as [Hn | Hrange]; [now elim Hf|].
  fold (find s c) in Hrange.
  assert (Hc : clamp (len s) (find s c) = find s c).
  { unfold clamp. assert (E : (find s c <? 0) = false) by (apply Z.ltb_ge; lia).
    rewrite E. lia. }
  rewrite Hc.
  destruct (drop_find_from c s 0 Hf ltac:(lia)) as [r Hr].
  fold (find s c) in Hr. rewrite Z.sub_0_r in Hr. rewrite Hr.
  generalize (Z.to_nat (clamp (len s) hi - find s c)).
  intros [|n]; simpl; [now left | right; eauto].
Qed.

(** The normalizer returns the text of a dict, whatever the reply. *)
Lemma normalize_total (now text : string) :
  exists record, normalize now text = Ok (dumps (JDict record)).
Proof.
  unfold normalize.
  destruct ((find text "{" =? -1) || (rfind text "}" + 1 =? 0)) eqn:E.
  - unfold no_json_record. eauto.
  - apply orb_false_iff in E as [E _]. apply Z.eqb_neq in E.
    destruct (slice_from_find "{" text (rfind text "}" + 1) E) as [-> | [r ->]].
    + unfold bad_json_record. simpl. eauto.
    + unfold loads.
      destruct (decode (String "{" r)) as [v|] eqn:Hdec.
      * destruct (decode_brace_dict _ _ Hdec) as [d ->].
        cbn [bind setitem contains try_except_class].
        destruct (dict_mem _ _); cbn [bind setitem try_except_class]; eauto.
      * unfold bad_json_record. simpl. eauto.
Qed.

End AnalyserFacts.

(** ** Claims about the analyser *)

(** Settles, on a sample environment, that the model answered or raised:
    the run is computed. *)
Ltac by_running := eexists; split; reflexivity.

(** Cuts a sample reply into what stands before its first opening brace,
    the slice [sl], and what stands after its last closing brace. *)
Ltac cut_at_braces l sl r :=
  exists l; exists (take (String.length sl - 2) (drop 1 sl)); exists r;
  repeat split; reflexivity.

Section AnalyserClaims.
Import Analyser.

(** The normalizer at work: the model has answered [text] to the request
    built for the picture at [path]. *)
Section AfterReply.

Variables (env : Env) (path text : string).
Hypothesis replied : model_replies env path text.



(** The last [c] of a text, when there is one, has an index in the text. *)
Lemma rfind_range (s : string) (c : ascii) :
  rfind s c = -1 \/ 0 <= rfind s c < len s.
Proof.
  unfold rfind. destruct (rfind_from_range c s 0 (-1)); [now left | right; lia].
Qed.

(** C5.  When the reply has no opening brace, or has no closing brace
    after its first opening brace, the function returns the error variant,
    and its [raw_response] is a prefix of the reply of at most 500
    characters: the first 500 characters when a brace is missing
    altogether. *)
Theorem normalize_without_braces :
  (contains_char "{" text = false
   \/ exists l r, text = l ++ String "{" r
                  /\ contains_char "{" l = false
                  /\ contains_char "}" r = false) ->
  exists msg raw,
    analyze_blood_report env path
    = Ok (dumps (error_variant msg raw (now_isoformat env)))
    /\ String.prefix raw text = true
    /\ (String.length raw <= 500)%nat
    /\ (contains_char "{" text = false \/ contains_char "}" text = false ->
        raw = take 500 text).
Proof.
  intros Hcase.
  rewrite (analyze_on_reply _ _ _ replied).
  assert (Hfirst : forall now, (find text "{" =? -1) || (rfind text "}" + 1 =? 0) = true ->
            normalize now text = Ok (dumps (no_json_record text now))).
  { intros now E. unfold normalize. now rewrite E. }
  assert (Hhead : slice text 0 500 = take 500 text)
    by (now rewrite slice_head by lia).
  assert (Hlen : (String.length (take 500 text) <= 500)%nat)
    by (rewrite take_length; lia).
  destruct Hcase as [Hno | (l & r & Ht & Hl & Hr)].
  - exists "Could not parse the blood report", (take 500 text).
    rewrite Hfirst by (rewrite (find_absent _ _ Hno); reflexivity).
    unfold no_json_record, error_variant. rewrite Hhead. simpl try_except.
    repeat split; auto using take_prefix.
  - assert (Hfind : find text "{" = len l) by (subst text; now apply find_first).
    assert (Hlast : rfind text "}" < len l).
    { subst text. apply rfind_before. simpl. exact Hr. }
    destruct (rfind_range text "}") as [Hnone | Hsome].
    + exists "Could not parse the blood report", (take 500 text).
      rewrite Hfirst by (rewrite Hnone; apply orb_true_r).
      unfold no_json_record, error_variant. rewrite Hhead. simpl try_except.
      repeat split; auto using take_prefix.
    + exists "Could not parse JSON response", "".
      unfold normalize.
      pose proof (len_nonneg l).
      assert (E1 : (find text "{" =? -1) = false) by (apply Z.eqb_neq; lia).
      assert (E2 : (rfind text "}" + 1 =? 0) = false) by (apply Z.eqb_neq; lia).
      rewrite E1, E2. simpl orb. cbv iota.
      rewrite slice_empty by lia.
      split; [reflexivity|]. split; [now destruct text|]. split; [simpl; lia|].
      intros [Hc | Hc].
      * rewrite (find_absent _ _ Hc) in Hfind. lia.
      * rewrite (rfind_absent _ _ Hc) in Hsome. lia.
Qed.


End AfterReply.




(** C5 on a reply whose only closing brace precedes its opening brace. *)
Lemma normalize_without_braces_witness :
  model_replies (Examples.analyser_env (Ok Examples.reply_closing_first))
    "report.jpg" Examples.reply_closing_first
  /\ (exists l r, Examples.reply_closing_first = l ++ String "{" r
                  /\ contains_char "{" l = false
                  /\ contains_char "}" r = false)
  /\ exists msg raw,
       analyze_blood_report
         (Examples.analyser_env (Ok Examples.reply_closing_first)) "report.jpg"
       = Ok (dumps (error_variant msg raw Examples.clock))
       /\ String.prefix raw Examples.reply_closing_first = true
       /\ (String.length raw <= 500)%nat.
Proof.
  assert (H1 : model_replies
                 (Examples.analyser_env (Ok Examples.reply_closing_first))
                 "report.jpg" Examples.reply_closing_first)
    by by_running.
  assert (H2 : exists l r, Examples.reply_closing_first = l ++ String "{" r
                  /\ contains_char "{" l = false
                  /\ contains_char "}" r = false)
    by (exists "} then ", ""; repeat split; reflexivity).
  split; [exact H1|]. split; [exact H2|].
  destruct (normalize_without_braces _ _ _ H1 (or_intror H2))
    as (msg & raw & Hret & Hpre & Hlen & _).
  exists msg, raw. split; [exact Hret|]. split; [exact Hpre | exact Hlen].
Defined.


(** C9.  [analyze_blood_report] returns for every path and every
    behaviour of the file system and of the model: its result is the text
    [dumps] writes for a dict, and never an exception.  When reading the
    picture or calling the model raises, the dict has the two fields
    [error] and [timestamp] and nothing else, so no [raw_response], and
    the text decodes back to it. *)
Theorem analyze_blood_report_is_total (env : Env) (path : string) :
  exists record,
    analyze_blood_report env path = Ok (dumps (JDict record))
    /\ forall e,
         read_bytes env path = Raise e \/ model_call_raises env path e ->
         record = [ ("error", JStr (exn_str e));
                    ("timestamp", JStr (now_isoformat env)) ]
         /\ keys record = ["error"; "timestamp"]
         /\ dict_get "raw_response" record = None
         /\ loads (dumps (JDict record)) = Ok (JDict record).
Proof.
  unfold analyze_blood_report, model_call_raises.
  destruct (image_format env path) as [parts | e0] eqn:Himg.
  - assert (Hparts : exists part, parts = [part]).
    { unfold image_format in Himg.
      destruct (read_bytes env path); [|discriminate].
      injection Himg as <-. eauto. }
    destruct Hparts as [part ->].
    assert (Hread : forall e, read_bytes env path <> Raise e).
    { intros e H. unfold image_format in Himg. rewrite H in Himg. discriminate. }
    cbn [bind first_item].
    destruct (generate_content env (request_of part)) as [text | e1] eqn:Hgen.
    + cbn [bind]. destruct (normalize_total (now_isoformat env) text) as [r Hr].
      exists r. rewrite Hr. split; [reflexivity|].
      intros e [H | (p0 & Hp & Hraise)]; [now elim (Hread e)|].
      injection Hp as <-. rewrite Hgen in Hraise. discriminate.
    + exists [ ("error", JStr (exn_str e1));
               ("timestamp", JStr (now_isoformat env)) ].
      split; [reflexivity|].
      intros e [H | (p0 & Hp & Hraise)]; [now elim (Hread e)|].
      injection Hp as <-. rewrite Hgen in Hraise.
      injection Hraise as <-. repeat split.
      exact (loads_exception_record _ _).
  - exists [ ("error", JStr (exn_str e0));
             ("timestamp", JStr (now_isoformat env)) ].
    split; [reflexivity|].
    intros e [H | (p0 & Hp & Hraise)]; [|discriminate].
    unfold image_format in Himg. rewrite H in Himg.
    injection Himg as <-. repeat split.
    exact (loads_exception_record _ _).
Qed.

(** C9 on a model call that raises a quota failure. *)
Lemma analyze_blood_report_is_total_witness :
  model_call_raises (Examples.analyser_env (Raise Examples.quota_error))
    "report.jpg" Examples.quota_error
  /\ analyze_blood_report (Examples.analyser_env (Raise Examples.quota_error))
       "report.jpg"
     = Ok (dumps (JDict [ ("error", JStr "429 quota exceeded");
                          ("timestamp", JStr Examples.clock) ])).
Proof.
  assert (H : model_call_raises
                (Examples.analyser_env (Raise Examples.quota_error))
                "report.jpg" Examples.quota_error)
    by by_running.
  split; [exact H|].
  destruct (analyze_blood_report_is_total
              (Examples.analyser_env (Raise Examples.quota_error)) "report.jpg")
    as (record & Hret & Hshape).
  destruct (Hshape _ (or_intror H)) as (Hrec & _).
  rewrite Hret, Hrec. reflexivity.
Defined.

(** C8, against the claim as worded.  A path that ends in [.bmp], and one
    with no extension, are tagged [image/png]. *)
Lemma bmp_and_bare_names_are_tagged_png :
  image_format (Examples.analyser_env (Ok "")) "scan.bmp"
  = Ok [ {| mime_type := "image/png"; data := [] |} ]
  /\ image_format (Examples.analyser_env (Ok "")) "scan"
     = Ok [ {| mime_type := "image/png"; data := [] |} ]
  /\ "image/png" <> "image/jpeg".
Proof. repeat split; try reflexivity. discriminate. Qed.

(** C8, amended.  The MIME tag is [image/jpeg] exactly when the path,
    lowercased, ends in [.jpg] or [.jpeg]; every other path, whatever its
    extension, is tagged [image/png]. *)
Theorem image_format_mime (env : Env) (path : string) (bytes : list byte) :
  read_bytes env path = Ok bytes ->
  exists mime,
    image_format env path = Ok [ {| mime_type := mime; data := bytes |} ]
    /\ (mime = "image/jpeg" \/ mime = "image/png")
    /\ (mime = "image/jpeg"
        <-> exists stem, lower path = stem ++ ".jpg"
                         \/ lower path = stem ++ ".jpeg").
Proof.
  intro Hread. unfold image_format. rewrite Hread. cbn [bind].
  unfold endswith_any. cbn [existsb]. rewrite orb_false_r.
  destruct (endswith (lower path) ".jpg") eqn:E1.
  - exists "image/jpeg". split; [reflexivity|]. split; [now left|].
    split; [|reflexivity]. intros _.
    apply endswith_spec in E1 as [stem Hs]. eauto.
  - destruct (endswith (lower path) ".jpeg") eqn:E2; cbn [orb].
    + exists "image/jpeg". split; [reflexivity|]. split; [now left|].
      split; [|reflexivity]. intros _.
      apply endswith_spec in E2 as [stem Hs]. eauto.
    + exists "image/png". split; [reflexivity|]. split; [now right|].
      split; [discriminate|].
      intros [stem [Hs | Hs]].
      * assert (H : endswith (lower path) ".jpg" = true)
          by (apply endswith_spec; eauto).
        congruence.
      * assert (H : endswith (lower path) ".jpeg" = true)
          by (apply endswith_spec; eauto).
        congruence.
Qed.

(** C8, amended, on a path whose extension is in capitals. *)
Lemma image_format_mime_witness :
  Analyser.read_bytes (Examples.analyser_env (Ok "")) "Scan.JPG" = Ok []
  /\ image_format (Examples.analyser_env (Ok "")) "Scan.JPG"
     = Ok [ {| mime_type := "image/jpeg"; data := [] |} ].
Proof.
  split; [reflexivity|].
  destruct (image_format_mime (Examples.analyser_env (Ok "")) "Scan.JPG" []
              eq_refl) as (mime & Hret & _ & Hiff).
  rewrite Hret.
  assert (Hm : mime = "image/jpeg")
    by (apply Hiff; exists "scan"; left; reflexivity).
  now rewrite Hm.
Defined.

End AnalyserClaims.

(** ** pdf_generator.py *)

Section RendererFacts.
Import PdfGenerator.

(** On every character, lowering gives one of the letters of the word
    [abnormal] exactly for that letter and its capital. *)
Lemma lower_char_letters (c : ascii) :
  forallb (fun l => Bool.eqb (Ascii.eqb (lower_char c) l) (same_letter c l))
    ["a"; "b"; "n"; "o"; "r"; "m"; "l"]%char = true.
Proof. destruct c as [[] [] [] [] [] [] [] []]; vm_compute; reflexivity. Qed.

Lemma lower_char_letter (c l : ascii) :
  In l ["a"; "b"; "n"; "o"; "r"; "m"; "l"]%char ->
  Ascii.eqb (lower_char c) l = same_letter c l.
Proof.
  intro Hin. pose proof (lower_char_letters c) as H.
  rewrite forallb_forall in H. specialize (H l Hin).
  now apply eqb_prop in H.
Qed.

Lemma lower_equal_ignoring_case (word s : string) :
  (forall l, contains_char l word = true ->
             In l ["a"; "b"; "n"; "o"; "r"; "m"; "l"]%char) ->
  String.eqb (lower s) word = equal_ignoring_case s word.
Proof.
  revert s; induction word as [|l word IH]; intros [|c s] Hw; simpl;
    try reflexivity.
  rewrite lower_char_letter.
  - rewrite IH; [reflexivity|].
    intros l' Hl'. apply Hw. simpl. rewrite Hl'. apply orb_true_r.
  - apply Hw. simpl. now rewrite Ascii.eqb_refl.
Qed.

(** The comparison the code makes is the comparison without case. *)
Lemma lower_is_abnormal (s : string) :
  String.eqb (lower s) "abnormal" = equal_ignoring_case s "abnormal".
Proof.
  apply lower_equal_ignoring_case. intros l H. cbn [contains_char] in H.
  repeat (apply orb_true_iff in H as [H | H];
          [apply Ascii.eqb_eq in H; subst l; simpl; tauto|]).
  discriminate.
Qed.

Lemma status_cell_spec (s : string) : status_cell (lower s) = status_cell_of s.
Proof.
  unfold status_cell, status_cell_of. now rewrite lower_is_abnormal.
Qed.

Lemma text_field_get (d : dict) (k default s : string) :
  text_field d k default = Some s ->
  get (JDict d) k (JStr default) = Ok (JStr s).
Proof.
  unfold text_field, get.
  destruct (dict_get k d) as [[]|]; try discriminate; intros [= <-]; reflexivity.
Qed.

(** The row of an entry whose fields are texts. *)
Lemma parameter_row_of_texts (d : dict) (row : list op) :
  entry_row d row -> parameter_row (JDict d) = Ok row.
Proof.
  intros [d' name value range status Hn Hv Hr Hs].
  unfold parameter_row, getitem. rewrite Hn.
  rewrite (text_field_get _ _ _ _ Hv), (text_field_get _ _ _ _ Hr),
    (text_field_get _ _ _ _ Hs).
  cbn [bind length lower_method]. rewrite status_cell_spec.
  unfold row_of, shown_name.
  destruct (30 <? len name).
  - cbn [truncated bind]. rewrite slice_head by lia. reflexivity.
  - reflexivity.
Qed.

Lemma for_each_rows (entries : list dict) (rows : list (list op)) :
  Forall2 entry_row entries rows ->
  for_each (map JDict entries) parameter_row = Ok (concat rows).
Proof.
  induction 1 as [|d row entries rows Hd _ IH]; [reflexivity|].
  cbn [map for_each]. unfold andthen.
  rewrite (parameter_row_of_texts _ _ Hd), IH. reflexivity.
Qed.

(** Two steps that both went through. *)
Lemma andthen_ok_inv {A} (a b : result (list A)) (l : list A) :
  andthen a b = Ok l ->
  exists x y, a = Ok x /\ b = Ok y /\ l = (x ++ y)%list.
Proof.
  unfold andthen. destruct a as [x|]; [|discriminate].
  destruct b as [y|]; [|discriminate]. cbn [bind]. intros [= <-]. eauto.
Qed.

(** A step that raises stops the drawing. *)
Lemma andthen_raise_right {A} (a b : result (list A)) (e : exn) :
  b = Raise e -> exists e', andthen a b = Raise e'.
Proof. intros ->. destruct a; simpl; eauto. Qed.

Lemma parameter_row_nameless (p : dict) :
  dict_get "parameter" p = None ->
  parameter_row (JDict p) = Raise (Exn KeyError "'parameter'").
Proof. intro H. unfold parameter_row, getitem. now rewrite H. Qed.

Lemma for_each_nameless (before after : list json) (p : dict) :
  dict_get "parameter" p = None ->
  (exists e, for_each (before ++ JDict p :: after) parameter_row = Raise e)
  /\ (forall rows, for_each before parameter_row = Ok rows ->
        for_each (before ++ JDict p :: after) parameter_row
        = Raise (Exn KeyError "'parameter'")).
Proof.
  intro Hp. induction before as [|x before [IH1 IH2]]; cbn [List.app for_each].
  - rewrite (parameter_row_nameless _ Hp).
    split; [eexists; reflexivity | intros; reflexivity].
  - split.
    + destruct IH1 as [e He]. eapply andthen_raise_right; eassumption.
    + intros rows. unfold andthen at 1.
      destruct (parameter_row x) as [row|]; [|discriminate]. cbn [bind].
      destruct (for_each before parameter_row) as [rows'|]; [|discriminate].
      intros _. rewrite (IH2 rows' eq_refl). reflexivity.
Qed.

End RendererFacts.

(** ** Claims about the renderer *)

Section RendererClaims.
Import PdfGenerator.

(** C7.  In the document drawn for a record whose entries of
    [blood_parameters] have texts for fields, the table holds one row per
    entry, in order, and the row of every entry ends with the status cell:
    ABNORMAL between a switch to red and a switch back to black exactly
    when the entry's status equals the word abnormal up to the case of its
    letters, and NORMAL between a switch to green and a switch back to
    black for any other status, an absent one included. *)
Theorem status_cell_follows_status
    (env : Env) (d : dict) (entries : list dict) (rows : list (list op))
    (ops : list op) :
  dict_get "blood_parameters" d = Some (JList (map JDict entries)) ->
  Forall2 entry_row entries rows ->
  document env (JDict d) = Ok ops ->
  add_blood_parameters (JList (map JDict entries))
  = Ok (table_head ++ concat rows ++ [Ln (Some 4)])%list
  /\ (exists before after,
        ops = (before ++ (table_head ++ concat rows ++ [Ln (Some 4)])
                      ++ after)%list)
  /\ Forall2
       (fun entry row =>
          exists cells status,
            text_field entry "status" "" = Some status
            /\ List.length cells = 3%nat
            /\ row = (cells
                      ++ if equal_ignoring_case status "abnormal"
                         then [ SetTextColor 255 0 0;
                                Cell 40 7 "ABNORMAL" 1 1 "C" 0;
                                SetTextColor 0 0 0 ]
                         else [ SetTextColor 0 128 0;
                                Cell 40 7 "NORMAL" 1 1 "C" 0;
                                SetTextColor 0 0 0 ])%list)
       entries rows.
Proof.
  intros Hbp H Hdoc.
  assert (Htable : add_blood_parameters (JList (map JDict entries))
                   = Ok (table_head ++ concat rows ++ [Ln (Some 4)])%list).
  { unfold add_blood_parameters, chapter_title, draw, andthen.
    cbn [bind iterate]. rewrite (for_each_rows _ _ H). reflexivity. }
  split; [exact Htable|]. split.
  - unfold document in Hdoc.
    apply andthen_ok_inv in Hdoc as (pre & r1 & _ & Hdoc & ->).
    apply andthen_ok_inv in Hdoc as (o1 & r2 & _ & Hdoc & ->).
    apply andthen_ok_inv in Hdoc as (o2 & r3 & _ & Hdoc & ->).
    apply andthen_ok_inv in Hdoc as (o3 & r4 & H3 & _ & ->).
    unfold section, contains, dict_mem, getitem in H3. rewrite Hbp in H3.
    cbn [bind] in H3. rewrite Htable in H3.
    assert (E : o3 = (table_head ++ concat rows ++ [Ln (Some 4)])%list)
      by congruence.
    subst o3.
    exists (pre ++ o1 ++ o2)%list, r4.
    now rewrite <- !List.app_assoc.
  - clear Hbp Hdoc Htable.
    induction H as [|entry row entries rows Hd _ IH]; constructor; [|exact IH].
    destruct Hd as [entry name value range status Hn Hv Hr Hs].
    eexists _, status. split; [exact Hs|]. split; [|reflexivity]. reflexivity.
Qed.

(** C7 on a table of three entries: a status in capitals, no status,
    another word. *)
Lemma status_cell_follows_status_witness :
  dict_get "blood_parameters" Examples.record_table
  = Some (JList (map JDict [ Examples.entry_low; Examples.entry_bare;
                             Examples.entry_high ]))
  /\ Forall2 entry_row
       [Examples.entry_low; Examples.entry_bare; Examples.entry_high]
       [ row_of "Hemoglobin" "10" "13-17" "ABNORMAL";
         row_of "RBC Count" "N/A" "N/A" "";
         row_of "WBC Count" "12000" "N/A" "high" ]
  /\ (exists ops, document (Examples.renderer_env (Ok tt))
                    (JDict Examples.record_table) = Ok ops)
  /\ add_blood_parameters
       (JList [ JDict Examples.entry_low; JDict Examples.entry_bare;
                JDict Examples.entry_high ])
     = Ok (table_head
           ++ [ Cell 60 7 "Hemoglobin" 1 0 "" 0; Cell 30 7 "10" 1 0 "C" 0;
                Cell 60 7 "13-17" 1 0 "C" 0;
                SetTextColor 255 0 0; Cell 40 7 "ABNORMAL" 1 1 "C" 0;
                SetTextColor 0 0 0;
                Cell 60 7 "RBC Count" 1 0 "" 0; Cell 30 7 "N/A" 1 0 "C" 0;
                Cell 60 7 "N/A" 1 0 "C" 0;
                SetTextColor 0 128 0; Cell 40 7 "NORMAL" 1 1 "C" 0;
                SetTextColor 0 0 0;
                Cell 60 7 "WBC Count" 1 0 "" 0; Cell 30 7 "12000" 1 0 "C" 0;
                Cell 60 7 "N/A" 1 0 "C" 0;
                SetTextColor 0 128 0; Cell 40 7 "NORMAL" 1 1 "C" 0;
                SetTextColor 0 0 0;
                Ln (Some 4) ])%list.
Proof.
  assert (H : Forall2 entry_row
                [Examples.entry_low; Examples.entry_bare; Examples.entry_high]
                [ row_of "Hemoglobin" "10" "13-17" "ABNORMAL";
                  row_of "RBC Count" "N/A" "N/A" "";
                  row_of "WBC Count" "12000" "N/A" "high" ])
    by (repeat constructor).
  split; [reflexivity|]. split; [exact H|].
  split; [eexists; reflexivity|].
  exact (proj1 (status_cell_follows_status (Examples.renderer_env (Ok tt))
                  Examples.record_table
                  [Examples.entry_low; Examples.entry_bare; Examples.entry_high]
                  _ _ eq_refl H eq_refl)).
Defined.

(** C10.  When an entry of [blood_parameters] is a dict with no
    [parameter] key, [generate_pdf] raises, and what it raises is the
    KeyError of that key unless an earlier part of the record (the patient
    block, the test date, an entry before it) has already raised.  An
    entry that has its [parameter] and lacks [value], [reference_range]
    or [status] is drawn, with N/A for the first two and with NORMAL for
    the third. *)
Theorem generate_pdf_needs_parameter_key
    (env : Env) (src : source) (output_path : option string)
    (d p : dict) (before after : list json) :
  decodes_to src (JDict d) ->
  dict_get "blood_parameters" d = Some (JList (before ++ JDict p :: after)) ->
  dict_get "parameter" p = None ->
  (exists e, generate_pdf env src output_path = Raise e)
  /\ (forall ops1 ops2 rows,
        section (JDict d) "patient_details" add_patient_details = Ok ops1 ->
        section (JDict d) "test_date" add_test_date = Ok ops2 ->
        for_each before parameter_row = Ok rows ->
        generate_pdf env src output_path = Raise (Exn KeyError "'parameter'"))
  /\ (forall q name value range status,
        dict_get "parameter" q = Some (JStr name) ->
        text_field q "value" "N/A" = Some value ->
        text_field q "reference_range" "N/A" = Some range ->
        text_field q "status" "" = Some status ->
        parameter_row (JDict q)
        = Ok ([ Cell 60 7 (shown_name name) 1 0 "" 0;
                Cell 30 7 value 1 0 "C" 0;
                Cell 60 7 range 1 0 "C" 0 ] ++ status_cell_of status)%list
        /\ (dict_get "value" q = None -> value = "N/A")
        /\ (dict_get "reference_range" q = None -> range = "N/A")
        /\ (dict_get "status" q = None -> status_cell_of status = green_normal)).
Proof.
  intros Hsrc Hbp Hp.
  assert (Hdata : generate_pdf env src output_path
                  = (ops <- document env (JDict d) ;;
                     match given output_path with
                     | Some path =>
                         _ <- write_document env path (ops ++ [Output path]) ;;
                         Ok path
                     | None =>
                         let output_file :=
                           "blood_report_analysis_" ++ file_stamp env ++ ".pdf" in
                         _ <- write_document env output_file
                                (ops ++ [Output output_file]) ;;
                         Ok output_file
                     end)).
  { unfold generate_pdf. destruct src as [s | v]; simpl in Hsrc.
    - now rewrite Hsrc.
    - now subst v. }
  destruct (for_each_nameless before after p Hp) as [[e He] Hkey].
  assert (Htable : forall e0,
             for_each (before ++ JDict p :: after) parameter_row = Raise e0 ->
             section (JDict d) "blood_parameters" add_blood_parameters
             = Raise e0).
  { intros e0 H0. unfold section, contains, dict_mem, getitem. rewrite Hbp.
    cbn [bind]. unfold add_blood_parameters, chapter_title, draw.
    cbn [iterate bind]. rewrite H0. reflexivity. }
  split; [|split].
  - rewrite Hdata. unfold document.
    destruct (andthen_raise_right
                (section (JDict d) "test_date" add_test_date)
                (section (JDict d) "blood_parameters" add_blood_parameters
                 >> section (JDict d) "summary" add_summary
                 >> section (JDict d) "disclaimer" add_disclaimer) e)
      as [e1 H1]; [now rewrite (Htable e He)|].
    destruct (andthen_raise_right
                (section (JDict d) "patient_details" add_patient_details)
                _ e1 H1) as [e2 H2].
    rewrite H2. cbn [draw andthen bind]. eauto.
  - intros ops1 ops2 rows H1 H2 Hrows.
    rewrite Hdata. unfold document.
    rewrite H1, H2, (Htable _ (Hkey rows Hrows)). reflexivity.
  - intros q name value range status Hn Hv Hr Hs.
    split; [exact (parameter_row_of_texts _ _ (EntryRow q _ _ _ _ Hn Hv Hr Hs))|].
    unfold text_field in Hv, Hr, Hs. repeat split.
    + intro H. rewrite H in Hv. now injection Hv.
    + intro H. rewrite H in Hr. now injection Hr.
    + intro H. rewrite H in Hs. injection Hs as <-. reflexivity.
Qed.

(** C10 on a record whose second entry has no [parameter]. *)
Lemma generate_pdf_needs_parameter_key_witness :
  decodes_to (Data (JDict Examples.record_nameless))
    (JDict Examples.record_nameless)
  /\ dict_get "blood_parameters" Examples.record_nameless
     = Some (JList ([JDict Examples.entry_low]
                    ++ JDict Examples.entry_nameless :: []))
  /\ dict_get "parameter" Examples.entry_nameless = None
  /\ generate_pdf (Examples.renderer_env (Ok tt))
       (Data (JDict Examples.record_nameless)) (Some "out.pdf")
     = Raise (Exn KeyError "'parameter'").
Proof.
  split; [reflexivity|]. split; [reflexivity|]. split; [reflexivity|].
  destruct (generate_pdf_needs_parameter_key
              (Examples.renderer_env (Ok tt))
              (Data (JDict Examples.record_nameless)) (Some "out.pdf")
              Examples.record_nameless Examples.entry_nameless
              [JDict Examples.entry_low] [] eq_refl eq_refl eq_refl)
    as (_ & Hkey & _).
  eapply Hkey; reflexivity.
Defined.

End RendererClaims.

(** ** app.py *)

Section AppFacts.
Import App.

Lemma path_join_nonempty (a b : string) (c : ascii) :
  String.eqb (path_join a (String c b)) "" = false.
Proof.
  unfold path_join. apply String.eqb_neq.
  destruct (_ || _); destruct a; simpl; discriminate.
Qed.

Lemma pdf_path_given (env : Env) :
  PdfGenerator.given (Some (pdf_path env)) = Some (pdf_path env).
Proof.
  unfold PdfGenerator.given, pdf_path.
  change ("blood_report_analysis_" ++ pdf_stamp env ++ ".pdf")
    with (String "b" ("lood_report_analysis_" ++ pdf_stamp env ++ ".pdf")).
  now rewrite path_join_nonempty.
Qed.

(** A record with none of the five keys: only the first lines of the
    page are drawn, and nothing is displayed. *)
Lemma document_no_section (env : PdfGenerator.Env) (d : dict) :
  no_section d -> PdfGenerator.document env (JDict d) = Ok (preamble env).
Proof.
  intros (H1 & H2 & H3 & H4 & H5).
  unfold PdfGenerator.document, PdfGenerator.section, contains, dict_mem.
  now rewrite H1, H2, H3, H4, H5.
Qed.

Lemma format_no_section (d : dict) :
  no_section d -> format_json_for_display (JDict d) = Ok "".
Proof.
  intros (H1 & H2 & H3 & H4 & H5).
  unfold format_json_for_display, when_present, contains, dict_mem.
  now rewrite H1, H2, H3, H4, H5.
Qed.

Lemma generate_pdf_no_section
    (env : PdfGenerator.Env) (json_data path : string) (d : dict) :
  loads json_data = Ok (JDict d) ->
  no_section d ->
  PdfGenerator.given (Some path) = Some path ->
  PdfGenerator.generate_pdf env (PdfGenerator.Text json_data) (Some path)
  = (_ <- PdfGenerator.write_document env path
            (preamble env ++ [PdfGenerator.Output path]) ;;
     Ok path).
Proof.
  intros Hl Hd Hp. unfold PdfGenerator.generate_pdf.
  rewrite Hl. cbn [bind]. rewrite (document_no_section _ _ Hd). cbn [bind].
  now rewrite Hp.
Qed.

(** The calls made once the upload is stored. *)
Lemma process_image_calls (env : Env) (img : upload) (json_data : string) :
  makedirs env (temp_dir env) = Ok tt ->
  stored env img ->
  Analyser.analyze_blood_report (analyser env) (img_path env) = Ok json_data ->
  fst (process_image env (Some img))
  = [CallAnalyze (img_path env); CallGeneratePdf json_data (pdf_path env)].
Proof.
  intros Hm Hs Ha. unfold process_image.
  fold (temp_dir env). rewrite Hm. fold (img_path env). fold (pdf_path env).
  assert (Hst : match img with
                | FilePath p => copy env p (img_path env)
                | Picture px => save env px (img_path env)
                end = Ok tt) by (destruct img; exact Hs).
  rewrite Hst, Ha. cbn [pure invoke tbind ttry fst].
  destruct (PdfGenerator.generate_pdf _ _ _); cbn [tbind ttry fst];
    [destruct (try_except _ _)|]; reflexivity.
Qed.

(** What is returned for a record with none of the five keys. *)
Lemma process_image_no_section
    (env : Env) (img : upload) (json_data : string) (d : dict) :
  makedirs env (temp_dir env) = Ok tt ->
  stored env img ->
  Analyser.analyze_blood_report (analyser env) (img_path env) = Ok json_data ->
  loads json_data = Ok (JDict d) ->
  no_section d ->
  snd (process_image env (Some img))
  = match PdfGenerator.write_document (renderer env) (pdf_path env)
            (preamble (renderer env) ++ [PdfGenerator.Output (pdf_path env)])
    with
    | Ok _ => Ok ("", Some json_data, Some (pdf_path env))
    | Raise e => Ok ("Error: " ++ exn_str e, None, None)
    end.
Proof.
  intros Hm Hs Ha Hl Hd. unfold process_image.
  fold (temp_dir env). rewrite Hm. fold (img_path env). fold (pdf_path env).
  assert (Hst : match img with
                | FilePath p => copy env p (img_path env)
                | Picture px => save env px (img_path env)
                end = Ok tt) by (destruct img; exact Hs).
  rewrite Hst, Ha. cbn [pure invoke tbind ttry fst].
  rewrite (generate_pdf_no_section _ _ _ _ Hl Hd (pdf_path_given env)).
  rewrite Hl. cbn [bind]. rewrite (format_no_section _ Hd).
  destruct (PdfGenerator.write_document _ _ _); reflexivity.
Qed.

End AppFacts.

(** ** Claims about the orchestrator *)

Section AppClaims.
Import App.

(** C1, against the claim as worded.  When the model call raises, the
    analyser hands back an error record, and [process_image] returns an
    empty display text together with that record and the path of a
    document: no text that starts with Error, and neither output left
    out. *)
Lemma model_failure_yields_record_and_document :
  model_call_raises
    (analyser (Examples.app_env (Raise Examples.quota_error) (Ok tt)))
    (img_path (Examples.app_env (Raise Examples.quota_error) (Ok tt)))
    Examples.quota_error
  /\ snd (process_image (Examples.app_env (Raise Examples.quota_error) (Ok tt))
            (Some (Picture [])))
     = Ok ("",
           Some (dumps (JDict [ ("error", JStr "429 quota exceeded");
                                ("timestamp", JStr Examples.clock) ])),
           Some "/tmp/blood_report_analyzer/blood_report_analysis_20240501103001.pdf")
  /\ startswith "" "Error: " = false.
Proof.
  split; [by_running|]. split; reflexivity.
Qed.

(** C1, amended.  When the model call raises, the exception does not
    leave [analyze_blood_report]: the function returns the text of a record
    with the fields [error], holding the exception's message, and
    [timestamp].  [process_image] passes that text to [generate_pdf] and,
    when the document is written, returns an empty display text with the
    record and the document's path; it returns a text that starts with
    Error, and no record and no document, when writing the document
    raises. *)
Theorem model_failure_is_returned_as_record
    (env : Env) (img : upload) (e : exn) :
  makedirs env (temp_dir env) = Ok tt ->
  stored env img ->
  model_call_raises (analyser env) (img_path env) e ->
  Analyser.analyze_blood_report (analyser env) (img_path env)
  = Ok (dumps (JDict [ ("error", JStr (exn_str e));
                       ("timestamp",
                        JStr (Analyser.now_isoformat (analyser env))) ]))
  /\ fst (process_image env (Some img))
     = [ CallAnalyze (img_path env);
         CallGeneratePdf
           (dumps (JDict [ ("error", JStr (exn_str e));
                           ("timestamp",
                            JStr (Analyser.now_isoformat (analyser env))) ]))
           (pdf_path env) ]
  /\ (PdfGenerator.write_document (renderer env) (pdf_path env)
        (preamble (renderer env) ++ [PdfGenerator.Output (pdf_path env)])
      = Ok tt ->
      snd (process_image env (Some img))
      = Ok ("",
            Some (dumps (JDict [ ("error", JStr (exn_str e));
                                 ("timestamp",
                                  JStr (Analyser.now_isoformat (analyser env))) ])),
            Some (pdf_path env)))
  /\ (forall e',
        PdfGenerator.write_document (renderer env) (pdf_path env)
          (preamble (renderer env) ++ [PdfGenerator.Output (pdf_path env)])
        = Raise e' ->
        snd (process_image env (Some img))
        = Ok ("Error: " ++ exn_str e', None, None)).
Proof.
  intros Hm Hs Hraise.
  assert (Ha : Analyser.analyze_blood_report (analyser env) (img_path env)
               = Ok (dumps (Analyser.exception_record e
                              (Analyser.now_isoformat (analyser env))))).
  { destruct Hraise as (part & Himg & Hgen).
    unfold Analyser.analyze_blood_report. rewrite Himg.
    cbn [bind Analyser.first_item]. now rewrite Hgen. }
  assert (Hd : no_section [ ("error", JStr (exn_str e));
                            ("timestamp",
                             JStr (Analyser.now_isoformat (analyser env))) ])
    by (repeat split).
  pose proof (process_image_no_section env img _ _ Hm Hs Ha
                (loads_exception_record _ _) Hd) as Hret.
  split; [exact Ha|]. split; [exact (process_image_calls _ _ _ Hm Hs Ha)|].
  split.
  - intro Hw. rewrite Hret, Hw. reflexivity.
  - intros e' Hw. rewrite Hret, Hw. reflexivity.
Qed.

(** C1, amended, on a model call that raises a quota failure. *)
Lemma model_failure_is_returned_as_record_witness :
  makedirs (Examples.app_env (Raise Examples.quota_error) (Ok tt))
    (temp_dir (Examples.app_env (Raise Examples.quota_error) (Ok tt))) = Ok tt
  /\ stored (Examples.app_env (Raise Examples.quota_error) (Ok tt)) (Picture [])
  /\ model_call_raises
       (analyser (Examples.app_env (Raise Examples.quota_error) (Ok tt)))
       (img_path (Examples.app_env (Raise Examples.quota_error) (Ok tt)))
       Examples.quota_error
  /\ Analyser.analyze_blood_report
       (analyser (Examples.app_env (Raise Examples.quota_error) (Ok tt)))
       (img_path (Examples.app_env (Raise Examples.quota_error) (Ok tt)))
     = Ok (dumps (JDict [ ("error", JStr "429 quota exceeded");
                          ("timestamp", JStr Examples.clock) ])).
Proof.
  assert (H : model_call_raises
                (analyser (Examples.app_env (Raise Examples.quota_error) (Ok tt)))
                (img_path (Examples.app_env (Raise Examples.quota_error) (Ok tt)))
                Examples.quota_error)
    by by_running.
  split; [reflexivity|]. split; [reflexivity|]. split; [exact H|].
  exact (proj1 (model_failure_is_returned_as_record
                  (Examples.app_env (Raise Examples.quota_error) (Ok tt))
                  (Picture []) Examples.quota_error eq_refl eq_refl H)).
Defined.

(** C2, against the claim as worded.  For a reply with no brace the
    normalizer produces the error variant, and [process_image] calls
    [generate_pdf] on it. *)
Lemma error_variant_reaches_the_renderer :
  Analyser.analyze_blood_report
    (analyser (Examples.app_env (Ok Examples.reply_no_brace) (Ok tt)))
    (img_path (Examples.app_env (Ok Examples.reply_no_brace) (Ok tt)))
  = Ok (dumps (error_variant "Could not parse the blood report"
                 Examples.reply_no_brace Examples.clock))
  /\ In (CallGeneratePdf
          (dumps (error_variant "Could not parse the blood report"
                    Examples.reply_no_brace Examples.clock))
          (pdf_path (Examples.app_env (Ok Examples.reply_no_brace) (Ok tt))))
       (fst (process_image
               (Examples.app_env (Ok Examples.reply_no_brace) (Ok tt))
               (Some (Picture [])))).
Proof.
  split; [reflexivity|]. right. left. reflexivity.
Qed.

(** C2, amended.  Once the upload is stored, [process_image] calls
    [generate_pdf] on whatever text [analyze_blood_report] returned, a
    record that holds an [error] field included: the render step follows
    the analysis without a test on the record.  For such a record the
    renderer draws the first lines of the page (the generation time) and
    no section, and writes that document. *)
Theorem render_step_follows_every_analysis (env : Env) (img : upload) :
  makedirs env (temp_dir env) = Ok tt ->
  stored env img ->
  exists json_data,
    Analyser.analyze_blood_report (analyser env) (img_path env) = Ok json_data
    /\ fst (process_image env (Some img))
       = [ CallAnalyze (img_path env);
           CallGeneratePdf json_data (pdf_path env) ]
    /\ forall record,
         holds_error record ->
         json_data = dumps record ->
         PdfGenerator.generate_pdf (renderer env) (PdfGenerator.Text json_data)
           (Some (pdf_path env))
         = (_ <- PdfGenerator.write_document (renderer env) (pdf_path env)
                   (preamble (renderer env)
                    ++ [PdfGenerator.Output (pdf_path env)]) ;;
            Ok (pdf_path env)).
Proof.
  intros Hm Hs.
  destruct (analyze_total (analyser env) (img_path env)) as [json_data Ha].
  exists json_data. split; [exact Ha|].
  split; [exact (process_image_calls _ _ _ Hm Hs Ha)|].
  intros record [(msg & raw & now & ->) | (msg & now & ->)] ->.
  - apply (generate_pdf_no_section _ _ _ _ (loads_error_variant msg raw now));
      [repeat split | apply pdf_path_given].
  - apply (generate_pdf_no_section _ _ _ _
             (loads_exception_record (Exn OtherException msg) now));
      [repeat split | apply pdf_path_given].
Qed.

(** C2, amended, on a reply with no brace. *)
Lemma render_step_follows_every_analysis_witness :
  makedirs (Examples.app_env (Ok Examples.reply_no_brace) (Ok tt))
    (temp_dir (Examples.app_env (Ok Examples.reply_no_brace) (Ok tt))) = Ok tt
  /\ stored (Examples.app_env (Ok Examples.reply_no_brace) (Ok tt)) (Picture [])
  /\ exists json_data,
       fst (process_image
              (Examples.app_env (Ok Examples.reply_no_brace) (Ok tt))
              (Some (Picture [])))
       = [ CallAnalyze
             (img_path (Examples.app_env (Ok Examples.reply_no_brace) (Ok tt)));
           CallGeneratePdf json_data
             (pdf_path (Examples.app_env (Ok Examples.reply_no_brace) (Ok tt))) ].
Proof.
  split; [reflexivity|]. split; [reflexivity|].
  destruct (render_step_follows_every_analysis
              (Examples.app_env (Ok Examples.reply_no_brace) (Ok tt))
              (Picture []) eq_refl eq_refl)
    as (json_data & _ & Hcalls & _).
  exists json_data. exact Hcalls.
Defined.

End AppClaims.

(* ===================================================================== *)
(** * Further properties *)
(* ===================================================================== *)

(** ** Further properties of blood_report_analyser.py *)

Section AnalyserExtras.
Import Analyser.

Lemma brace_slice_self (text sl : string) :
  brace_slice text sl -> brace_slice sl sl.
Proof.
  intros (l & m & r & _ & _ & _ & ->). exists "", m, "". repeat split.
Qed.

(** X1.  What stands in the reply before its first opening brace and
    after its last closing brace plays no part: at the same reading of the
    clock, the function returns for the reply what it returns for the
    slice between those braces alone. *)
Theorem surrounding_text_is_ignored
    (env env' : Env) (path path' text sl : string) :
  model_replies env path text ->
  model_replies env' path' sl ->
  now_isoformat env = now_isoformat env' ->
  brace_slice text sl ->
  analyze_blood_report env path = analyze_blood_report env' path'.
Proof.
  intros H1 H2 Hnow Hsl.
  rewrite (analyze_on_reply _ _ _ H1), (analyze_on_reply _ _ _ H2), Hnow.
  rewrite (normalize_brace_slice _ _ _ Hsl).
  rewrite (normalize_brace_slice _ _ _ (brace_slice_self _ _ Hsl)).
  reflexivity.
Qed.

(** X1 on the hemoglobin reply and its slice. *)
Lemma surrounding_text_is_ignored_witness :
  model_replies (Examples.analyser_env (Ok Examples.reply_hemoglobin))
    "report.jpg" Examples.reply_hemoglobin
  /\ model_replies (Examples.analyser_env (Ok Examples.slice_hemoglobin))
       "report.jpg" Examples.slice_hemoglobin
  /\ brace_slice Examples.reply_hemoglobin Examples.slice_hemoglobin
  /\ analyze_blood_report (Examples.analyser_env (Ok Examples.reply_hemoglobin))
       "report.jpg"
     = analyze_blood_report (Examples.analyser_env (Ok Examples.slice_hemoglobin))
         "report.jpg".
Proof.
  assert (H1 : model_replies (Examples.analyser_env (Ok Examples.reply_hemoglobin))
                 "report.jpg" Examples.reply_hemoglobin)
    by by_running.
  assert (H2 : model_replies (Examples.analyser_env (Ok Examples.slice_hemoglobin))
                 "report.jpg" Examples.slice_hemoglobin)
    by by_running.
  assert (H3 : brace_slice Examples.reply_hemoglobin Examples.slice_hemoglobin)
    by (cut_at_braces "Here it is: " Examples.slice_hemoglobin " Done.").
  split; [exact H1|]. split; [exact H2|]. split; [exact H3|].
  exact (surrounding_text_is_ignored _ _ _ _ _ _ H1 H2 eq_refl H3).
Defined.

(** What the normalizer returns always carries the clock's reading. *)
Lemma normalize_stamped (now text : string) :
  exists record,
    normalize now text = Ok (dumps (JDict record))
    /\ ((dict_get "timestamp" record = Some (JStr now)
         /\ (exists msg, dict_get "error" record = Some (JStr msg))
         /\ exists raw, dict_get "raw_response" record = Some (JStr raw)
                        /\ (String.length raw <= 500)%nat)
        \/ (dict_get "analysis_timestamp" record = Some (JStr now)
            /\ dict_mem "disclaimer" record = true)).
Proof.
  assert (Hraw : forall s, (String.length (slice s 0 500) <= 500)%nat).
  { intro s. pose proof (slice_head_length s 500 ltac:(lia)) as H.
    unfold len in H. lia. }
  assert (Hbad : forall s,
             exists record,
               Ok (dumps (bad_json_record s now)) = Ok (dumps (JDict record))
               /\ ((dict_get "timestamp" record = Some (JStr now)
                    /\ (exists msg, dict_get "error" record = Some (JStr msg))
                    /\ exists raw, dict_get "raw_response" record = Some (JStr raw)
                                   /\ (String.length raw <= 500)%nat)
                   \/ (dict_get "analysis_timestamp" record = Some (JStr now)
                       /\ dict_mem "disclaimer" record = true))).
  { intro s. eexists. split; [reflexivity|]. left.
    split; [reflexivity|]. split; [eexists; reflexivity|].
    eexists. split; [reflexivity | apply Hraw]. }
  unfold normalize.
  destruct ((find text "{" =? -1) || (rfind text "}" + 1 =? 0)) eqn:E.
  - eexists. split; [reflexivity|]. left.
    split; [reflexivity|]. split; [eexists; reflexivity|].
    eexists. split; [reflexivity | apply Hraw].
  - apply orb_false_iff in E as [E _]. apply Z.eqb_neq in E.
    destruct (slice_from_find "{" text (rfind text "}" + 1) E) as [-> | [r ->]].
    + apply (Hbad "").
    + unfold loads.
      destruct (decode (String "{" r)) as [v|] eqn:Hdec.
      * destruct (decode_brace_dict _ _ Hdec) as [d ->].
        cbn [bind setitem contains try_except_class].
        destruct (dict_mem "disclaimer" (dict_set "analysis_timestamp" (JStr now) d))
          eqn:Hm; cbn [bind setitem try_except_class];
          eexists; (split; [reflexivity|]); right.
        -- split; [apply dict_get_set_same | exact Hm].
        -- split.
           ++ rewrite dict_get_set_other by discriminate. apply dict_get_set_same.
           ++ unfold dict_mem. now rewrite dict_get_set_same.
      * apply (Hbad (String "{" r)).
Qed.

(** X2.  Whatever the file system and the model do, the text returned is
    that of a dict stamped with the clock's reading: either under
    [timestamp], beside an [error] message and, when the record has a
    [raw_response], one of at most 500 characters; or under
    [analysis_timestamp], beside a [disclaimer]. *)
Theorem every_record_is_stamped (env : Env) (path : string) :
  exists record,
    analyze_blood_report env path = Ok (dumps (JDict record))
    /\ ((dict_get "timestamp" record = Some (JStr (now_isoformat env))
         /\ (exists msg, dict_get "error" record = Some (JStr msg))
         /\ (forall v, dict_get "raw_response" record = Some v ->
               exists raw, v = JStr raw /\ (String.length raw <= 500)%nat))
        \/ (dict_get "analysis_timestamp" record = Some (JStr (now_isoformat env))
            /\ dict_mem "disclaimer" record = true)).
Proof.
  assert (Hexn : forall e,
             exists record,
               Ok (dumps (exception_record e (now_isoformat env)))
               = Ok (dumps (JDict record))
               /\ ((dict_get "timestamp" record = Some (JStr (now_isoformat env))
                    /\ (exists msg, dict_get "error" record = Some (JStr msg))
                    /\ (forall v, dict_get "raw_response" record = Some v ->
                          exists raw, v = JStr raw
                                      /\ (String.length raw <= 500)%nat))
                   \/ (dict_get "analysis_timestamp" record
                       = Some (JStr (now_isoformat env))
                       /\ dict_mem "disclaimer" record = true))).
  { intro e. eexists. split; [reflexivity|]. left.
    split; [reflexivity|]. split; [eexists; reflexivity|]. intros v [=]. }
  unfold analyze_blood_report.
  destruct (image_format env path) as [parts | e0]; [|apply Hexn].
  cbn [bind]. destruct (first_item parts) as [part | e1]; [|apply Hexn].
  cbn [bind].
  destruct (generate_content env (request_of part)) as [text | e2]; [|apply Hexn].
  cbn [bind].
  destruct (normalize_stamped (now_isoformat env) text)
    as (record & -> & [(Ht & He & raw & Hr & Hlen) | Hs]).
  - exists record. split; [reflexivity|]. left.
    split; [exact Ht|]. split; [exact He|].
    intros v Hv. rewrite Hr in Hv. injection Hv as <-. eauto.
  - exists record. split; [reflexivity|]. now right.
Qed.

Lemma lower_append (s t : string) : lower (s ++ t) = lower s ++ lower t.
Proof. induction s as [|c s IH]; simpl; [reflexivity | now rewrite IH]. Qed.

Lemma path_join_stem (a b : string) : exists stem, App.path_join a b = stem ++ b.
Proof.
  unfold App.path_join. destruct (_ || _).
  - now exists a.
  - exists (a ++ "/"). now rewrite append_assoc.
Qed.

(** X3.  [process_image] stores every upload under a name that ends in
    [.jpg], a file copied as it is included, so the picture it has analysed
    is always sent to the model tagged [image/jpeg]. *)
Theorem stored_upload_is_sent_as_jpeg (env : App.Env) (bytes : list byte) :
  read_bytes (App.analyser env) (img_path env) = Ok bytes ->
  image_format (App.analyser env) (img_path env)
  = Ok [ {| mime_type := "image/jpeg"; data := bytes |} ].
Proof.
  intro Hread. unfold image_format. rewrite Hread. cbn [bind].
  assert (E : endswith (lower (img_path env)) ".jpg" = true).
  { apply endswith_spec. unfold img_path.
    destruct (path_join_stem (temp_dir env)
                ("blood_report_" ++ App.image_stamp env ++ ".jpg")) as [stem ->].
    exists (lower (stem ++ "blood_report_" ++ App.image_stamp env)).
    rewrite <- !append_assoc, lower_append. reflexivity. }
  unfold endswith_any. cbn [existsb]. now rewrite E.
Qed.

(** X3 on the sample surroundings. *)
Lemma stored_upload_is_sent_as_jpeg_witness :
  read_bytes (App.analyser (Examples.app_env (Ok "") (Ok tt)))
    (img_path (Examples.app_env (Ok "") (Ok tt))) = Ok []
  /\ image_format (App.analyser (Examples.app_env (Ok "") (Ok tt)))
       "/tmp/blood_report_analyzer/blood_report_20240501103000.jpg"
     = Ok [ {| mime_type := "image/jpeg"; data := [] |} ].
Proof.
  split; [reflexivity|].
  exact (stored_upload_is_sent_as_jpeg (Examples.app_env (Ok "") (Ok tt)) []
           eq_refl).
Defined.

End AnalyserExtras.

(** ** Further properties of pdf_generator.py *)

Section RendererExtras.
Import PdfGenerator.

Lemma truthy_field_or (d : dict) (k : string) :
  truthy (field_or d k JNull) = filled d k.
Proof. unfold field_or, filled. now destruct (dict_get k d). Qed.

Lemma field_or_present (d : dict) (k : string) (v default : json) :
  dict_get k d = Some v -> field_or d k default = v.
Proof. unfold field_or. now intros ->. Qed.

(** X4.  The patient block of a dict whose name and id are strs when
    they count as true: the heading, then a line for the name when there
    is one, a line for age and gender when either is there (with N/A for
    the one whose key is absent, and any value written as [str] writes
    it), a line for the id when there is one, and a line break.  The
    dict holds no float and stays within the interpreter's limits, so
    that [str] and the truth test are the interpreter's. *)
Theorem patient_block_rows (pd : dict) (name id : string) :
  plain (JDict pd) = true ->
  (filled pd "name" = true -> dict_get "name" pd = Some (JStr name)) ->
  (filled pd "id" = true -> dict_get "id" pd = Some (JStr id)) ->
  add_patient_details (JDict pd)
  = Ok (title_of "Patient Details"
        ++ (if filled pd "name" then label_row "Name:" name else [])
        ++ (if filled pd "age" || filled pd "gender"
            then label_row "Age/Gender:"
                   (to_str (field_or pd "age" (JStr "N/A")) ++ " / "
                    ++ to_str (field_or pd "gender" (JStr "N/A")))
            else [])
        ++ (if filled pd "id" then label_row "Patient ID:" id else [])
        ++ [Ln (Some 4)])%list.
Proof.
  intros _ Hname Hid.
  unfold add_patient_details, chapter_title, draw, get.
  fold (field_or pd "name" JNull) (field_or pd "age" JNull)
       (field_or pd "gender" JNull) (field_or pd "id" JNull)
       (field_or pd "name" (JStr "N/A")) (field_or pd "age" (JStr "N/A"))
       (field_or pd "gender" (JStr "N/A")) (field_or pd "id" (JStr "N/A")).
  cbn [bind]. rewrite !truthy_field_or.
  destruct (filled pd "name") eqn:En;
    [rewrite (field_or_present _ _ _ _ (Hname eq_refl))|];
    (destruct (filled pd "id") eqn:Ei;
     [rewrite (field_or_present _ _ _ _ (Hid eq_refl))|]);
    destruct (filled pd "age"); destruct (filled pd "gender"); reflexivity.
Qed.

(** X4 on a patient with a name, a numeric age, no gender and a null id. *)
Lemma patient_block_rows_witness :
  plain (JDict Examples.patient_asha) = true
  /\ (filled Examples.patient_asha "name" = true ->
   dict_get "name" Examples.patient_asha = Some (JStr "Asha Rao"))
  /\ filled Examples.patient_asha "id"
     = false
  /\ add_patient_details
       (JDict Examples.patient_asha)
     = Ok (title_of "Patient Details"
           ++ label_row "Name:" "Asha Rao"
           ++ label_row "Age/Gender:" "45 / N/A"
           ++ [Ln (Some 4)])%list.
Proof.
  assert (Hplain : plain (JDict Examples.patient_asha) = true)
    by (vm_compute; reflexivity).
  split; [exact Hplain|]. split; [reflexivity|]. split; [reflexivity|].
  exact (patient_block_rows
           Examples.patient_asha
           "Asha Rao" "" Hplain (fun _ => eq_refl)
           (fun H => False_ind _ (Bool.diff_false_true H))).
Defined.

(** X5.  A [patient_details] that is not a dict (a str, a list, null)
    stops both the renderer and the display with the same AttributeError:
    the block is the first thing either of them reads. *)
Theorem patient_details_must_be_a_mapping
    (env : Env) (src : source) (output_path : option string)
    (d : dict) (v : json) :
  decodes_to src (JDict d) ->
  dict_get "patient_details" d = Some v ->
  (forall pd, v <> JDict pd) ->
  generate_pdf env src output_path
  = Raise (Exn AttributeError
             (quoted (type_name v) ++ " object has no attribute 'get'"))
  /\ App.format_json_for_display (JDict d)
     = Raise (Exn AttributeError
                (quoted (type_name v) ++ " object has no attribute 'get'")).
Proof.
  intros Hsrc Hpd Hv.
  assert (Hdata : match src with Text s => loads s | Data x => Ok x end
                  = Ok (JDict d)).
  { destruct src as [s | x]; simpl in Hsrc; [exact Hsrc | now subst x]. }
  unfold generate_pdf. rewrite Hdata. cbn [bind].
  unfold document, App.format_json_for_display, App.when_present, section,
    contains, dict_mem, getitem.
  rewrite Hpd.
  destruct v; try (now elim (Hv d0)); split; reflexivity.
Qed.

(** X5 on a record whose [patient_details] is null. *)
Lemma patient_details_must_be_a_mapping_witness :
  decodes_to (Text (Analyser.requote "{'patient_details': null}"))
    (JDict [("patient_details", JNull)])
  /\ generate_pdf (Examples.renderer_env (Ok tt))
       (Text (Analyser.requote "{'patient_details': null}")) None
     = Raise (Exn AttributeError "'NoneType' object has no attribute 'get'").
Proof.
  split; [reflexivity|].
  refine (proj1 (patient_details_must_be_a_mapping
                   (Examples.renderer_env (Ok tt))
                   (Text (Analyser.requote "{'patient_details': null}")) None
                   [("patient_details", JNull)] JNull eq_refl eq_refl _)).
  intros pd H. discriminate H.
Defined.

Lemma paragraphs_app (a b : list op) :
  paragraphs (a ++ b) = (paragraphs a ++ paragraphs b)%list.
Proof.
  induction a as [|o a IH]; [reflexivity|].
  destruct o; simpl; rewrite IH; reflexivity.
Qed.

(** A loop over [enumerate(items, start)] whose turn writes one numbered
    text: the texts written, in order. *)
Lemma for_each_enumerate {B : Type} (texts : list B -> list string)
    (body : Z * json -> result (list B)) :
  texts [] = [] ->
  (forall a b, texts (a ++ b)%list = (texts a ++ texts b)%list) ->
  (forall idx point,
      exists o, body (idx, point) = Ok o
                /\ texts o = [str_int idx ++ ". " ++ to_str point]) ->
  forall items start,
    exists out,
      for_each (enumerate items start) body = Ok out
      /\ List.length (texts out) = List.length items
      /\ forall k point,
           nth_error items k = Some point ->
           nth_error (texts out) k
           = Some (str_int (start + Z.of_nat k) ++ ". " ++ to_str point).
Proof.
  intros Hnil Happ Hbody.
  induction items as [|x items IH]; intro start.
  - exists []. split; [reflexivity|]. rewrite Hnil. split; [reflexivity|].
    intros [|k] point; discriminate.
  - destruct (Hbody start x) as (o & Ho & Hto).
    destruct (IH (start + 1)) as (out & Hout & Hlen & Hnth).
    exists (o ++ out)%list. cbn [enumerate for_each]. unfold andthen.
    rewrite Ho, Hout. cbn [bind]. split; [reflexivity|].
    rewrite Happ, Hto. cbn [List.app List.length]. split; [now rewrite Hlen|].
    intros [|k] point; cbn [nth_error].
    + intros [= <-]. now rewrite Z.add_0_r.
    + intro H. rewrite (Hnth _ _ H). do 3 f_equal. lia.
Qed.

Lemma numbered_from_one (items : list json) (texts : list string) :
  List.length texts = List.length items ->
  (forall k point,
      nth_error items k = Some point ->
      nth_error texts k = Some (str_int (1 + Z.of_nat k) ++ ". " ++ to_str point)) ->
  numbered_texts items texts.
Proof.
  intros Hlen Hnth. split; [exact Hlen|].
  intros k point H. rewrite (Hnth _ _ H). unfold numbered_item.
  now rewrite Z.add_comm.
Qed.

Lemma chars_length (s : string) : List.length (chars s) = String.length s.
Proof. induction s as [|c s IH]; simpl; [reflexivity | now rewrite IH]. Qed.

(** X6.  The summary and the disclaimer of a list are drawn one paragraph
    an item, in the order of the list, the item at place k (from 0)
    numbered k + 1, and the display lists them the same way, one line an
    item; an item that is not a str is written as [str] writes it (the
    list holds no float and stays within the interpreter's limits, so that
    [str] is the interpreter's).  Given as one str instead of a list,
    either is drawn one paragraph a character. *)
Theorem list_items_are_numbered (items : list json) :
  plain (JList items) = true ->
  (exists ops, add_summary (JList items) = Ok ops
               /\ numbered_texts items (paragraphs ops))
  /\ (exists ops, add_disclaimer (JList items) = Ok ops
                  /\ numbered_texts items (paragraphs ops))
  /\ (exists lines, App.numbered (JList items) = Ok lines
                    /\ numbered_texts items lines)
  /\ (forall s, add_summary (JStr s) = add_summary (JList (chars s))
                /\ add_disclaimer (JStr s) = add_disclaimer (JList (chars s))
                /\ List.length (chars s) = String.length s).
Proof.
  intros _. split; [|split; [|split]].
  - destruct (for_each_enumerate paragraphs
                (fun '(idx, point) =>
                   draw [SetFont "Arial" "" 10;
                         MultiCell 0 6 (str_int idx ++ ". " ++ to_str point)])
                eq_refl paragraphs_app
                (fun idx point => ex_intro _ _ (conj eq_refl eq_refl))
                items 1) as (out & Hout & Hlen & Hnth).
    unfold add_summary, chapter_title, draw, andthen in *. cbn [iterate bind].
    rewrite Hout. cbn [bind]. eexists. split; [reflexivity|].
    rewrite !paragraphs_app. cbn [paragraphs List.app].
    rewrite List.app_nil_r. now apply numbered_from_one.
  - destruct (for_each_enumerate paragraphs
                (fun '(idx, point) =>
                   draw [MultiCell 0 5 (str_int idx ++ ". " ++ to_str point)])
                eq_refl paragraphs_app
                (fun idx point => ex_intro _ _ (conj eq_refl eq_refl))
                items 1) as (out & Hout & Hlen & Hnth).
    unfold add_disclaimer, chapter_title, draw, andthen in *. cbn [iterate bind].
    rewrite Hout. cbn [bind]. eexists. split; [reflexivity|].
    rewrite !paragraphs_app. cbn [paragraphs List.app].
    rewrite List.app_nil_r. now apply numbered_from_one.
  - destruct (for_each_enumerate (fun lines : list string => lines)
                (fun '(i, point) =>
                   App.append [str_int i ++ ". " ++ to_str point])
                eq_refl (fun a b => eq_refl)
                (fun idx point => ex_intro _ _ (conj eq_refl eq_refl))
                items 1) as (out & Hout & Hlen & Hnth).
    exists out. unfold App.numbered. cbn [iterate bind].
    split; [exact Hout | now apply numbered_from_one].
  - intro s. split; [reflexivity|]. split; [reflexivity | apply chars_length].
Qed.

(** X6 on a list of a str and an int: the second line of the display. *)
Lemma list_items_are_numbered_witness :
  plain (JList [JStr "Hemoglobin is low"; JInt 7]) = true
  /\ exists lines,
       App.numbered (JList [JStr "Hemoglobin is low"; JInt 7]) = Ok lines
       /\ nth_error lines 1 = Some "2. 7".
Proof.
  assert (Hplain : plain (JList [JStr "Hemoglobin is low"; JInt 7]) = true)
    by (vm_compute; reflexivity).
  split; [exact Hplain|].
  destruct (list_items_are_numbered _ Hplain)
    as (_ & _ & (lines & Hlines & Hnum) & _).
  exists lines. split; [exact Hlines|].
  exact (proj2 Hnum 1%nat (JInt 7) eq_refl).
Defined.

(** X7.  The first cell of a row holds the parameter name when it has at
    most 30 characters, and otherwise its first 30 characters followed by
    three dots: never more than 33 characters. *)
Theorem long_names_are_cut (q : dict) (name : string) (row : list op) :
  dict_get "parameter" q = Some (JStr name) ->
  parameter_row (JDict q) = Ok row ->
  exists shown rest,
    row = Cell 60 7 shown 1 0 "" 0 :: rest
    /\ (String.length shown <= 33)%nat
    /\ ((String.length name <= 30)%nat -> shown = name)
    /\ ((30 < String.length name)%nat ->
        shown = take 30 name ++ "..." /\ String.length shown = 33%nat).
Proof.
  intros Hn Hrow. unfold parameter_row, getitem in Hrow. rewrite Hn in Hrow.
  cbn [bind length] in Hrow.
  apply andthen_ok_inv in Hrow as (first & rest & Hfirst & _ & ->).
  destruct (30 <? len name) eqn:E.
  - apply Z.ltb_lt in E. unfold len in E.
    cbn [truncated bind cell_of text_arg draw] in Hfirst.
    rewrite slice_head in Hfirst by lia. injection Hfirst as <-.
    change (Z.to_nat 30) with 30%nat.
    exists (take 30 name ++ "..."), rest. split; [reflexivity|].
    rewrite length_append, take_length. cbn [String.length].
    repeat split; lia.
  - apply Z.ltb_ge in E. unfold len in E.
    cbn [bind cell_of text_arg draw] in Hfirst. injection Hfirst as <-.
    exists name, rest. split; [reflexivity|]. repeat split; lia.
Qed.

(** X7 on a name of 36 characters. *)
Lemma long_names_are_cut_witness :
  dict_get "parameter"
    Examples.entry_long_name
  = Some (JStr "Mean Corpuscular Hemoglobin Concentr")
  /\ exists shown rest,
       parameter_row
         (JDict Examples.entry_long_name)
       = Ok (Cell 60 7 shown 1 0 "" 0 :: rest)
       /\ (String.length shown <= 33)%nat.
Proof.
  split; [reflexivity|].
  destruct (long_names_are_cut
              Examples.entry_long_name
              "Mean Corpuscular Hemoglobin Concentr" _ eq_refl eq_refl)
    as (shown & rest & Hrow & Hlen & _).
  exists shown, rest. split; [|exact Hlen].
  rewrite <- Hrow. reflexivity.
Defined.

(** X8.  When [generate_pdf] returns, the path it returns is the one the
    document was written to, the last call on the document being its
    output to that path: the path asked for when one was given and is not
    empty, and otherwise a name made of the clock's reading, in the
    current directory. *)
Theorem generate_pdf_returns_the_path_written
    (env : Env) (src : source) (output_path : option string) (path : string) :
  generate_pdf env src output_path = Ok path ->
  (exists data ops,
      decodes_to src data
      /\ document env data = Ok ops
      /\ write_document env path (ops ++ [Output path]) = Ok tt)
  /\ (forall asked, output_path = Some asked -> asked <> "" -> path = asked)
  /\ (output_path = None \/ output_path = Some "" ->
      path = "blood_report_analysis_" ++ file_stamp env ++ ".pdf").
Proof.
  unfold generate_pdf. intro H.
  destruct (match src with Text s => loads s | Data v => Ok v end)
    as [data|] eqn:Hdata; [|discriminate].
  assert (Hsrc : decodes_to src data).
  { destruct src; simpl; [exact Hdata | now injection Hdata]. }
  cbn [bind] in H.
  destruct (document env data) as [ops|] eqn:Hdoc; [|discriminate].
  cbn [bind] in H.
  destruct (given output_path) as [p|] eqn:Hgiven.
  - destruct (write_document env p _) as [[]|] eqn:Hw; [|discriminate].
    injection H as <-.
    split; [exists data, ops; auto|]. split.
    + intros asked -> Hne. unfold given in Hgiven.
      destruct (String.eqb asked ""); [discriminate | now injection Hgiven].
    + intros [-> | ->]; discriminate.
  - destruct (write_document env _ _) as [[]|] eqn:Hw; [|discriminate].
    injection H as <-.
    split; [exists data, ops; auto|]. split; [|reflexivity].
    intros asked -> Hne. unfold given in Hgiven.
    apply String.eqb_neq in Hne. rewrite Hne in Hgiven. discriminate.
Qed.

(** X8 on a record with no section and an empty path. *)
Lemma generate_pdf_returns_the_path_written_witness :
  generate_pdf (Examples.renderer_env (Ok tt)) (Data (JDict [])) (Some "")
  = Ok "blood_report_analysis_20240501_103000.pdf"
  /\ "blood_report_analysis_20240501_103000.pdf"
     = "blood_report_analysis_"
       ++ file_stamp (Examples.renderer_env (Ok tt)) ++ ".pdf".
Proof.
  split; [reflexivity|].
  exact (proj2 (proj2 (generate_pdf_returns_the_path_written
                         (Examples.renderer_env (Ok tt)) (Data (JDict []))
                         (Some "") _ eq_refl))
           (or_intror eq_refl)).
Defined.

(** X24.  The test date in the document and in the display.  The
    document draws the line only for a date that counts as true, and then
    needs a str: an empty str, null or 0 draws nothing, not even the line
    break, and a number that is not 0 stops the renderer.  The display
    prints its label for every value, an empty one included.  The date
    holds no float and stays within the interpreter's limits, so that the
    truth test and [str] are the interpreter's. *)
Theorem test_date_line (env : Env) (v : json) :
  plain v = true ->
  (truthy v = false ->
   add_test_date v = Ok []
   /\ document env (JDict [("test_date", v)]) = Ok (preamble env))
  /\ (forall s, v = JStr s -> s <> "" ->
        add_test_date v = Ok (label_row "Test Date:" s ++ [Ln (Some 4)])%list)
  /\ (truthy v = true -> (forall s, v <> JStr s) ->
        exists e, add_test_date v = Raise e
                  /\ document env (JDict [("test_date", v)]) = Raise e)
  /\ App.format_json_for_display (JDict [("test_date", v)])
     = Ok ("**Test Date:** " ++ to_str v ++ String (chr 10) "").
Proof.
  intros _. split; [|split; [|split]].
  - intro Hv. unfold document, section, add_test_date.
    cbn [contains dict_mem dict_get String.eqb Ascii.eqb Bool.eqb getitem bind].
    rewrite Hv. split; reflexivity.
  - intros s -> Hs. unfold add_test_date. cbn [truthy].
    apply String.eqb_neq in Hs. rewrite Hs. reflexivity.
  - intros Hv Hs. unfold document, section, add_test_date.
    cbn [contains dict_mem dict_get String.eqb Ascii.eqb Bool.eqb getitem bind].
    rewrite Hv.
    destruct v; try (now elim (Hs s)); eexists; split; reflexivity.
  - unfold App.format_json_for_display, App.when_present, App.append.
    cbn [contains dict_mem dict_get String.eqb Ascii.eqb Bool.eqb getitem bind
         andthen List.app join].
    now rewrite append_assoc.
Qed.

(** X24 on a null date and on a date given as a number. *)
Lemma test_date_line_witness :
  plain JNull = true
  /\ plain (JInt 20240430) = true
  /\ truthy JNull = false
  /\ document (Examples.renderer_env (Ok tt)) (JDict [("test_date", JNull)])
     = Ok (preamble (Examples.renderer_env (Ok tt)))
  /\ App.format_json_for_display (JDict [("test_date", JNull)])
     = Ok ("**Test Date:** None" ++ String (chr 10) "")
  /\ truthy (JInt 20240430) = true
  /\ exists e, document (Examples.renderer_env (Ok tt))
                 (JDict [("test_date", JInt 20240430)]) = Raise e.
Proof.
  assert (Hnull : plain JNull = true) by reflexivity.
  assert (Hint : plain (JInt 20240430) = true) by (vm_compute; reflexivity).
  split; [exact Hnull|]. split; [exact Hint|].
  split; [reflexivity|].
  split; [exact (proj2 (proj1 (test_date_line (Examples.renderer_env (Ok tt))
                                 JNull Hnull) eq_refl))|].
  split; [reflexivity|]. split; [reflexivity|].
  destruct (proj1 (proj2 (proj2 (test_date_line (Examples.renderer_env (Ok tt))
                                   (JInt 20240430) Hint)))
              eq_refl ltac:(discriminate)) as (e & _ & H).
  exists e. exact H.
Defined.

End RendererExtras.

(** *** Colours *)

Section ColourFacts.
Import PdfGenerator.

Lemma colour_after_app (c : colour) (a b : list op) :
  colour_after c (a ++ b) = colour_after (colour_after c a) b.
Proof.
  revert c; induction a as [|o a IH]; intro c; [reflexivity|].
  destruct o; simpl; apply IH.
Qed.

Lemma inked_app (c : colour) (a b : list op) :
  inked c (a ++ b) = (inked c a ++ inked (colour_after c a) b)%list.
Proof.
  revert c; induction a as [|o a IH]; intro c; [reflexivity|].
  destruct o; simpl; rewrite IH; reflexivity.
Qed.

Lemma tidy_app (a b : list op) : tidy a -> tidy b -> tidy (a ++ b).
Proof.
  intros [Ha1 Ha2] [Hb1 Hb2]. split.
  - now rewrite colour_after_app, Ha1.
  - rewrite inked_app, Ha1. now apply Forall_app.
Qed.

(** Calls that do not touch the text colour draw in the colour in force. *)
Lemma no_colour_set (c : colour) (ops : list op) :
  forallb sets_no_colour ops = true ->
  colour_after c ops = c /\ Forall (fun tc => snd tc = c) (inked c ops).
Proof.
  induction ops as [|o ops IH]; [now split|].
  cbn [forallb]. intro H. apply andb_true_iff in H as [Ho Hops].
  destruct (IH Hops) as [IH1 IH2].
  destruct o; try discriminate; simpl; split; auto.
Qed.

Lemma no_colour_tidy (ops : list op) :
  forallb sets_no_colour ops = true -> tidy ops.
Proof.
  intro H. destruct (no_colour_set black ops H) as [H1 H2].
  split; [exact H1|].
  eapply Forall_impl; [|exact H2]. intros tc Htc. now left.
Qed.

Lemma andthen_tidy (a b : drawing) (l : list op) :
  andthen a b = Ok l ->
  (forall x, a = Ok x -> tidy x) -> (forall y, b = Ok y -> tidy y) -> tidy l.
Proof.
  intros H Ha Hb. apply andthen_ok_inv in H as (x & y & Hx & Hy & ->).
  apply tidy_app; auto.
Qed.

Lemma for_each_all {A B : Type} (P : list B -> Prop)
    (items : list A) (body : A -> result (list B)) (out : list B) :
  P [] -> (forall x y, P x -> P y -> P (x ++ y)%list) ->
  (forall x o, body x = Ok o -> P o) ->
  for_each items body = Ok out -> P out.
Proof.
  intros Hnil Happ Hbody. revert out.
  induction items as [|x items IH]; intro out; cbn [for_each].
  - now intros [= <-].
  - intro H. apply andthen_ok_inv in H as (o & rest & Ho & Hrest & ->).
    apply Happ; eauto.
Qed.

Lemma forallb_sets_no_colour_app (a b : list op) :
  forallb sets_no_colour a = true -> forallb sets_no_colour b = true ->
  forallb sets_no_colour (a ++ b) = true.
Proof. intros Ha Hb. rewrite forallb_app. now rewrite Ha, Hb. Qed.

(** Settles what a step draws when the step is a few tests on values. *)
Ltac by_cases_on_values :=
  unfold cell_of, draw, andthen; cbn [bind];
  repeat (match goal with
          | |- context [dict_get ?k ?d] => destruct (dict_get k d)
          | |- context [truthy ?v] => destruct (truthy v)
          | |- context [text_arg ?v] => destruct (text_arg v)
          end; cbn [bind]);
  try discriminate; intros [= <-]; reflexivity.

Lemma patient_details_no_colour (v : json) (ops : list op) :
  add_patient_details v = Ok ops -> forallb sets_no_colour ops = true.
Proof.
  unfold add_patient_details. intro H.
  apply andthen_ok_inv in H as (o0 & r0 & H0 & H & ->).
  apply andthen_ok_inv in H as (o1 & r1 & H1 & H & ->).
  apply andthen_ok_inv in H as (o2 & r2 & H2 & H & ->).
  apply andthen_ok_inv in H as (o3 & r3 & H3 & H4 & ->).
  repeat apply forallb_sets_no_colour_app.
  - revert H0. intros [= <-]. reflexivity.
  - revert H1. unfold get. destruct v; try discriminate. by_cases_on_values.
  - revert H2. unfold get. destruct v; try discriminate. by_cases_on_values.
  - revert H3. unfold get. destruct v; try discriminate. by_cases_on_values.
  - revert H4. intros [= <-]. reflexivity.
Qed.

Lemma test_date_no_colour (v : json) (ops : list op) :
  add_test_date v = Ok ops -> forallb sets_no_colour ops = true.
Proof. unfold add_test_date. by_cases_on_values. Qed.

Lemma status_cell_tidy (status : string) : tidy (status_cell status).
Proof.
  unfold status_cell, tidy. destruct (String.eqb status "abnormal"); simpl.
  - split; [reflexivity|]. constructor; [|constructor].
    right. left. now split.
  - split; [reflexivity|]. constructor; [|constructor].
    right. right. left. now split.
Qed.

Lemma cell_of_no_colour (w h : Z) (v : json) (border ln : Z) (align : string)
    (ops : list op) :
  cell_of w h v border ln align = Ok ops -> forallb sets_no_colour ops = true.
Proof. by_cases_on_values. Qed.

Lemma parameter_row_tidy (param : json) (ops : list op) :
  parameter_row param = Ok ops -> tidy ops.
Proof.
  unfold parameter_row. intro H.
  apply andthen_ok_inv in H as (o0 & r0 & H0 & H & ->).
  apply andthen_ok_inv in H as (o1 & r1 & H1 & H & ->).
  apply andthen_ok_inv in H as (o2 & r2 & H2 & H3 & ->).
  repeat apply tidy_app.
  - apply no_colour_tidy.
    destruct (getitem param "parameter") as [name|]; [|discriminate].
    cbn [bind] in H0. destruct (length name) as [n|]; [|discriminate].
    cbn [bind] in H0. destruct (30 <? n).
    + destruct (truncated name) as [short|]; [|discriminate].
      exact (cell_of_no_colour _ _ _ _ _ _ _ H0).
    + exact (cell_of_no_colour _ _ _ _ _ _ _ H0).
  - apply no_colour_tidy.
    destruct (get param "value" (JStr "N/A")) as [x|]; [|discriminate].
    exact (cell_of_no_colour _ _ _ _ _ _ _ H1).
  - apply no_colour_tidy.
    destruct (get param "reference_range" (JStr "N/A")) as [x|]; [|discriminate].
    exact (cell_of_no_colour _ _ _ _ _ _ _ H2).
  - destruct (get param "status" (JStr "")) as [st|]; [|discriminate].
    cbn [bind] in H3. destruct (lower_method st) as [status|]; [|discriminate].
    injection H3 as <-. apply status_cell_tidy.
Qed.

Lemma blood_parameters_tidy (v : json) (ops : list op) :
  add_blood_parameters v = Ok ops -> tidy ops.
Proof.
  unfold add_blood_parameters. intro H.
  apply andthen_ok_inv in H as (o0 & r0 & H0 & H & ->).
  apply andthen_ok_inv in H as (o1 & r1 & H1 & H & ->).
  apply andthen_ok_inv in H as (o2 & r2 & H2 & H3 & ->).
  repeat apply tidy_app.
  - injection H0 as <-. now apply no_colour_tidy.
  - injection H1 as <-. now apply no_colour_tidy.
  - destruct (iterate v) as [params|]; [|discriminate]. cbn [bind] in H2.
    revert H2. apply (for_each_all tidy).
    + now apply no_colour_tidy.
    + apply tidy_app.
    + apply parameter_row_tidy.
  - injection H3 as <-. now apply no_colour_tidy.
Qed.

Lemma numbered_loop_no_colour (points : list (Z * json))
    (body : Z * json -> drawing) (out : list op) :
  (forall x o, body x = Ok o -> forallb sets_no_colour o = true) ->
  for_each points body = Ok out -> forallb sets_no_colour out = true.
Proof.
  intro Hbody. apply (for_each_all (fun o => forallb sets_no_colour o = true)).
  - reflexivity.
  - apply forallb_sets_no_colour_app.
  - exact Hbody.
Qed.

Lemma summary_tidy (v : json) (ops : list op) :
  add_summary v = Ok ops -> tidy ops.
Proof.
  unfold add_summary. intro H.
  apply andthen_ok_inv in H as (o0 & r0 & H0 & H & ->).
  apply andthen_ok_inv in H as (o1 & r1 & H1 & H2 & ->).
  repeat apply tidy_app.
  - injection H0 as <-. now apply no_colour_tidy.
  - destruct (iterate v) as [points|]; [|discriminate]. cbn [bind] in H1.
    apply no_colour_tidy. revert H1. apply numbered_loop_no_colour.
    intros [idx point] o [= <-]. reflexivity.
  - injection H2 as <-. now apply no_colour_tidy.
Qed.

Lemma disclaimer_tidy (v : json) (ops : list op) :
  add_disclaimer v = Ok ops -> tidy ops.
Proof.
  unfold add_disclaimer. intro H.
  apply andthen_ok_inv in H as (o0 & r0 & H0 & H & ->).
  apply andthen_ok_inv in H as (o1 & r1 & H1 & H & ->).
  apply andthen_ok_inv in H as (o2 & r2 & H2 & H3 & ->).
  injection H0 as <-. injection H1 as <-. injection H3 as <-.
  destruct (iterate v) as [points|]; [|discriminate]. cbn [bind] in H2.
  assert (Hloop : forallb sets_no_colour o2 = true).
  { revert H2. apply numbered_loop_no_colour.
    intros [idx point] o [= <-]. reflexivity. }
  destruct (no_colour_set gray o2 Hloop) as [Hc Hi].
  split.
  - cbn [chapter_title draw List.app colour_after].
    now rewrite colour_after_app.
  - cbn [chapter_title draw List.app inked colour_after].
    constructor; [now left|].
    rewrite inked_app. apply Forall_app. split.
    + eapply Forall_impl; [|exact Hi]. intros tc Htc. now do 3 right.
    + fold gray. rewrite Hc. constructor.
Qed.

Lemma section_tidy (data : json) (key : string) (method : json -> drawing)
    (ops : list op) :
  (forall v o, method v = Ok o -> tidy o) ->
  section data key method = Ok ops -> tidy ops.
Proof.
  intros Hm. unfold section.
  destruct (contains key data) as [[]|]; cbn [bind]; try discriminate.
  - destruct (getitem data key) as [v|]; [|discriminate]. apply Hm.
  - intros [= <-]. now apply no_colour_tidy.
Qed.

End ColourFacts.

Section ColourExtras.
Import PdfGenerator.

(** X9.  In the calls [generate_pdf] makes for a record, whatever the
    record, the word ABNORMAL of a status cell is the only text drawn in
    red and the word NORMAL of a status cell the only text drawn in green;
    every text is drawn in black, in one of those two colours or in the gray
    of the disclaimer, and the colour in force at the end is black again. *)
Theorem colours_are_kept_to_their_texts
    (env : Env) (data : json) (ops : list op) :
  document env data = Ok ops ->
  colour_after black ops = black
  /\ Forall colour_allowed (inked black ops).
Proof.
  unfold document. intro H.
  apply andthen_ok_inv in H as (o0 & r0 & H0 & H & ->).
  apply andthen_ok_inv in H as (o1 & r1 & H1 & H & ->).
  apply andthen_ok_inv in H as (o2 & r2 & H2 & H & ->).
  apply andthen_ok_inv in H as (o3 & r3 & H3 & H & ->).
  apply andthen_ok_inv in H as (o4 & r4 & H4 & H5 & ->).
  change (tidy (o0 ++ o1 ++ o2 ++ o3 ++ o4 ++ r4)).
  repeat apply tidy_app.
  - injection H0 as <-. now apply no_colour_tidy.
  - revert H1. apply section_tidy.
    intros v o Hv. apply no_colour_tidy.
    exact (patient_details_no_colour _ _ Hv).
  - revert H2. apply section_tidy.
    intros v o Hv. apply no_colour_tidy. exact (test_date_no_colour _ _ Hv).
  - revert H3. apply section_tidy. exact blood_parameters_tidy.
  - revert H4. apply section_tidy. exact summary_tidy.
  - revert H5. apply section_tidy. exact disclaimer_tidy.
Qed.

(** X9 on the record of the table example. *)
Lemma colours_are_kept_to_their_texts_witness :
  exists ops,
    document (Examples.renderer_env (Ok tt)) (JDict Examples.record_table)
    = Ok ops
    /\ colour_after black ops = black
    /\ In ("ABNORMAL", red) (inked black ops)
    /\ Forall colour_allowed (inked black ops).
Proof.
  eexists. split; [reflexivity|].
  split; [|split].
  - exact (proj1 (colours_are_kept_to_their_texts
                    (Examples.renderer_env (Ok tt))
                    (JDict Examples.record_table) _ eq_refl)).
  - simpl. tauto.
  - exact (proj2 (colours_are_kept_to_their_texts
                    (Examples.renderer_env (Ok tt))
                    (JDict Examples.record_table) _ eq_refl)).
Defined.

End ColourExtras.

(** ** Further properties of app.py *)

Section DisplayFacts.
Import App.

Lemma andthen_ok {A} (a b : result (list A)) (x y : list A) :
  a = Ok x -> b = Ok y -> andthen a b = Ok (x ++ y)%list.
Proof. now intros -> ->. Qed.

(** A loop whose every turn goes through goes through. *)
Lemma for_each_ok {A B} (items : list A) (body : A -> result (list B)) :
  (forall x, exists o, body x = Ok o) ->
  exists out, for_each items body = Ok out.
Proof.
  intro Hbody. induction items as [|x items [out IH]]; [now exists []|].
  destruct (Hbody x) as [o Ho]. exists (o ++ out)%list.
  cbn [for_each]. now apply andthen_ok.
Qed.

(** A loop goes through when another one over the same items did, if
    every turn of the first that goes through lets the turn of the second
    go through. *)
Lemma for_each_transfer {A B C} (items : list A)
    (body : A -> result (list B)) (body' : A -> result (list C))
    (out : list B) :
  (forall x o, body x = Ok o -> exists o', body' x = Ok o') ->
  for_each items body = Ok out ->
  exists out', for_each items body' = Ok out'.
Proof.
  intro Hbody. revert out.
  induction items as [|x items IH]; intro out; [now exists []|].
  cbn [for_each]. intro H.
  apply andthen_ok_inv in H as (o & rest & Ho & Hrest & _).
  destruct (Hbody _ _ Ho) as [o' Ho']. destruct (IH _ Hrest) as [out' Hout'].
  exists (o' ++ out')%list. now apply andthen_ok.
Qed.

Lemma detail_line_dict (d : dict) (key label : string) :
  exists l, detail_line (JDict d) key label = Ok l.
Proof.
  unfold detail_line, get, getitem, append.
  destruct (dict_get key d) as [v|]; cbn [bind].
  - destruct (truthy v); eauto.
  - cbn [truthy]. eauto.
Qed.

Lemma patient_details_is_dict (v : json) (ops : list PdfGenerator.op) :
  PdfGenerator.add_patient_details v = Ok ops -> exists d, v = JDict d.
Proof. destruct v; try discriminate; eauto. Qed.

Lemma parameter_line_follows_row (param : json) (row : list PdfGenerator.op) :
  PdfGenerator.parameter_row param = Ok row ->
  exists l, parameter_line param = Ok l.
Proof.
  unfold PdfGenerator.parameter_row. intro H.
  apply andthen_ok_inv in H as (o0 & r0 & H0 & H & _).
  apply andthen_ok_inv in H as (o1 & r1 & _ & H & _).
  apply andthen_ok_inv in H as (o2 & r2 & _ & H3 & _).
  unfold parameter_line.
  destruct (get param "status" (JStr "")) as [st|]; [|discriminate].
  cbn [bind] in *.
  destruct (lower_method st) as [status|]; [|discriminate].
  cbn [bind].
  destruct (getitem param "parameter") as [name|] eqn:Hn; [|discriminate].
  cbn [bind].
  destruct param; try discriminate. cbn [get bind append]. eauto.
Qed.

Lemma numbered_follows_iterate (v : json) (points : list json) :
  iterate v = Ok points -> exists l, numbered v = Ok l.
Proof.
  intro H. unfold numbered. rewrite H. cbn [bind].
  apply for_each_ok. intros [i point]. eexists. reflexivity.
Qed.

Lemma summary_iterates (v : json) (ops : list PdfGenerator.op) :
  PdfGenerator.add_summary v = Ok ops -> exists points, iterate v = Ok points.
Proof.
  unfold PdfGenerator.add_summary. intro H.
  apply andthen_ok_inv in H as (o0 & r0 & _ & H & _).
  apply andthen_ok_inv in H as (o1 & r1 & H & _ & _).
  destruct (iterate v); [eauto | discriminate].
Qed.

Lemma disclaimer_iterates (v : json) (ops : list PdfGenerator.op) :
  PdfGenerator.add_disclaimer v = Ok ops -> exists points, iterate v = Ok points.
Proof.
  unfold PdfGenerator.add_disclaimer. intro H.
  apply andthen_ok_inv in H as (o0 & r0 & _ & H & _).
  apply andthen_ok_inv in H as (o1 & r1 & _ & H & _).
  apply andthen_ok_inv in H as (o2 & r2 & H & _ & _).
  destruct (iterate v); [eauto | discriminate].
Qed.

(** A part of the display goes through when the section of the document
    for the same key did, if the body goes through on the value the
    section drew. *)
Lemma when_present_follows_section
    (data : json) (key : string) (method : json -> PdfGenerator.drawing)
    (body : lines) (ops : list PdfGenerator.op) :
  PdfGenerator.section data key method = Ok ops ->
  (forall v o, getitem data key = Ok v -> method v = Ok o ->
               exists l, body = Ok l) ->
  exists l, when_present data key body = Ok l.
Proof.
  unfold PdfGenerator.section, when_present. intros H Hbody.
  destruct (contains key data) as [[]|]; cbn [bind] in *; try discriminate.
  - destruct (getitem data key) as [v|]; [|discriminate]. cbn [bind] in H.
    eapply Hbody; [reflexivity | exact H].
  - unfold append. eauto.
Qed.

(** Where the renderer draws a record to the end, the display formats
    it. *)
Lemma display_follows_document
    (env : PdfGenerator.Env) (data : json) (ops : list PdfGenerator.op) :
  PdfGenerator.document env data = Ok ops ->
  exists text, format_json_for_display data = Ok text.
Proof.
  unfold PdfGenerator.document. intro H.
  apply andthen_ok_inv in H as (o0 & r0 & _ & H & _).
  apply andthen_ok_inv in H as (o1 & r1 & H1 & H & _).
  apply andthen_ok_inv in H as (o2 & r2 & H2 & H & _).
  apply andthen_ok_inv in H as (o3 & r3 & H3 & H & _).
  apply andthen_ok_inv in H as (o4 & r4 & H4 & H5 & _).
  unfold format_json_for_display.
  destruct (when_present_follows_section _ _ _
              (append ["## Patient Details"] >>
               (pd <- getitem data "patient_details" ;;
                detail_line pd "name" "**Name:** " >>
                detail_line pd "age" "**Age:** " >>
                detail_line pd "gender" "**Gender:** " >>
                detail_line pd "id" "**ID:** ") >>
               append [""]) _ H1) as [l1 E1].
  { intros v o Hv Hm. destruct (patient_details_is_dict _ _ Hm) as [d ->].
    rewrite Hv. cbn [bind].
    destruct (detail_line_dict d "name" "**Name:** ") as [a Ea].
    destruct (detail_line_dict d "age" "**Age:** ") as [b Eb].
    destruct (detail_line_dict d "gender" "**Gender:** ") as [c Ec].
    destruct (detail_line_dict d "id" "**ID:** ") as [e Ee].
    rewrite Ea, Eb, Ec, Ee. unfold append. eexists. reflexivity. }
  destruct (when_present_follows_section _ _ _
              (v <- getitem data "test_date" ;;
               append ["**Test Date:** " ++ to_str v; ""]) _ H2) as [l2 E2].
  { intros v o Hv _. rewrite Hv. unfold append. eexists. reflexivity. }
  destruct (when_present_follows_section _ _ _
              (append ["## Blood Parameters"] >>
               (ps <- getitem data "blood_parameters" ;;
                params <- iterate ps ;;
                for_each params parameter_line) >>
               append [""]) _ H3) as [l3 E3].
  { intros v o Hv Hm. rewrite Hv. cbn [bind].
    unfold PdfGenerator.add_blood_parameters in Hm.
    apply andthen_ok_inv in Hm as (x0 & y0 & _ & Hm & _).
    apply andthen_ok_inv in Hm as (x1 & y1 & _ & Hm & _).
    apply andthen_ok_inv in Hm as (x2 & y2 & Hm & _ & _).
    destruct (iterate v) as [params|]; [|discriminate]. cbn [bind] in *.
    destruct (for_each_transfer _ _ parameter_line _
                parameter_line_follows_row Hm) as [out Hout].
    rewrite Hout. unfold append. eexists. reflexivity. }
  destruct (when_present_follows_section _ _ _
              (append ["## Summary"] >>
               (s <- getitem data "summary" ;; numbered s) >>
               append [""]) _ H4) as [l4 E4].
  { intros v o Hv Hm. rewrite Hv. cbn [bind].
    destruct (summary_iterates _ _ Hm) as [points Hp].
    destruct (numbered_follows_iterate _ _ Hp) as [l Hl].
    rewrite Hl. unfold append. eexists. reflexivity. }
  destruct (when_present_follows_section _ _ _
              (append ["## Disclaimer"] >>
               (d <- getitem data "disclaimer" ;; numbered d)) _ H5) as [l5 E5].
  { intros v o Hv Hm. rewrite Hv. cbn [bind].
    destruct (disclaimer_iterates _ _ Hm) as [points Hp].
    destruct (numbered_follows_iterate _ _ Hp) as [l Hl].
    rewrite Hl. unfold append. eexists. reflexivity. }
  rewrite E1, E2, E3, E4, E5. eexists. reflexivity.
Qed.

(** The same, from the call of [generate_pdf] on a text. *)
Lemma display_follows_generate_pdf
    (env : PdfGenerator.Env) (json_data : string)
    (output_path : option string) (path : string) :
  PdfGenerator.generate_pdf env (PdfGenerator.Text json_data) output_path
  = Ok path ->
  exists data text,
    loads json_data = Ok data
    /\ format_json_for_display data = Ok text.
Proof.
  unfold PdfGenerator.generate_pdf. intro H.
  destruct (loads json_data) as [data|]; [|discriminate]. cbn [bind] in H.
  destruct (PdfGenerator.document env data) as [ops|] eqn:Hdoc; [|discriminate].
  destruct (display_follows_document _ _ _ Hdoc) as [text Htext].
  eauto.
Qed.

End DisplayFacts.

Section AppExtras.
Import App.

(** X10.  What [process_image] does with an upload, case by case.  A
    failure to create the directory is the one exception that leaves the
    function.  A failure to store the upload gives a text that starts with
    Error, and neither module is called.  Otherwise the analyser is called,
    it returns a text, and the renderer is called on that text: when the
    renderer raises, the outputs are the Error text alone, the record
    withheld; when it returns, they are the display of the decoded record,
    the text of the record and the path of the document. *)
Theorem process_image_outcomes (env : Env) (img : upload) :
  match makedirs env (temp_dir env) with
  | Raise e => process_image env (Some img) = ([], Raise e)
  | Ok _ =>
      match store env img with
      | Raise e =>
          process_image env (Some img)
          = ([], Ok ("Error: " ++ exn_str e, None, None))
      | Ok _ =>
          exists json_data,
            Analyser.analyze_blood_report (analyser env) (img_path env)
            = Ok json_data
            /\ fst (process_image env (Some img))
               = [ CallAnalyze (img_path env);
                   CallGeneratePdf json_data (pdf_path env) ]
            /\ match PdfGenerator.generate_pdf (renderer env)
                       (PdfGenerator.Text json_data) (Some (pdf_path env)) with
               | Raise e =>
                   snd (process_image env (Some img))
                   = Ok ("Error: " ++ exn_str e, None, None)
               | Ok _ =>
                   exists data text,
                     loads json_data = Ok data
                     /\ format_json_for_display data = Ok text
                     /\ snd (process_image env (Some img))
                        = Ok (text, Some json_data, Some (pdf_path env))
               end
      end
  end.
Proof.
  unfold process_image, store.
  fold (temp_dir env). fold (img_path env). fold (pdf_path env).
  destruct (makedirs env (temp_dir env)) as [[]|e]; [|reflexivity].
  cbn [pure tbind].
  destruct (match img with
            | FilePath p => copy env p (img_path env)
            | Picture px => save env px (img_path env)
            end) as [[]|e]; [|reflexivity].
  destruct (analyze_total (analyser env) (img_path env)) as [json_data Ha].
  exists json_data. split; [exact Ha|]. rewrite Ha.
  cbn [pure invoke tbind ttry fst snd].
  destruct (PdfGenerator.generate_pdf _ _ _) as [path|e] eqn:Hpdf.
  - destruct (display_follows_generate_pdf _ _ _ _ Hpdf)
      as (data & text & Hl & Hf).
    rewrite Hl. cbn [bind]. rewrite Hf. cbn [try_except tbind ttry fst snd].
    split; [reflexivity|]. exists data, text. auto.
  - cbn [tbind ttry fst snd]. split; reflexivity.
Qed.

(** X11.  Where [generate_pdf] returns for a text, [json.loads] and
    [format_json_for_display] go through on it as well: the handler that
    falls back on the raw text in [process_image] is never taken, since
    it stands after the call of [generate_pdf]. *)
Theorem display_never_falls_back
    (env : PdfGenerator.Env) (json_data : string)
    (output_path : option string) (path : string) :
  PdfGenerator.generate_pdf env (PdfGenerator.Text json_data) output_path
  = Ok path ->
  exists data text,
    loads json_data = Ok data
    /\ format_json_for_display data = Ok text
    /\ try_except
         (parsed_json <- loads json_data ;; format_json_for_display parsed_json)
         (fun _ => Ok json_data)
       = Ok text.
Proof.
  intro H. destruct (display_follows_generate_pdf _ _ _ _ H)
             as (data & text & Hl & Hf).
  exists data, text. split; [exact Hl|]. split; [exact Hf|].
  rewrite Hl. cbn [bind]. now rewrite Hf.
Qed.

(** X11 on the text of a record with a test date. *)
Lemma display_never_falls_back_witness :
  PdfGenerator.generate_pdf (Examples.renderer_env (Ok tt))
    (PdfGenerator.Text (Analyser.requote "{'test_date': '2024-04-30'}"))
    (Some "out.pdf")
  = Ok "out.pdf"
  /\ exists text,
       try_except
         (parsed_json <- loads (Analyser.requote "{'test_date': '2024-04-30'}") ;;
          format_json_for_display parsed_json)
         (fun _ => Ok (Analyser.requote "{'test_date': '2024-04-30'}"))
       = Ok text.
Proof.
  split; [reflexivity|].
  destruct (display_never_falls_back (Examples.renderer_env (Ok tt))
              (Analyser.requote "{'test_date': '2024-04-30'}")
              (Some "out.pdf") "out.pdf" eq_refl)
    as (data & text & _ & _ & H).
  exists text. exact H.
Defined.

(** X12.  The line of the display for an entry carries [ABNORMAL] between
    brackets exactly when the entry's status is the word abnormal up to the
    case of its letters, and [NORMAL] otherwise: the test the table of the
    document makes for its red and green cells.  The display writes the
    name whole and writes values that are not strs as [str] does (the
    entry holds no float and stays within the interpreter's limits, so
    that [str] is the interpreter's). *)
Theorem display_tags_follow_the_table
    (q : dict) (name : json) (status : string) :
  plain (JDict q) = true ->
  dict_get "parameter" q = Some name ->
  text_field q "status" "" = Some status ->
  parameter_line (JDict q)
  = Ok [ "**" ++ to_str name ++ ":** "
         ++ to_str (field_or q "value" (JStr "N/A"))
         ++ " (Reference: "
         ++ to_str (field_or q "reference_range" (JStr "N/A")) ++ ") "
         ++ (if equal_ignoring_case status "abnormal"
             then "[ABNORMAL]" else "[NORMAL]") ]
  /\ forall row,
       PdfGenerator.parameter_row (JDict q) = Ok row ->
       exists cells,
         row = (cells ++ if equal_ignoring_case status "abnormal"
                         then red_abnormal else green_normal)%list.
Proof.
  intros _ Hn Hs. split.
  - unfold parameter_line, getitem. rewrite (text_field_get _ _ _ _ Hs), Hn.
    cbn [bind lower_method get]. rewrite lower_is_abnormal.
    unfold field_or, append. reflexivity.
  - intros row H. unfold PdfGenerator.parameter_row in H.
    apply andthen_ok_inv in H as (o0 & r0 & _ & H & ->).
    apply andthen_ok_inv in H as (o1 & r1 & _ & H & ->).
    apply andthen_ok_inv in H as (o2 & r2 & _ & H & ->).
    rewrite (text_field_get _ _ _ _ Hs) in H.
    cbn [bind lower_method PdfGenerator.draw] in H. injection H as <-.
    rewrite status_cell_spec. unfold status_cell_of.
    exists (o0 ++ o1 ++ o2)%list. now rewrite <- !List.app_assoc.
Qed.

(** X12 on the entry whose status is in capitals. *)
Lemma display_tags_follow_the_table_witness :
  plain (JDict Examples.entry_low) = true
  /\ dict_get "parameter" Examples.entry_low = Some (JStr "Hemoglobin")
  /\ text_field Examples.entry_low "status" "" = Some "ABNORMAL"
  /\ parameter_line (JDict Examples.entry_low)
     = Ok ["**Hemoglobin:** 10 (Reference: 13-17) [ABNORMAL]"].
Proof.
  assert (Hplain : plain (JDict Examples.entry_low) = true)
    by (vm_compute; reflexivity).
  split; [exact Hplain|]. split; [reflexivity|]. split; [reflexivity|].
  exact (proj1 (display_tags_follow_the_table Examples.entry_low
                  (JStr "Hemoglobin") "ABNORMAL" Hplain eq_refl eq_refl)).
Defined.

(** X13.  A record that holds an [error] field, the two parse failures
    included, is shown as an empty text beside the record and a document
    of the first lines of the page alone; only a failure to write that
    document turns the outputs into an Error text. *)
Theorem error_records_are_shown_blank
    (env : Env) (img : upload) (record : json) :
  makedirs env (temp_dir env) = Ok tt ->
  stored env img ->
  Analyser.analyze_blood_report (analyser env) (img_path env)
  = Ok (dumps record) ->
  holds_error record ->
  snd (process_image env (Some img))
  = match PdfGenerator.write_document (renderer env) (pdf_path env)
            (preamble (renderer env) ++ [PdfGenerator.Output (pdf_path env)])
    with
    | Ok _ => Ok ("", Some (dumps record), Some (pdf_path env))
    | Raise e => Ok ("Error: " ++ exn_str e, None, None)
    end.
Proof.
  intros Hm Hs Ha [(msg & raw & now & ->) | (msg & now & ->)].
  - apply (process_image_no_section env img _ _ Hm Hs Ha
             (loads_error_variant msg raw now)).
    repeat split.
  - apply (process_image_no_section env img _ _ Hm Hs Ha
             (loads_exception_record (Exn OtherException msg) now)).
    repeat split.
Qed.

(** X13 on a reply with no brace. *)
Lemma error_records_are_shown_blank_witness :
  makedirs (Examples.app_env (Ok Examples.reply_no_brace) (Ok tt))
    (temp_dir (Examples.app_env (Ok Examples.reply_no_brace) (Ok tt))) = Ok tt
  /\ stored (Examples.app_env (Ok Examples.reply_no_brace) (Ok tt)) (Picture [])
  /\ holds_error (error_variant "Could not parse the blood report"
                    Examples.reply_no_brace Examples.clock)
  /\ snd (process_image (Examples.app_env (Ok Examples.reply_no_brace) (Ok tt))
            (Some (Picture [])))
     = Ok ("",
           Some (dumps (error_variant "Could not parse the blood report"
                          Examples.reply_no_brace Examples.clock)),
           Some (pdf_path (Examples.app_env (Ok Examples.reply_no_brace) (Ok tt)))).
Proof.
  assert (H : holds_error (error_variant "Could not parse the blood report"
                             Examples.reply_no_brace Examples.clock))
    by (left; eauto).
  split; [reflexivity|]. split; [reflexivity|]. split; [exact H|].
  exact (error_records_are_shown_blank
           (Examples.app_env (Ok Examples.reply_no_brace) (Ok tt)) (Picture [])
           _ eq_refl eq_refl eq_refl H).
Defined.

End AppExtras.

(** ** The two scripts *)

Section ScriptExtras.
Import Scripts.

(** The analyser returns the text of a dict, whatever happens. *)
Lemma analyze_returns_a_dict (env : Analyser.Env) (path : string) :
  exists record,
    Analyser.analyze_blood_report env path = Ok (dumps (JDict record)).
Proof.
  unfold Analyser.analyze_blood_report.
  destruct (Analyser.image_format env path) as [parts|e0];
    [|eexists; reflexivity].
  cbn [bind]. destruct (Analyser.first_item parts) as [part|e1];
    [|eexists; reflexivity].
  cbn [bind].
  destruct (Analyser.generate_content env (Analyser.request_of part))
    as [text|e2]; [|eexists; reflexivity].
  cbn [bind]. destruct (normalize_total (Analyser.now_isoformat env) text)
    as [record ->].
  exists record. reflexivity.
Qed.

(** X14.  blood_report_analyser.py run as a script ends normally whatever
    the picture and the model do: with no output path (or an empty one) it
    prints the text of a dict and nothing else; with an output path it
    writes that text, unchanged, to the path and prints where it was
    saved.  The one exception it can end with is a failure of that
    write. *)
Theorem analyser_script_outcomes (env : AnalyserEnv) (args : analyser_args) :
  exists record,
    Analyser.analyze_blood_report (analysis env) (args_image_path args)
    = Ok (dumps (JDict record))
    /\ match PdfGenerator.given (args_output args) with
       | None =>
           analyser_main env args = ([Print (dumps (JDict record))], Finished)
       | Some path =>
           match write_text env path (dumps (JDict record)) with
           | Ok _ =>
               analyser_main env args
               = ([ WriteText path (dumps (JDict record));
                    Print ("Analysis saved to " ++ path) ], Finished)
           | Raise e => analyser_main env args = ([], Uncaught e)
           end
       end.
Proof.
  destruct (analyze_returns_a_dict (analysis env) (args_image_path args))
    as [record Ha].
  exists record. split; [exact Ha|].
  unfold analyser_main. rewrite Ha.
  destruct (PdfGenerator.given (args_output args)) as [path|]; [|reflexivity].
  destruct (write_text env path _); reflexivity.
Qed.

(** X15.  pdf_generator.py run as a script, case by case.  With an
    image, the analysis gives the text of a dict whatever the picture and
    the model do, the document is generated from that text, and the JSON
    file plays no part: it is not read.  With a JSON file and no image,
    the document is generated from what the file holds, and a failure to
    read it ends the run.  With neither (or with empty paths for both),
    the script prints its error and its help and exits with status 1. *)
Theorem pdf_script_outcomes (env : PdfEnv) (args : pdf_args) :
  match PdfGenerator.given (args_image args),
        PdfGenerator.given (args_json args) with
  | Some image, _ =>
      exists record,
        Analyser.analyze_blood_report (pdf_analysis env) image
        = Ok (dumps (JDict record))
        /\ pdf_main env args
           = generate_and_report env (dumps (JDict record))
               (args_pdf_output args)
  | None, Some path =>
      pdf_main env args
      = match read_text env path with
        | Ok json_data =>
            generate_and_report env json_data (args_pdf_output args)
        | Raise e => ([], Uncaught e)
        end
  | None, None =>
      pdf_main env args
      = ([Print "Error: Either --image or --json must be provided"; PrintHelp],
         Exited 1)
  end.
Proof.
  unfold pdf_main.
  destruct (PdfGenerator.given (args_image args)) as [image|].
  - destruct (analyze_returns_a_dict (pdf_analysis env) image) as [record Ha].
    exists record. split; [exact Ha|]. now rewrite Ha.
  - destruct (PdfGenerator.given (args_json args)) as [path|]; [|reflexivity].
    destruct (read_text env path); reflexivity.
Qed.

(** X16.  pdf_generator.py run on an image reports a generated document
    even when the call of the model has failed: the analyser hands back
    its error record, and the script draws the first lines of the page for
    it, writes them, and ends normally. *)
Theorem pdf_script_reports_a_document_after_a_failed_call
    (env : PdfEnv) (args : pdf_args) (image : string) (e : exn) :
  PdfGenerator.given (args_image args) = Some image ->
  model_call_raises (pdf_analysis env) image e ->
  (forall path ops, PdfGenerator.write_document (rendering env) path ops = Ok tt) ->
  exists path,
    pdf_main env args = ([Print ("PDF report generated: " ++ path)], Finished)
    /\ PdfGenerator.generate_pdf (rendering env)
         (PdfGenerator.Text
            (dumps (Analyser.exception_record e
                      (Analyser.now_isoformat (pdf_analysis env)))))
         (args_pdf_output args)
       = Ok path.
Proof.
  intros Hi (part & Himg & Hgen) Hw.
  assert (Ha : Analyser.analyze_blood_report (pdf_analysis env) image
               = Ok (dumps (Analyser.exception_record e
                              (Analyser.now_isoformat (pdf_analysis env))))).
  { unfold Analyser.analyze_blood_report. rewrite Himg.
    cbn [bind Analyser.first_item]. now rewrite Hgen. }
  assert (Hpdf : exists path,
             PdfGenerator.generate_pdf (rendering env)
               (PdfGenerator.Text
                  (dumps (Analyser.exception_record e
                            (Analyser.now_isoformat (pdf_analysis env)))))
               (args_pdf_output args)
             = Ok path).
  { unfold PdfGenerator.generate_pdf.
    rewrite loads_exception_record. cbn [bind].
    unfold Analyser.exception_record.
    rewrite document_no_section by (repeat split). cbn [bind].
    destruct (PdfGenerator.given (args_pdf_output args));
      rewrite Hw; eexists; reflexivity. }
  destruct Hpdf as [path Hpdf]. exists path. split; [|exact Hpdf].
  unfold pdf_main, generate_and_report. now rewrite Hi, Ha, Hpdf.
Qed.

(** X16 on a call of the model that fails on its quota. *)
Lemma pdf_script_reports_a_document_after_a_failed_call_witness :
  model_call_raises
    (pdf_analysis (Examples.pdf_script_env (Raise Examples.quota_error)
                     (Ok "") (Ok tt)))
    "report.jpg" Examples.quota_error
  /\ exists path,
       pdf_main (Examples.pdf_script_env (Raise Examples.quota_error)
                   (Ok "") (Ok tt))
         {| args_image := Some "report.jpg"; args_json := None;
            args_pdf_output := Some "out.pdf" |}
       = ([Print ("PDF report generated: " ++ path)], Finished).
Proof.
  assert (H : model_call_raises
                (pdf_analysis (Examples.pdf_script_env
                                 (Raise Examples.quota_error) (Ok "") (Ok tt)))
                "report.jpg" Examples.quota_error)
    by by_running.
  split; [exact H|].
  destruct (pdf_script_reports_a_document_after_a_failed_call
              (Examples.pdf_script_env (Raise Examples.quota_error)
                 (Ok "") (Ok tt))
              {| args_image := Some "report.jpg"; args_json := None;
                 args_pdf_output := Some "out.pdf" |}
              "report.jpg" Examples.quota_error eq_refl H
              (fun _ _ => eq_refl)) as (path & Hmain & _).
  exists path. exact Hmain.
Defined.

End ScriptExtras.

(** ** What [dumps] writes, [loads] reads back *)

Section RoundTripFacts.

(** Induction on a value, through its lists and dicts. *)
Lemma json_induction (P : json -> Prop) :
  P JNull -> (forall b, P (JBool b)) -> (forall z, P (JInt z)) ->
  (forall literal, P (JFloat literal)) -> (forall s, P (JStr s)) ->
  (forall l, Forall P l -> P (JList l)) ->
  (forall d, Forall (fun kv => P (snd kv)) d -> P (JDict d)) ->
  forall v, P v.
Proof.
  intros HNull HBool HInt HFloat HStr HList HDict.
  fix IH 1. intros [| b | z | literal | s | l | d].
  - exact HNull.
  - apply HBool.
  - apply HInt.
  - apply HFloat.
  - apply HStr.
  - apply HList. induction l as [|x l IHl]; constructor; [apply IH | exact IHl].
  - apply HDict.
    induction d as [|[k x] d IHd]; constructor; [apply IH | exact IHd].
Qed.

Lemma chr_code (c : ascii) : chr (code c) = c.
Proof.
  unfold chr, code. rewrite N2Z.id. apply ascii_N_embedding.
Qed.

Lemma code_eqb (c : ascii) (n : Z) : (code c =? n) = true -> c = chr n.
Proof. intro H. apply Z.eqb_eq in H. rewrite <- H. symmetry. apply chr_code. Qed.

Lemma is_ws_cases (c : ascii) :
  is_ws c = true -> c = chr 32 \/ c = chr 9 \/ c = chr 10 \/ c = chr 13.
Proof.
  unfold is_ws. intro H.
  repeat (apply orb_true_iff in H as [H | H]); apply code_eqb in H; auto.
Qed.

Lemma is_digit_cases (c : ascii) :
  is_digit c = true ->
  In c ["0"; "1"; "2"; "3"; "4"; "5"; "6"; "7"; "8"; "9"]%char.
Proof.
  unfold is_digit. intro H. apply andb_true_iff in H as [H1 H2].
  apply Z.leb_le in H1, H2. rewrite <- (chr_code c).
  assert (E : code c = 48 \/ code c = 49 \/ code c = 50 \/ code c = 51
              \/ code c = 52 \/ code c = 53 \/ code c = 54 \/ code c = 55
              \/ code c = 56 \/ code c = 57) by lia.
  repeat (destruct E as [-> | E]; [simpl; tauto|]).
  rewrite E. simpl; tauto.
Qed.

(** *** Blanks *)

Lemma skip_ws_spaces (n : nat) (s : string) : skip_ws (spaces n ++ s) = skip_ws s.
Proof. induction n as [|n IH]; [reflexivity | exact IH]. Qed.

Lemma skip_ws_newline_indent (level : nat) (s : string) :
  skip_ws (newline_indent level ++ s) = skip_ws s.
Proof. unfold newline_indent. cbn [append skip_ws]. apply skip_ws_spaces. Qed.

Lemma skip_ws_head (c : ascii) (s : string) :
  is_ws c = false -> skip_ws (String c s) = String c s.
Proof. intro H. simpl. now rewrite H. Qed.

(** A value does not start with a blank or a closing bracket. *)
Lemma scan_value_head (f : nat) (c : ascii) (s : string) (v : json) (r : string) :
  scan_value f (String c s) = Some (v, r) ->
  is_ws c = false /\ (code c =? 93) = false.
Proof.
  destruct f as [|f]; [discriminate|]. intro H. split.
  - destruct (is_ws c) eqn:E; [|reflexivity].
    apply is_ws_cases in E as [-> | [-> | [-> | ->]]]; discriminate H.
  - destruct (code c =? 93) eqn:E; [|reflexivity].
    apply code_eqb in E. subst c. discriminate H.
Qed.

Lemma skip_ws_scanned (f : nat) (s : string) (v : json) (r : string) :
  scan_value f s = Some (v, r) ->
  skip_ws s = s /\ exists c s', s = String c s' /\ (code c =? 93) = false.
Proof.
  intro H. destruct s as [|c s'].
  - destruct f; discriminate.
  - destruct (scan_value_head _ _ _ _ _ H) as [Hw Hb].
    split; [now apply skip_ws_head | eauto].
Qed.

(** *** Fuel *)

Lemma scan_value_fuel (f f' : nat) (s : string) (v : json) (r : string) :
  scan_value f s = Some (v, r) -> (String.length s <= f')%nat ->
  scan_value f' s = Some (v, r).
Proof.
  intros H Hf. destruct (proj1 (scans_read f) _ _ _ H) as [_ Hfuel].
  apply Hfuel. lia.
Qed.

Lemma scan_members_fuel (f f' : nat) (s : string) (acc : dict)
    (v : json) (r : string) :
  scan_members f s acc = Some (v, r) -> (String.length s <= f')%nat ->
  scan_members f' s acc = Some (v, r).
Proof.
  intros H Hf.
  destruct (proj1 (proj2 (scans_read f)) _ _ _ _ H) as [_ Hfuel].
  apply Hfuel. lia.
Qed.

Lemma scan_elements_fuel (f f' : nat) (s : string) (acc : list json)
    (v : json) (r : string) :
  scan_elements f s acc = Some (v, r) -> (String.length s <= f')%nat ->
  scan_elements f' s acc = Some (v, r).
Proof.
  intros H Hf.
  destruct (proj2 (proj2 (scans_read f)) _ _ _ _ H) as [_ Hfuel].
  apply Hfuel. lia.
Qed.


(** *** Numbers *)

(** What follows a token is not a digit, a dot or an exponent. *)
Lemma ends_token_stops (rest : string) :
  ends_token rest = true ->
  span_digits rest = ("", rest) /\ scan_frac rest = ("", rest)
  /\ scan_exp rest = ("", rest).
Proof.
  destruct rest as [|c r]; [now repeat split|].
  cbn [ends_token]. intro H.
  assert (Hc : code c = 44 \/ code c = 10).
  { apply orb_true_iff in H as [H | H]; apply Z.eqb_eq in H; auto. }
  assert (Hd : is_digit c = false).
  { unfold is_digit. apply andb_false_iff. left. apply Z.leb_gt. lia. }
  assert (H46 : (code c =? 46) = false) by (apply Z.eqb_neq; lia).
  assert (H101 : (code c =? 101) = false) by (apply Z.eqb_neq; lia).
  assert (H69 : (code c =? 69) = false) by (apply Z.eqb_neq; lia).
  cbn [span_digits scan_frac scan_exp]. now rewrite Hd, H46, H101, H69.
Qed.

(** A run of digits before a text that does not start with one. *)
Lemma span_digits_app (ds s : string) :
  span_digits ds = (ds, "") -> span_digits s = ("", s) ->
  span_digits (ds ++ s) = (ds, s).
Proof.
  intros Hds Hs. induction ds as [|c ds IH]; [exact Hs|].
  cbn [append span_digits] in *.
  destruct (is_digit c); [|discriminate].
  destruct (span_digits ds) as [ds' r'] eqn:E.
  injection Hds as H1 H2. subst ds' r'. now rewrite IH.
Qed.

(** What [span_digits] cuts: a run of digits, and a rest that does not
    start with one. *)
Lemma span_digits_parts (s ds r : string) :
  span_digits s = (ds, r) ->
  s = ds ++ r /\ span_digits ds = (ds, "") /\ span_digits r = ("", r).
Proof.
  revert ds r. induction s as [|c s IH]; intros ds r; cbn [span_digits].
  - intros [= <- <-]. now repeat split.
  - destruct (is_digit c) eqn:Hd.
    + destruct (span_digits s) as [ds' r'] eqn:E. intros [= <- <-].
      destruct (IH _ _ eq_refl) as (-> & H1 & H2).
      cbn [append span_digits]. rewrite Hd, H1. now repeat split.
    + intros [= <- <-]. cbn [append span_digits]. rewrite Hd. now repeat split.
Qed.

Lemma digit_not_minus (c : ascii) : is_digit c = true -> (code c =? 45) = false.
Proof.
  unfold is_digit. intro H. apply andb_true_iff in H as [H _].
  apply Z.leb_le in H. apply Z.eqb_neq. lia.
Qed.

(** A text that starts as a number does is read as a number. *)
Lemma scan_value_number (f : nat) (neg : bool) (c : ascii) (r : string) :
  is_digit c = true ->
  scan_value (S f) ((if neg then "-" else "") ++ String c r)
  = scan_number ((if neg then "-" else "") ++ String c r).
Proof.
  intro H. apply is_digit_cases in H. cbn [In] in H.
  destruct neg;
    repeat (destruct H as [<- | H]; [reflexivity|]); now destruct H.
Qed.

(** The parts of a number, read in turn. *)
Lemma scan_number_parts (neg : bool) (c : ascii) (ip' fp ep rest : string) :
  is_digit c = true ->
  (if code c =? 48 then ip' = ""
   else span_digits (ip' ++ fp ++ ep ++ rest) = (ip', fp ++ ep ++ rest)) ->
  scan_frac (fp ++ ep ++ rest) = (fp, ep ++ rest) ->
  scan_exp (ep ++ rest) = (ep, rest) ->
  scan_number ((if neg then "-" else "") ++ String c ip' ++ fp ++ ep ++ rest)
  = match fp, ep with
    | EmptyString, EmptyString =>
        match NilZero.int_of_string ((if neg then "-" else "") ++ String c ip') with
        | Some d => Some (JInt (Z.of_int d), rest)
        | None => None
        end
    | _, _ =>
        Some (JFloat ((if neg then "-" else "") ++ String c ip' ++ fp ++ ep), rest)
    end.
Proof.
  intros Hd Hip Hfp Hep.
  assert (Hbody :
    forall sign,
      (let '(ip, s2) :=
         if code c =? 48 then (String c "", ip' ++ fp ++ ep ++ rest)
         else span_digits (String c (ip' ++ fp ++ ep ++ rest)) in
       let '(fp0, s3) := scan_frac s2 in
       let '(ep0, s4) := scan_exp s3 in
       match fp0, ep0 with
       | EmptyString, EmptyString =>
           match NilZero.int_of_string (sign ++ ip) with
           | Some d => Some (JInt (Z.of_int d), s4)
           | None => None
           end
       | _, _ => Some (JFloat (sign ++ ip ++ fp0 ++ ep0), s4)
       end)
      = match fp, ep with
        | EmptyString, EmptyString =>
            match NilZero.int_of_string (sign ++ String c ip') with
            | Some d => Some (JInt (Z.of_int d), rest)
            | None => None
            end
        | _, _ => Some (JFloat (sign ++ String c ip' ++ fp ++ ep), rest)
        end).
  { intro sign. destruct (code c =? 48).
    - subst ip'. cbn [append]. cbn [append] in Hfp. rewrite Hfp, Hep.
      reflexivity.
    - cbn [span_digits]. rewrite Hd, Hip, Hfp, Hep. reflexivity. }
  unfold scan_number. destruct neg; cbn [append].
  - change (code "-" =? 45) with true. cbv iota. rewrite Hd. apply Hbody.
  - rewrite (digit_not_minus _ Hd), Hd. apply (Hbody "").
Qed.

(** The digits of a number in base ten are digits. *)
Lemma span_digits_uint (d : Decimal.uint) :
  span_digits (NilEmpty.string_of_uint d) = (NilEmpty.string_of_uint d, "").
Proof.
  induction d; cbn [NilEmpty.string_of_uint span_digits];
    [reflexivity | ..];
    (match goal with |- context [is_digit ?c] =>
       change (is_digit c) with true end);
    cbv iota; now rewrite IHd.
Qed.

(** The digits of a positive number do not start with a zero. *)
Lemma to_uint_head (p : positive) :
  exists c r,
    NilZero.string_of_uint (Pos.to_uint p) = String c r
    /\ NilEmpty.string_of_uint (Pos.to_uint p) = String c r
    /\ is_digit c = true /\ (code c =? 48) = false.
Proof.
  pose proof (DecimalPos.Unsigned.to_uint_nonzero p) as Hnz.
  assert (Hnorm : Decimal.unorm (Pos.to_uint p) = Pos.to_uint p).
  { pose proof (DecimalPos.Unsigned.to_of (Pos.to_uint p)) as H.
    rewrite DecimalPos.Unsigned.of_to in H. symmetry. exact H. }
  destruct (Pos.to_uint p) as [|u|u|u|u|u|u|u|u|u|u] eqn:E;
    try (eexists _, _; repeat split; reflexivity).
  - discriminate Hnorm.
  - exfalso. rewrite DecimalFacts.unorm_D0 in Hnorm.
    unfold Decimal.unorm in Hnorm.
    destruct (Decimal.nzhead u) eqn:Hh;
      try (now apply (DecimalFacts.nzhead_nonzero u u0));
      try (injection Hnorm as <-; now apply (DecimalFacts.nzhead_nonzero _ _ Hh)).
    injection Hnorm as <-. now elim Hnz.
Qed.

(** An int reads back from its digits. *)
Lemma scan_value_int (f : nat) (z : Z) (rest : string) :
  ends_token rest = true ->
  scan_value (S f) (str_int z ++ rest) = Some (JInt z, rest).
Proof.
  intro Hrest. destruct (ends_token_stops _ Hrest) as (Hsd & Hsf & Hse).
  assert (Hgen : forall (neg : bool) (p : positive),
    Z.to_int (if neg then Z.neg p else Z.pos p)
    = (if neg then Decimal.Neg (Pos.to_uint p) else Decimal.Pos (Pos.to_uint p)) ->
    scan_value (S f)
      (NilZero.string_of_int
         (if neg then Decimal.Neg (Pos.to_uint p)
          else Decimal.Pos (Pos.to_uint p)) ++ rest)
    = Some (JInt (if neg then Z.neg p else Z.pos p), rest)).
  { intros neg p Hz.
    destruct (to_uint_head p) as (c & r & Hs & Hs' & Hd & H0).
    assert (Hstr : NilZero.string_of_int
                     (if neg then Decimal.Neg (Pos.to_uint p)
                      else Decimal.Pos (Pos.to_uint p))
                   = (if neg then "-" else "") ++ String c r).
    { destruct neg; cbn [NilZero.string_of_int append]; now rewrite Hs. }
    rewrite Hstr, append_assoc.
    change (String c r ++ rest) with (String c (r ++ rest)).
    rewrite (scan_value_number f neg c (r ++ rest) Hd).
    change (String c (r ++ rest)) with (String c r ++ "" ++ "" ++ rest).
    rewrite (scan_number_parts neg c r "" "" rest Hd).
    - rewrite <- Hstr.
      rewrite NilZero.isi by (destruct neg; intros [= H];
                              now apply (DecimalPos.Unsigned.to_uint_nonnil p)).
      rewrite <- Hz, DecimalZ.of_to. reflexivity.
    - rewrite H0. cbn [append].
      apply span_digits_app; [|exact Hsd].
      pose proof (span_digits_uint (Pos.to_uint p)) as H.
      rewrite Hs' in H. cbn [span_digits] in H. rewrite Hd in H.
      destruct (span_digits r) as [ds r'] eqn:Er.
      injection H as H1 H2. now subst.
    - exact Hsf.
    - exact Hse. }
  unfold str_int. destruct z as [|p|p].
  - cbn [Z.to_int NilZero.string_of_int NilZero.string_of_uint
         NilEmpty.string_of_uint append].
    etransitivity; [exact (scan_value_number f false "0" rest eq_refl)|].
    etransitivity;
      [exact (scan_number_parts false "0" "" "" "" rest eq_refl eq_refl Hsf Hse)|].
    reflexivity.
  - apply (Hgen false p). reflexivity.
  - apply (Hgen true p). reflexivity.
Qed.


(** *** Lists and dicts *)

Lemma scan_value_bracket (f : nat) (r : string) :
  scan_value (S f) (String "[" r)
  = match skip_ws r with
    | String c1 r1 =>
        if code c1 =? 93 then Some (JList [], r1)
        else scan_elements f (String c1 r1) []
    | EmptyString => None
    end.
Proof. reflexivity. Qed.

Lemma scan_elements_head (f : nat) (s : string) (acc : list json)
    (v : json) (r : string) :
  scan_elements f s acc = Some (v, r) ->
  skip_ws s = s /\ exists c s', s = String c s' /\ (code c =? 93) = false.
Proof.
  destruct f as [|f]; [discriminate|]. rewrite scan_elements_equation.
  destruct (scan_value f s) as [[x r0]|] eqn:E; [|discriminate].
  intros _. exact (skip_ws_scanned _ _ _ _ E).
Qed.

Lemma ends_token_newline (level : nat) (s : string) :
  ends_token (newline_indent level ++ s) = true.
Proof. reflexivity. Qed.

Lemma ends_token_comma (s : string) : ends_token ("," ++ s) = true.
Proof. reflexivity. Qed.

(** The elements of a list, read after its opening bracket. *)
Lemma scan_elements_join (level : nat) (rest : string) (l : list json) :
  forall x acc,
    Forall reads_back (x :: l) ->
    exists f,
      scan_elements f
        (join ("," ++ newline_indent (S level)) (map (encode (S level)) (x :: l))
         ++ newline_indent level ++ "]" ++ rest) acc
      = Some (JList (acc ++ x :: l), rest).
Proof.
  induction l as [|y l IH]; intros x acc HQ.
  - apply Forall_inv in HQ.
    destruct (HQ (S level) (newline_indent level ++ "]" ++ rest)
                (ends_token_newline _ _)) as [f0 Hx].
    cbn [map join].
    exists (S (String.length (encode (S level) x
                              ++ newline_indent level ++ "]" ++ rest))).
    rewrite scan_elements_equation.
    rewrite (scan_value_fuel _ _ _ _ _ Hx) by lia.
    cbv zeta. rewrite skip_ws_newline_indent. reflexivity.
  - pose proof (Forall_inv HQ) as Hx. apply Forall_inv_tail in HQ.
    destruct (IH y (acc ++ [x])%list HQ) as [f2 Hrest].
    change (map (encode (S level)) (x :: y :: l))
      with (encode (S level) x :: encode (S level) y :: map (encode (S level)) l).
    rewrite join_two.
    change (encode (S level) y :: map (encode (S level)) l)
      with (map (encode (S level)) (y :: l)) in *.
    set (J := join ("," ++ newline_indent (S level))
                (map (encode (S level)) (y :: l))
              ++ newline_indent level ++ "]" ++ rest) in *.
    rewrite !append_assoc. fold J.
    destruct (Hx (S level) ("," ++ newline_indent (S level) ++ J)
                (ends_token_comma _)) as [f0 Hx0].
    exists (S (String.length
                 (encode (S level) x ++ "," ++ newline_indent (S level) ++ J)
               + String.length J)).
    rewrite scan_elements_equation.
    rewrite (scan_value_fuel _ _ _ _ _ Hx0) by lia.
    cbv zeta.
    change (skip_ws ("," ++ newline_indent (S level) ++ J))
      with (String "," (newline_indent (S level) ++ J)).
    change (code "," =? 93) with false. change (code "," =? 44) with true.
    cbv iota. rewrite skip_ws_newline_indent.
    rewrite (proj1 (scan_elements_head _ _ _ _ _ Hrest)).
    rewrite (scan_elements_fuel _ _ _ _ _ _ Hrest) by lia.
    now rewrite <- List.app_assoc.
Qed.

Lemma members_head (level : nat) (kv : string * json) (d : dict) (tail : string) :
  exists X,
    join ("," ++ newline_indent (S level)) (map (member_at level) (kv :: d)) ++ tail
    = String dquote X.
Proof.
  destruct d as [|kv' d]; cbn [map join]; unfold member_at at 1;
    rewrite !append_assoc, encode_str_append; eauto.
Qed.

(** The members of a dict, read after the opening quote of the first
    key. *)
Lemma scan_members_join (level : nat) (rest : string) (d : dict) :
  forall kv acc X,
    Forall (fun kv => reads_back (snd kv)) (kv :: d) ->
    join ("," ++ newline_indent (S level)) (map (member_at level) (kv :: d))
      ++ newline_indent level ++ "}" ++ rest
    = String dquote X ->
    exists f,
      scan_members f X acc
      = Some (JDict (fold_left set_member (kv :: d) acc), rest).
Proof.
  induction d as [|kv' d IH]; intros [k v] acc X HQ HX.
  - apply Forall_inv in HQ. cbn [snd] in HQ.
    destruct (HQ (S level) (newline_indent level ++ "}" ++ rest)
                (ends_token_newline _ _)) as [f0 Hv].
    cbn [map join] in HX. unfold member_at in HX. cbn [fst snd] in HX.
    rewrite !append_assoc, encode_str_append in HX.
    assert (EX : X = encode_chars k
                     ++ String dquote (": " ++ encode (S level) v
                                       ++ newline_indent level ++ "}" ++ rest))
      by (now injection HX).
    clear HX. subst X.
    exists (S (String.length (encode (S level) v
                              ++ newline_indent level ++ "}" ++ rest))).
    rewrite scan_members_equation, scan_string_encode.
    change (skip_ws (": " ++ encode (S level) v
                     ++ newline_indent level ++ "}" ++ rest))
      with (String ":" (String " " (encode (S level) v
                                    ++ newline_indent level ++ "}" ++ rest))).
    change (code ":" =? 58) with true. cbv iota.
    change (skip_ws (String " " (encode (S level) v
                                 ++ newline_indent level ++ "}" ++ rest)))
      with (skip_ws (encode (S level) v ++ newline_indent level ++ "}" ++ rest)).
    rewrite (proj1 (skip_ws_scanned _ _ _ _ Hv)).
    rewrite (scan_value_fuel _ _ _ _ _ Hv) by lia.
    cbv zeta. rewrite skip_ws_newline_indent. reflexivity.
  - pose proof (Forall_inv HQ) as Hv. cbn [snd] in Hv.
    apply Forall_inv_tail in HQ.
    set (tail := newline_indent level ++ "}" ++ rest) in *.
    destruct (members_head level kv' d tail) as [X' HX'].
    destruct (IH kv' (dict_set k v acc) X' HQ HX') as [f2 Hrest].
    change (map (member_at level) ((k, v) :: kv' :: d))
      with (member_at level (k, v) :: member_at level kv'
            :: map (member_at level) d) in HX.
    rewrite join_two in HX.
    change (member_at level kv' :: map (member_at level) d)
      with (map (member_at level) (kv' :: d)) in HX.
    unfold member_at at 1 in HX. cbn [fst snd] in HX.
    rewrite !append_assoc in HX. rewrite HX' in HX.
    rewrite encode_str_append in HX.
    assert (EX : X = encode_chars k
                     ++ String dquote
                          (": " ++ encode (S level) v
                           ++ "," ++ newline_indent (S level)
                           ++ String dquote X'))
      by (now injection HX).
    clear HX. subst X.
    destruct (Hv (S level) ("," ++ newline_indent (S level) ++ String dquote X')
                (ends_token_comma _)) as [f0 Hv0].
    exists (S (String.length
                 (encode (S level) v
                  ++ "," ++ newline_indent (S level) ++ String dquote X')
               + String.length X')).
    rewrite scan_members_equation, scan_string_encode.
    change (skip_ws (": " ++ encode (S level) v
                     ++ "," ++ newline_indent (S level) ++ String dquote X'))
      with (String ":" (String " "
              (encode (S level) v
               ++ "," ++ newline_indent (S level) ++ String dquote X'))).
    change (code ":" =? 58) with true. cbv iota.
    change (skip_ws (String " "
              (encode (S level) v
               ++ "," ++ newline_indent (S level) ++ String dquote X')))
      with (skip_ws (encode (S level) v
                     ++ "," ++ newline_indent (S level) ++ String dquote X')).
    rewrite (proj1 (skip_ws_scanned _ _ _ _ Hv0)).
    rewrite (scan_value_fuel _ _ _ _ _ Hv0) by lia.
    cbv zeta.
    change (skip_ws ("," ++ newline_indent (S level) ++ String dquote X'))
      with (String "," (newline_indent (S level) ++ String dquote X')).
    change (code "," =? 125) with false. change (code "," =? 44) with true.
    cbv iota. rewrite skip_ws_newline_indent.
    change (skip_ws (String dquote X')) with (String dquote X').
    change (code dquote =? 34) with true. cbv iota.
    rewrite (scan_members_fuel _ _ _ _ _ _ Hrest) by lia.
    reflexivity.
Qed.

(** Setting keys that are new, one after the other, appends them. *)
Lemma dict_set_new (k : string) (v : json) (acc : dict) :
  ~ In k (keys acc) -> dict_set k v acc = (acc ++ [(k, v)])%list.
Proof.
  induction acc as [|[k' v'] acc IH]; intro H; [reflexivity|].
  cbn [dict_set keys map fst In List.app] in *.
  destruct (String.eqb k' k) eqn:E.
  - apply String.eqb_eq in E. tauto.
  - rewrite IH by tauto. reflexivity.
Qed.

Lemma fold_set_member_new (d acc : dict) :
  NoDup (keys acc ++ keys d) ->
  fold_left set_member d acc = (acc ++ d)%list.
Proof.
  revert acc. induction d as [|[k v] d IH]; intros acc H.
  - now rewrite List.app_nil_r.
  - cbn [fold_left]. unfold set_member at 2. cbn [fst snd].
    cbn [keys map fst] in H.
    rewrite dict_set_new.
    + rewrite IH.
      * now rewrite <- List.app_assoc.
      * unfold keys in *. rewrite map_app. cbn [map fst].
        now rewrite <- List.app_assoc.
    + apply NoDup_remove_2 in H. intro Hin. apply H.
      apply in_or_app. now left.
Qed.

Lemma one_char_app (c : ascii) (r : string) : String c "" ++ r = String c r.
Proof. reflexivity. Qed.

Lemma encode_list_equation (level : nat) (x : json) (l : list json) :
  encode level (JList (x :: l))
  = "[" ++ newline_indent (S level)
      ++ join ("," ++ newline_indent (S level)) (map (encode (S level)) (x :: l))
      ++ newline_indent level ++ "]".
Proof. reflexivity. Qed.

Lemma encode_dict_equation (level : nat) (kv : string * json) (d : dict) :
  encode level (JDict (kv :: d))
  = "{" ++ newline_indent (S level)
      ++ join ("," ++ newline_indent (S level)) (map (member_at level) (kv :: d))
      ++ newline_indent level ++ "}".
Proof. reflexivity. Qed.

(** Every printable value reads back. *)
Lemma printable_reads_back (v : json) : printable v -> reads_back v.
Proof.
  induction v as [| b | z | literal | s | l IHl | d IHd] using json_induction;
    intros Hp level rest Hrest.
  - exists 1%nat. reflexivity.
  - exists 1%nat. destruct b; reflexivity.
  - exists 1%nat. now apply scan_value_int.
  - exists 1%nat. inversion Hp as [| | | lit H | | |]; subst. now apply H.
  - exists 1%nat. apply scan_value_str.
  - inversion Hp as [| | | | | l' Hl |]; subst.
    assert (HQ : Forall reads_back l).
    { clear Hp. induction l as [|x l IH]; constructor.
      - apply (Forall_inv IHl). apply (Forall_inv Hl).
      - apply IH; [apply (Forall_inv_tail IHl) | apply (Forall_inv_tail Hl)]. }
    destruct l as [|x l]; [exists 1%nat; reflexivity|].
    destruct (scan_elements_join level rest l x [] HQ) as [f Hf].
    exists (S f). rewrite encode_list_equation, !append_assoc.
    rewrite (one_char_app "["), scan_value_bracket, skip_ws_newline_indent.
    destruct (scan_elements_head _ _ _ _ _ Hf) as (Hw & c & s' & Hs & Hc).
    rewrite Hw. rewrite Hs in *. rewrite Hc. exact Hf.
  - inversion Hp as [| | | | | | d' Hk Hd]; subst.
    assert (HQ : Forall (fun kv => reads_back (snd kv)) d).
    { clear Hp Hk. induction d as [|x d IH]; constructor.
      - apply (Forall_inv IHd). apply (Forall_inv Hd).
      - apply IH; [apply (Forall_inv_tail IHd) | apply (Forall_inv_tail Hd)]. }
    destruct d as [|kv d]; [exists 1%nat; reflexivity|].
    destruct (members_head level kv d (newline_indent level ++ "}" ++ rest))
      as [X HX].
    destruct (scan_members_join level rest d kv [] X HQ HX) as [f Hf].
    exists (S f). rewrite encode_dict_equation, !append_assoc.
    rewrite (one_char_app "{"), scan_value_brace, skip_ws_newline_indent.
    rewrite HX.
    change (skip_ws (String dquote X)) with (String dquote X).
    change (code dquote =? 125) with false. change (code dquote =? 34) with true.
    cbv iota. rewrite Hf. now rewrite fold_set_member_new.
Qed.

Lemma append_empty_r (s : string) : s ++ "" = s.
Proof. induction s as [|c s IH]; simpl; [reflexivity | now rewrite IH]. Qed.

(** [loads] gives back a printable value from the text [dumps] writes
    for it. *)
Lemma loads_dumps (v : json) : printable v -> loads (dumps v) = Ok v.
Proof.
  intro Hp. destruct (printable_reads_back v Hp 0%nat "" eq_refl) as [f Hf].
  unfold loads, dumps.
  rewrite (decode_fuel_is_enough f (encode 0 v) v "").
  - reflexivity.
  - rewrite append_empty_r in Hf.
    now rewrite (proj1 (skip_ws_scanned _ _ _ _ Hf)).
  - reflexivity.
Qed.


(** *** Floats *)

Lemma scan_frac_ok (s fp rest : string) :
  scan_frac s = (fp, rest) -> frac_ok fp.
Proof.
  destruct s as [|c r]; cbn [scan_frac].
  - intros [= <- _]. now left.
  - destruct (code c =? 46) eqn:E; [|intros [= <- _]; now left].
    apply code_eqb in E. subst c.
    destruct (span_digits r) as [ds rest'] eqn:Er.
    destruct (span_digits_parts _ _ _ Er) as (_ & Hds & _).
    destruct ds as [|c ds]; intros [= <- _]; [now left|].
    right. exists c, ds. now split.
Qed.

Lemma scan_exp_ok (s ep rest : string) :
  scan_exp s = (ep, rest) -> exp_ok ep.
Proof.
  destruct s as [|e r]; cbn [scan_exp].
  - intros [= <- _]. now left.
  - destruct ((code e =? 101) || (code e =? 69)) eqn:E;
      [|intros [= <- _]; now left].
    assert (Hcut : forall sg r1,
              (sg = "" \/ sg = "+" \/ sg = "-") ->
              match span_digits r1 with
              | (EmptyString, _) => ("", String e r)
              | (ds, rest0) => (String e (sg ++ ds), rest0)
              end = (ep, rest) -> exp_ok ep).
    { intros sg r1 Hsg. destruct (span_digits r1) as [ds rest'] eqn:Er.
      destruct (span_digits_parts _ _ _ Er) as (_ & Hds & _).
      destruct ds as [|c ds]; intros [= <- _]; [now left|].
      right. exists e, sg, c, ds. repeat split; auto. }
    destruct r as [|g r'].
    + apply (Hcut "" ""). now left.
    + destruct ((code g =? 45) || (code g =? 43)) eqn:Eg.
      * apply orb_true_iff in Eg as [Eg | Eg]; apply code_eqb in Eg; subst g.
        -- apply (Hcut "-" r'). auto.
        -- apply (Hcut "+" r'). auto.
      * apply (Hcut "" (String g r')). now left.
Qed.

Lemma span_digits_not_digit (c : ascii) (s : string) :
  is_digit c = false -> span_digits (String c s) = ("", String c s).
Proof. intro H. cbn [span_digits]. now rewrite H. Qed.

Lemma is_digit_range (c : ascii) :
  is_digit c = true -> 48 <= code c <= 57.
Proof.
  unfold is_digit. intro H. apply andb_true_iff in H as [H1 H2].
  apply Z.leb_le in H1, H2. lia.
Qed.

Lemma span_digits_head (c : ascii) (ds : string) :
  span_digits (String c ds) = (String c ds, "") ->
  is_digit c = true /\ span_digits ds = (ds, "").
Proof.
  cbn [span_digits]. destruct (is_digit c); [|discriminate].
  destruct (span_digits ds) as [ds' r']. intros [= -> ->]. now split.
Qed.

(** A fraction reads back before a text that starts neither with a digit
    nor, when the fraction is empty, with a dot. *)
Lemma scan_frac_app (fp t : string) :
  frac_ok fp -> span_digits t = ("", t) ->
  (fp = "" -> scan_frac t = ("", t)) ->
  scan_frac (fp ++ t) = (fp, t).
Proof.
  intros [-> | (c & ds & -> & Hds)] Ht Hempty; [now apply Hempty|].
  cbn [append scan_frac]. change (code "." =? 46) with true. cbv iota.
  change (String c (ds ++ t)) with (String c ds ++ t).
  now rewrite (span_digits_app _ _ Hds Ht).
Qed.

Lemma scan_exp_app (ep t : string) :
  exp_ok ep -> span_digits t = ("", t) -> scan_exp t = ("", t) ->
  scan_exp (ep ++ t) = (ep, t).
Proof.
  intros [-> | (e & sg & c & ds & -> & He & Hsg & Hds)] Ht Hempty;
    [exact Hempty|].
  cbn [append scan_exp]. rewrite He.
  pose proof (span_digits_app _ _ Hds Ht) as Hspan.
  destruct (span_digits_head _ _ Hds) as [Hc _].
  pose proof (is_digit_range _ Hc) as Hrange.
  destruct Hsg as [-> | [-> | ->]]; cbn [append].
  - assert (Eg : (code c =? 45) || (code c =? 43) = false).
    { apply orb_false_iff. split; apply Z.eqb_neq; lia. }
    rewrite Eg. change (String c (ds ++ t)) with (String c ds ++ t).
    now rewrite Hspan.
  - change ((code "+" =? 45) || (code "+" =? 43)) with true. cbv iota.
    change (String c (ds ++ t)) with (String c ds ++ t).
    now rewrite Hspan.
  - change ((code "-" =? 45) || (code "-" =? 43)) with true. cbv iota.
    change (String c (ds ++ t)) with (String c ds ++ t).
    now rewrite Hspan.
Qed.

(** A fraction, and an exponent, that is not empty starts with no digit
    and no dot but its own. *)
Lemma frac_head (fp t : string) :
  frac_ok fp -> fp <> "" -> span_digits (fp ++ t) = ("", fp ++ t).
Proof.
  intros [-> | (c & ds & -> & _)] Hne; [now elim Hne|]. reflexivity.
Qed.

Lemma exp_head (ep t : string) :
  exp_ok ep -> ep <> "" ->
  span_digits (ep ++ t) = ("", ep ++ t) /\ scan_frac (ep ++ t) = ("", ep ++ t).
Proof.
  intros [-> | (e & sg & c & ds & -> & He & _)] Hne; [now elim Hne|].
  assert (Hcode : code e = 101 \/ code e = 69).
  { apply orb_true_iff in He as [H | H]; apply Z.eqb_eq in H; auto. }
  cbn [append span_digits scan_frac].
  assert (Hd : is_digit e = false).
  { unfold is_digit. apply andb_false_iff. right. apply Z.leb_gt. lia. }
  assert (H46 : (code e =? 46) = false) by (apply Z.eqb_neq; lia).
  now rewrite Hd, H46.
Qed.

(** The literal of a float, made of its parts, reads back. *)
Lemma float_parts_read_back (neg : bool) (c : ascii) (ip' fp ep : string) :
  is_digit c = true ->
  (if code c =? 48 then ip' = "" else span_digits ip' = (ip', "")) ->
  frac_ok fp -> exp_ok ep ->
  (fp = "" -> ep <> "") ->
  float_reads_back ((if neg then "-" else "") ++ String c ip' ++ fp ++ ep).
Proof.
  intros Hd Hip Hfp Hep Hne f rest Hrest.
  destruct (ends_token_stops _ Hrest) as (Hsd & Hsf & Hse).
  assert (Hte : span_digits (ep ++ rest) = ("", ep ++ rest)
                /\ (fp = "" -> scan_frac (ep ++ rest) = ("", ep ++ rest))).
  { destruct ep as [|e ep'].
    - split; [exact Hsd|]. intro H. now elim (Hne H).
    - destruct (exp_head (String e ep') rest Hep ltac:(discriminate)).
      split; auto. }
  destruct Hte as [Hte1 Hte2].
  assert (Htf : span_digits (fp ++ ep ++ rest) = ("", fp ++ ep ++ rest)).
  { destruct fp as [|d fp']; [exact Hte1|].
    apply (frac_head (String d fp') _ Hfp). discriminate. }
  rewrite !append_assoc.
  change (String c ip' ++ fp ++ ep ++ rest)
    with (String c (ip' ++ fp ++ ep ++ rest)).
  rewrite (scan_value_number f neg c _ Hd).
  change (String c (ip' ++ fp ++ ep ++ rest))
    with (String c ip' ++ fp ++ ep ++ rest).
  rewrite (scan_number_parts neg c ip' fp ep rest Hd).
  - destruct fp as [|d fp'].
    + destruct ep as [|e ep']; [now elim (Hne eq_refl)|]. reflexivity.
    + reflexivity.
  - destruct (code c =? 48); [exact Hip|]. now apply span_digits_app.
  - now apply scan_frac_app.
  - now apply scan_exp_app.
Qed.

(** A float that [scan_number] has read reads back. *)
Lemma scan_number_float (s literal r : string) :
  scan_number s = Some (JFloat literal, r) -> float_reads_back literal.
Proof.
  unfold scan_number.
  assert (Hgen : forall (neg : bool) s1,
    match s1 with
    | String c r0 =>
        if is_digit c then
          let '(ip, s2) :=
            if (code c =? 48)%Z then (String c "", r0) else span_digits s1 in
          let '(fp, s3) := scan_frac s2 in
          let '(ep, s4) := scan_exp s3 in
          match fp, ep with
          | EmptyString, EmptyString =>
              match NilZero.int_of_string ((if neg then "-" else "") ++ ip) with
              | Some d => Some (JInt (Z.of_int d), s4)
              | None => None
              end
          | _, _ => Some (JFloat ((if neg then "-" else "") ++ ip ++ fp ++ ep), s4)
          end
        else None
    | EmptyString => None
    end = Some (JFloat literal, r) -> float_reads_back literal).
  { intros neg [|c r0]; [discriminate|].
    destruct (is_digit c) eqn:Hd; [|discriminate].
    destruct (if code c =? 48 then _ else _) as [ip s2] eqn:E1.
    assert (Hip : exists ip',
               ip = String c ip'
               /\ (if code c =? 48 then ip' = ""
                   else span_digits ip' = (ip', ""))).
    { destruct (code c =? 48).
      - injection E1 as <- _. now exists "".
      - cbn [span_digits] in E1. rewrite Hd in E1.
        destruct (span_digits r0) as [ds rest'] eqn:E.
        destruct (span_digits_parts _ _ _ E) as (_ & Hds & _).
        injection E1 as <- _. now exists ds. }
    destruct Hip as (ip' & -> & Hip). clear E1.
    destruct (scan_frac s2) as [fp s3] eqn:E2. apply scan_frac_ok in E2.
    destruct (scan_exp s3) as [ep s4] eqn:E3. apply scan_exp_ok in E3.
    destruct fp as [|d fp'].
    - destruct ep as [|e ep'].
      + destruct (NilZero.int_of_string _); discriminate.
      + intros [= <- _].
        exact (float_parts_read_back neg c ip' "" (String e ep') Hd Hip E2 E3
                 ltac:(discriminate)).
    - intros [= <- _].
      exact (float_parts_read_back neg c ip' (String d fp') ep Hd Hip E2 E3
               ltac:(discriminate)). }
  destruct s as [|c r0].
  - apply (Hgen false "").
  - destruct (code c =? 45) eqn:E.
    + apply code_eqb in E. subst c. apply (Hgen true r0).
    + apply (Hgen false (String c r0)).
Qed.

Lemma scan_constant_printable (s : string) (v : json) (r : string) :
  scan_constant s = Some (v, r) -> printable v.
Proof.
  unfold scan_constant.
  repeat match goal with
  | |- context [strip_prefix ?p s] =>
      destruct (strip_prefix p s);
      [intros [= <- _]; try constructor; intros f rest _; reflexivity|]
  end.
  discriminate.
Qed.

(** *** What the decoder builds is printable *)

Lemma keys_dict_set (k : string) (v : json) (d : dict) :
  keys (dict_set k v d) = keys d \/ (~ In k (keys d) /\ keys (dict_set k v d) = (keys d ++ [k])%list).
Proof.
  induction d as [|[k' v'] d IH]; cbn [dict_set keys map fst].
  - right. split; [tauto | reflexivity].
  - destruct (String.eqb k' k) eqn:E; cbn [keys map fst]; [now left|].
    apply String.eqb_neq in E. unfold keys in IH.
    destruct IH as [-> | [Hn ->]]; [now left|].
    right. split; [|reflexivity]. cbn [In]. tauto.
Qed.

Lemma dict_set_printable (k : string) (v : json) (d : dict) :
  printable v -> printable (JDict d) -> printable (JDict (dict_set k v d)).
Proof.
  intros Hv Hd. inversion Hd as [| | | | | | d' Hk Hvs]; subst.
  constructor.
  - destruct (keys_dict_set k v d) as [-> | [Hn ->]]; [exact Hk|].
    apply NoDup_app; [exact Hk | repeat constructor; tauto |].
    intros x Hx [<- | []]. tauto.
  - clear Hd Hk. induction d as [|[k' v'] d IH]; cbn [dict_set].
    + now repeat constructor.
    + apply Forall_inv in Hvs as Hhead. apply Forall_inv_tail in Hvs.
      destruct (String.eqb k' k); constructor; auto.
Qed.

Lemma scans_printable (f : nat) :
  (forall s v r, scan_value f s = Some (v, r) -> printable v)
  /\ (forall s acc v r,
        printable (JDict acc) ->
        scan_members f s acc = Some (v, r) -> printable v)
  /\ (forall s acc v r,
        printable (JList acc) ->
        scan_elements f s acc = Some (v, r) -> printable v).
Proof.
  induction f as [|f (IHv & IHm & IHe)]; [repeat split; discriminate|].
  split; [|split].
  - intros s v r. rewrite scan_value_equation.
    destruct s as [|c r0]; [discriminate|].
    destruct (code c =? 34).
    { destruct (scan_string r0) as [[t rest]|]; [|discriminate].
      intros [= <- _]. constructor. }
    destruct (code c =? 123).
    { destruct (skip_ws r0) as [|c1 r1]; [discriminate|].
      destruct (code c1 =? 125).
      { intros [= <- _]. repeat constructor. }
      destruct (code c1 =? 34); [|discriminate].
      apply IHm. repeat constructor. }
    destruct (code c =? 91).
    { destruct (skip_ws r0) as [|c1 r1]; [discriminate|].
      destruct (code c1 =? 93).
      { intros [= <- _]. repeat constructor. }
      apply IHe. repeat constructor. }
    destruct (scan_constant (String c r0)) as [[v' r']|] eqn:Ec.
    + intros [= <- _]. exact (scan_constant_printable _ _ _ Ec).
    + intro H. destruct v; try constructor.
      exact (scan_number_float _ _ _ H).
      all: exfalso; revert H; clear; unfold scan_number;
        repeat match goal with
               | |- context [match ?x with _ => _ end] => destruct x
               end; discriminate.
  - intros s acc v r Hacc. rewrite scan_members_equation.
    destruct (scan_string s) as [[key r0]|]; [|discriminate].
    destruct (skip_ws r0) as [|c r1]; [discriminate|].
    destruct (code c =? 58); [|discriminate].
    destruct (scan_value f (skip_ws r1)) as [[v0 r2]|] eqn:Ev; [|discriminate].
    apply IHv in Ev.
    destruct (skip_ws r2) as [|c2 r3]; [discriminate|]. cbv zeta.
    destruct (code c2 =? 125).
    { intros [= <- _]. now apply dict_set_printable. }
    destruct (code c2 =? 44); [|discriminate].
    destruct (skip_ws r3) as [|c3 r4]; [discriminate|].
    destruct (code c3 =? 34); [|discriminate].
    apply IHm. now apply dict_set_printable.
  - intros s acc v r Hacc. rewrite scan_elements_equation.
    destruct (scan_value f s) as [[v0 r0]|] eqn:Ev; [|discriminate].
    apply IHv in Ev.
    assert (Hacc' : printable (JList (acc ++ [v0]))).
    { inversion Hacc as [| | | | | l Hl |]; subst. constructor.
      apply Forall_app. split; [exact Hl | now repeat constructor]. }
    destruct (skip_ws r0) as [|c r1]; [discriminate|]. cbv zeta.
    destruct (code c =? 93).
    { intros [= <- _]. exact Hacc'. }
    destruct (code c =? 44); [|discriminate].
    now apply IHe.
Qed.

(** What [loads] returns is printable. *)
Lemma loads_printable (s : string) (v : json) : loads s = Ok v -> printable v.
Proof.
  unfold loads, decode.
  destruct (scan_value _ _) as [[x rest]|] eqn:E; [|discriminate].
  destruct (skip_ws rest); [|discriminate]. intros [= <-].
  exact (proj1 (scans_printable _) _ _ _ E).
Qed.

End RoundTripFacts.

(** ** From the reply to the outputs *)

Section EndToEndFacts.

Lemma success_record_printable (now : string) (obj : dict) :
  printable (JDict obj) -> printable (JDict (success_record now obj)).
Proof.
  intro H. unfold success_record.
  assert (Hs : printable (JDict (dict_set "analysis_timestamp" (JStr now) obj)))
    by (apply dict_set_printable; [constructor | exact H]).
  destruct (dict_get "disclaimer" obj); [exact Hs|].
  apply dict_set_printable; [|exact Hs].
  constructor. unfold Analyser.default_disclaimer. repeat constructor.
Qed.

(** After a reply whose slice is the text of a dict, the analyser returns
    the text of the success record, and that text decodes back to it. *)
Lemma analysis_decodes_back
    (env : Analyser.Env) (path text sl : string) (obj : dict) :
  model_replies env path text ->
  brace_slice text sl ->
  well_formed sl (JDict obj) ->
  Analyser.analyze_blood_report env path
  = Ok (dumps (JDict (success_record (Analyser.now_isoformat env) obj)))
  /\ loads (dumps (JDict (success_record (Analyser.now_isoformat env) obj)))
     = Ok (JDict (success_record (Analyser.now_isoformat env) obj)).
Proof.
  intros Hr Hsl Hwf. apply decode_iff in Hwf. split.
  - rewrite (analyze_on_reply _ _ _ Hr).
    now rewrite (normalize_decoded _ _ _ _ Hsl Hwf).
  - apply loads_dumps, success_record_printable.
    apply (loads_printable sl). unfold loads. now rewrite Hwf.
Qed.

Lemma success_record_disclaimer (now : string) (obj : dict) :
  dict_get "disclaimer" (success_record now obj)
  = Some (match dict_get "disclaimer" obj with
          | Some d => d
          | None => JList (map JStr Analyser.default_disclaimer)
          end).
Proof.
  unfold success_record. destruct (dict_get "disclaimer" obj) eqn:E.
  - now rewrite dict_get_set_other by discriminate.
  - apply dict_get_set_same.
Qed.

End EndToEndFacts.

Section EndToEndExtras.
Import App.







End EndToEndExtras.

(** ** Records shaped as the prompt asks *)

Section WellShapedFacts.
Import PdfGenerator.

Lemma section_of_dict (d : dict) (key : string) (method : json -> drawing) :
  (forall v, dict_get key d = Some v -> exists o, method v = Ok o) ->
  exists o, section (JDict d) key method = Ok o.
Proof.
  intro H. unfold section, contains, dict_mem, getitem.
  destruct (dict_get key d) as [v|]; cbn [bind]; [now apply H|].
  unfold draw. eauto.
Qed.

(** The patient block of a dict whose name and id are texts when they
    are there is drawn to the end. *)
Lemma patient_block_draws (pd : dict) :
  text_if_filled pd "name" -> text_if_filled pd "id" ->
  exists ops, add_patient_details (JDict pd) = Ok ops.
Proof.
  unfold text_if_filled. intros Hname Hid.
  unfold add_patient_details, chapter_title, draw, get.
  fold (field_or pd "name" JNull) (field_or pd "age" JNull)
       (field_or pd "gender" JNull) (field_or pd "id" JNull)
       (field_or pd "name" (JStr "N/A")) (field_or pd "age" (JStr "N/A"))
       (field_or pd "gender" (JStr "N/A")) (field_or pd "id" (JStr "N/A")).
  cbn [bind]. rewrite !truthy_field_or.
  destruct (filled pd "name");
    [destruct (Hname eq_refl) as [name Hn];
     rewrite (field_or_present _ _ _ _ Hn)|];
    (destruct (filled pd "id");
     [destruct (Hid eq_refl) as [id Hi];
      rewrite (field_or_present _ _ _ _ Hi)|]);
    destruct (filled pd "age"); destruct (filled pd "gender");
    eexists; reflexivity.
Qed.

Lemma summary_draws_a_list (items : list json) :
  exists ops, add_summary (JList items) = Ok ops.
Proof.
  destruct (for_each_ok (enumerate items 1)
              (fun '(idx, point) =>
                 draw [SetFont "Arial" "" 10;
                       MultiCell 0 6 (str_int idx ++ ". " ++ to_str point)]))
    as [out Hout].
  { intros [idx point]. eexists. reflexivity. }
  unfold add_summary, chapter_title, draw, andthen in *. cbn [iterate bind].
  rewrite Hout. eexists. reflexivity.
Qed.

Lemma disclaimer_draws_a_list (items : list json) :
  exists ops, add_disclaimer (JList items) = Ok ops.
Proof.
  destruct (for_each_ok (enumerate items 1)
              (fun '(idx, point) =>
                 draw [MultiCell 0 5 (str_int idx ++ ". " ++ to_str point)]))
    as [out Hout].
  { intros [idx point]. eexists. reflexivity. }
  unfold add_disclaimer, chapter_title, draw, andthen in *. cbn [iterate bind].
  rewrite Hout. eexists. reflexivity.
Qed.

(** The renderer draws a well-shaped record to the end. *)
Lemma well_shaped_document (env : Env) (d : dict) :
  well_shaped d -> exists ops, document env (JDict d) = Ok ops.
Proof.
  intros (Hpd & Htd & Hbp & Hsum & Hdis).
  destruct (section_of_dict d "patient_details" add_patient_details) as [o1 E1].
  { intros v Hv. destruct (Hpd v Hv) as (pd & -> & Hn & Hi).
    apply patient_block_draws; assumption. }
  destruct (section_of_dict d "test_date" add_test_date) as [o2 E2].
  { intros v Hv. unfold add_test_date.
    destruct (truthy v) eqn:Et; [|unfold draw; eauto].
    destruct (Htd v Hv Et) as [s ->]. eexists. reflexivity. }
  destruct (section_of_dict d "blood_parameters" add_blood_parameters)
    as [o3 E3].
  { intros v Hv. destruct (Hbp v Hv) as (entries & rows & -> & Hrows).
    unfold add_blood_parameters, chapter_title, draw, andthen.
    cbn [bind iterate]. rewrite (for_each_rows _ _ Hrows). eexists. reflexivity. }
  destruct (section_of_dict d "summary" add_summary) as [o4 E4].
  { intros v Hv. destruct (Hsum v Hv) as [items ->].
    apply summary_draws_a_list. }
  destruct (section_of_dict d "disclaimer" add_disclaimer) as [o5 E5].
  { intros v Hv. destruct (Hdis v Hv) as [items ->].
    apply disclaimer_draws_a_list. }
  unfold document. rewrite E1, E2, E3, E4, E5. eexists. reflexivity.
Qed.

(** The record of the success variant is well shaped when the decoded
    dict is. *)
Lemma success_record_well_shaped (now : string) (obj : dict) :
  well_shaped obj -> well_shaped (success_record now obj).
Proof.
  intros (Hpd & Htd & Hbp & Hsum & Hdis).
  assert (Hother : forall k, k <> "analysis_timestamp" -> k <> "disclaimer" ->
                     dict_get k (success_record now obj) = dict_get k obj).
  { intros k H1 H2. unfold success_record.
    destruct (dict_get "disclaimer" obj); now rewrite !dict_get_set_other. }
  repeat split.
  - intros v. rewrite Hother by discriminate. apply Hpd.
  - intros v. rewrite Hother by discriminate. apply Htd.
  - intros v. rewrite Hother by discriminate. apply Hbp.
  - intros v. rewrite Hother by discriminate. apply Hsum.
  - intros v. rewrite success_record_disclaimer.
    destruct (dict_get "disclaimer" obj) as [x|] eqn:E.
    + intros [= <-]. now apply Hdis.
    + intros [= <-]. eauto.
Qed.

End WellShapedFacts.

Section WellShapedExtras.
Import App.


Lemma record_table_well_shaped : well_shaped Examples.record_table.
Proof.
  repeat split; try discriminate.
  - intros v [= <-] _. eauto.
  - intros v [= <-].
    exists [Examples.entry_low; Examples.entry_bare; Examples.entry_high].
    eexists. split; [reflexivity|]. repeat econstructor.
  - intros v [= <-]. eauto.
Qed.



Lemma record_hemoglobin_well_shaped : well_shaped Examples.record_hemoglobin.
Proof.
  repeat split; try discriminate.
  - intros v [= <-] _. eauto.
  - intros v [= <-].
    exists [[ ("parameter", JStr "Hemoglobin"); ("value", JStr "10");
              ("reference_range", JStr "13-17"); ("status", JStr "abnormal") ]].
    eexists. split; [reflexivity|]. repeat econstructor.
Qed.


End WellShapedExtras.
